(** * Weather proxy backend ([dist/backend/app.py]): model and properties

    A shallow embedding of the Flask weather proxy: the TTL cache, the
    forecast normalisation, the Open-Meteo and WillyWeather adapters and
    the [/api/weather] request handler.

    Conventions of the embedding.
    - Python values that flow through the program are JSON-shaped; they
      are the inductive type [Py.value].  A [dict] is an association list
      in insertion order.
    - Python [float]s are IEEE 754 binary64 values, [SpecFloat.spec_float].
    - A [str] is the string of the bytes of its UTF-8 encoding; [len],
      indexing and iteration work on its code points.  What Python takes
      from Unicode tables is modelled for ASCII text: [strip], [lower],
      the literals that [int] and [float] accept, and [repr].  Query
      parameters and environment variables outside ASCII are out of the
      model's domain; where a property depends on what [int] or [float]
      raises on a string of an upstream body, it says that the strings
      of the body are ASCII.
    - An [int] of an upstream body has at most 4300 decimal digits, the
      limit beyond which [json.loads], like [int] and [str], raises.
    - Python exceptions are values of [Py.exn]; a computation that can
      raise returns [Py.res A] (pure code) or runs in the monad [M]
      (code that also touches the cache or the network).
    - The network and the clock are inputs: an [env] gives the readings of
      [time.time()] and the outcome of every [requests.get]. *)

From Stdlib Require Import ZArith String Ascii List SpecFloat.
From Stdlib Require Import DecimalString DecimalPos DecimalZ.
From stdpp Require Import base option list gmap strings.

Local Open Scope Z_scope.
#[local] Set Warnings "-register-all".

(** ** Python substrate *)

Module Py.

Abbreviation float := spec_float.

(** *** Exceptions *)

(** The exception classes the handler distinguishes or lets through.
    [Timeout], [HTTPError] and [RequestException] are the [requests]
    classes; [HTTPError] carries [response.status_code].  The message
    strings follow [str(e)] of CPython 3.11; only the handler's [detail]
    field shows them. *)
Inductive exn : Type :=
| ValueError (msg : string)
| TypeError (msg : string)
| OverflowError (msg : string)
| AttributeError (msg : string)
| KeyError (msg : string)
| IndexError (msg : string)
| Timeout (msg : string)
| HTTPError (status : Z) (msg : string)
| RequestException (msg : string).

Definition exn_str (e : exn) : string :=
  match e with
  | ValueError m | TypeError m | OverflowError m | AttributeError m
  | KeyError m | IndexError m | Timeout m | HTTPError _ m | RequestException m => m
  end.

(** Result of a pure computation that may raise. *)
Definition res (A : Type) : Type := exn + A.

Definition ok {A} (a : A) : res A := inr a.
Definition raise {A} (e : exn) : res A := inl e.

Definition res_bind {A B} (m : res A) (k : A -> res B) : res B :=
  match m with
  | inl e => inl e
  | inr a => k a
  end.

#[global] Instance res_mret : MRet res := @ok.
#[global] Instance res_mbind : MBind res := fun A B k m => res_bind m k.

(** [mapM] for [res]: the first exception, in list order, wins. *)
Fixpoint res_mapM {A B} (f : A -> res B) (l : list A) : res (list B) :=
  match l with
  | [] => ok []
  | a :: l' =>
      b ← f a;
      bs ← res_mapM f l';
      ok (b :: bs)
  end.

(** *** Strings *)

(** [str.isspace] on ASCII, the whitespace [strip] removes: TAB..CR,
    FS..US and SPACE. *)
Definition is_space (c : ascii) : bool :=
  let n := nat_of_ascii c in
  ((9 <=? n)%nat && (n <=? 13)%nat) || ((28 <=? n)%nat && (n <=? 32)%nat).

Fixpoint lstrip (s : string) : string :=
  match s with
  | String c s' => if is_space c then lstrip s' else s
  | EmptyString => EmptyString
  end.

Fixpoint rstrip (s : string) : string :=
  match s with
  | String c s' =>
      match rstrip s' with
      | EmptyString => if is_space c then EmptyString else String c EmptyString
      | t => String c t
      end
  | EmptyString => EmptyString
  end.

(** [s.strip()] *)
Definition strip (s : string) : string := rstrip (lstrip s).

Definition lower_ascii (c : ascii) : ascii :=
  let n := nat_of_ascii c in
  if ((65 <=? n)%nat && (n <=? 90)%nat) then ascii_of_nat (n + 32) else c.

(** [s.lower()] *)
Fixpoint lower (s : string) : string :=
  match s with
  | String c s' => String (lower_ascii c) (lower s')
  | EmptyString => EmptyString
  end.

(** [Py_ISSPACE], the whitespace that [int] and [float] skip around a
    literal: TAB..CR and SPACE, not FS..US. *)
Definition is_c_space (c : ascii) : bool :=
  let n := nat_of_ascii c in
  ((9 <=? n)%nat && (n <=? 13)%nat) || (n =? 32)%nat.

Fixpoint c_lstrip (s : string) : string :=
  match s with
  | String c s' => if is_c_space c then c_lstrip s' else s
  | EmptyString => EmptyString
  end.

Fixpoint c_rstrip (s : string) : string :=
  match s with
  | String c s' =>
      match c_rstrip s' with
      | EmptyString =>
          if is_c_space c then EmptyString else String c EmptyString
      | t => String c t
      end
  | EmptyString => EmptyString
  end.

(** The literal that [int] and [float] read in [s]. *)
Definition c_strip (s : string) : string := c_rstrip (c_lstrip s).

(** [str(n)] for an [int]. *)
Definition str_of_int (n : Z) : string := NilZero.string_of_int (Z.to_int n).

(** A continuation byte of UTF-8, [10xxxxxx]. *)
Definition is_continuation (c : ascii) : bool :=
  let n := nat_of_ascii c in (128 <=? n)%nat && (n <? 192)%nat.

(** The code points of a string, each as the string of its bytes: a
    byte with the continuation bytes that follow it. *)
Fixpoint code_points (s : string) : list string :=
  match s with
  | EmptyString => []
  | String c s' =>
      let rest := code_points s' in
      match s' with
      | String c' _ =>
          if is_continuation c'
          then match rest with
               | g :: gs => String c g :: gs
               | [] => [String c EmptyString]
               end
          else String c EmptyString :: rest
      | EmptyString => [String c EmptyString]
      end
  end.

(** The string is ASCII. *)
Fixpoint is_ascii (s : string) : bool :=
  match s with
  | String c s' => (nat_of_ascii c <? 128)%nat && is_ascii s'
  | EmptyString => true
  end.

Definition dquote : ascii := ascii_of_nat 34.
Definition backslash : ascii := ascii_of_nat 92.

(** The character [c] occurs in the string. *)
Fixpoint occurs (c : ascii) (s : string) : bool :=
  match s with
  | String c' s' => Ascii.eqb c' c || occurs c s'
  | EmptyString => false
  end.

Definition hex_digit (n : nat) : ascii :=
  if (n <? 10)%nat then ascii_of_nat (48 + n) else ascii_of_nat (87 + n).

(** One character inside [repr(s)], between quotes [quote]. *)
Definition repr_char (quote c : ascii) : string :=
  let n := nat_of_ascii c in
  if Ascii.eqb c quote || Ascii.eqb c backslash
  then String backslash (String c EmptyString)
  else if (n =? 9)%nat then String backslash "t"
  else if (n =? 10)%nat then String backslash "n"
  else if (n =? 13)%nat then String backslash "r"
  else if (n <? 32)%nat || (n =? 127)%nat
  then String backslash
         (String "x" (String (hex_digit (n / 16))
                        (String (hex_digit (n mod 16)) EmptyString)))
  else String c EmptyString.

Fixpoint repr_body (quote : ascii) (s : string) : string :=
  match s with
  | String c s' => repr_char quote c +:+ repr_body quote s'
  | EmptyString => EmptyString
  end.

(** [repr(s)] for a [str]: double quotes when the string holds a single
    quote and no double quote, single quotes otherwise; the quote and
    the backslash escaped, control characters as [\t], [\n], [\r] or
    [\xNN]. *)
Definition repr_str (s : string) : string :=
  let quote := if occurs "'" s && negb (occurs dquote s)
               then dquote else "'"%char in
  String quote (repr_body quote s +:+ String quote EmptyString).

(** *** Numeric literals *)

Definition is_digit (c : ascii) : bool :=
  let n := nat_of_ascii c in (48 <=? n)%nat && (n <=? 57)%nat.

Definition digit_val (c : ascii) : Z := Z.of_nat (nat_of_ascii c) - 48.

(** Reads the rest of a [digitpart ::= digit (["_"] digit)*] once its
    first digit is consumed: the value so far, the number of digits read
    and the unread suffix.  An underscore not followed by a digit is left
    unread. *)
Fixpoint digitpart_rest (acc : Z) (n : Z) (s : string) : Z * Z * string :=
  match s with
  | String c s' =>
      if is_digit c then digitpart_rest (10 * acc + digit_val c) (n + 1) s'
      else if Ascii.eqb c "_" then
        match s' with
        | String d s'' =>
            if is_digit d
            then digitpart_rest (10 * acc + digit_val d) (n + 1) s''
            else (acc, n, s)
        | EmptyString => (acc, n, s)
        end
      else (acc, n, s)
  | EmptyString => (acc, n, s)
  end.

(** A [digitpart] continuing the value [acc]. *)
Definition digitpart (acc : Z) (s : string) : option (Z * Z * string) :=
  match s with
  | String c s' =>
      if is_digit c then Some (digitpart_rest (10 * acc + digit_val c) 1 s')
      else None
  | EmptyString => None
  end.

(** An optional sign: [true] for ["-"]. *)
Definition read_sign (s : string) : bool * string :=
  match s with
  | String c s' =>
      if Ascii.eqb c "-" then (true, s')
      else if Ascii.eqb c "+" then (false, s')
      else (false, s)
  | EmptyString => (false, s)
  end.

(** [sys.get_int_max_str_digits()], at its default. *)
Definition int_max_str_digits : Z := 4300.

(** The [ValueError] of [int] on a string that is no literal; the
    message shows at most 200 characters of [repr(s)]. *)
Definition invalid_int_literal (s : string) : exn :=
  ValueError ("invalid literal for int() with base 10: "
                +:+ String.substring 0 200 (repr_str s)).

(** The [ValueError] of [int] on a literal of [n] digits, [n] above the
    limit. *)
Definition too_many_digits (n : Z) : exn :=
  ValueError ("Exceeds the limit (4300 digits) for integer string conversion: value has "
                +:+ str_of_int n
                +:+ " digits; use sys.set_int_max_str_digits() to increase the limit").

(** [int(s)] for a [str], base 10: surrounding whitespace, an optional
    sign, digits with single underscores between them, at most
    [int_max_str_digits] digits.  The digits are counted once they are
    read, before anything that follows them is looked at, an underscore
    apart. *)
Definition int_of_str (s : string) : res Z :=
  let '(neg, t) := read_sign (c_strip s) in
  match digitpart 0 t with
  | Some (v, n, rest) =>
      match rest with
      | EmptyString =>
          if int_max_str_digits <? n then raise (too_many_digits n)
          else ok (if neg then - v else v)
      | String c _ =>
          if Ascii.eqb c "_" || negb (int_max_str_digits <? n)
          then raise (invalid_int_literal s)
          else raise (too_many_digits n)
      end
  | None => raise (invalid_int_literal s)
  end.

(** The binary64 value nearest to [(-1)^neg * m * 10^e10] for [0 <= m],
    ties to even.  For a negative exponent the quotient is computed with
    more than 55 significant bits and a sticky bit, which the final
    rounding of [binary_normalize] turns into the correctly rounded
    result.  Far outside the range of binary64 the result is known
    without the power of ten: above [10^400] it is an infinity, and
    below [2^(log2 m + 1 + 3 * e10)], hence below [2^-1079], a zero. *)
Definition float_of_decimal (neg : bool) (m e10 : Z) : float :=
  let sgn x := if neg then - x else x in
  if m =? 0 then S754_zero neg
  else if 400 <? e10 then S754_infinity neg
  else if 0 <=? e10 then binary_normalize 53 1024 (sgn (m * 10 ^ e10)) 0 neg
  else if Z.log2 m + 3 * e10 <? - 1080 then S754_zero neg
  else
    let den := 10 ^ (- e10) in
    let s := Z.max 0 (64 + Z.log2 den - Z.log2 m) in
    let num := m * 2 ^ s in
    let sticky := if num mod den =? 0 then 0 else 1 in
    binary_normalize 53 1024 (sgn (2 * (num / den) + sticky)) (- (s + 1)) neg.

(** [exponent ::= ("e" | "E") [sign] digitpart], or nothing. *)
Definition read_exponent (s : string) : option (Z * string) :=
  match s with
  | String c s' =>
      if Ascii.eqb c "e" || Ascii.eqb c "E" then
        let '(eneg, t) := read_sign s' in
        match digitpart 0 t with
        | Some (v, _, rest) => Some (if eneg then - v else v, rest)
        | None => None
        end
      else Some (0, s)
  | EmptyString => Some (0, s)
  end.

(** [number ::= [digitpart] "." digitpart | digitpart ["."]]: the
    digits as one integer and the number of digits after the point. *)
Definition read_number (s : string) : option (Z * Z * string) :=
  match digitpart 0 s with
  | Some (ip, _, String c rest) =>
      if Ascii.eqb c "." then
        match digitpart ip rest with
        | Some (m, nfrac, rest') => Some (m, nfrac, rest')
        | None => Some (ip, 0, rest)
        end
      else Some (ip, 0, String c rest)
  | Some (ip, _, EmptyString) => Some (ip, 0, EmptyString)
  | None =>
      match s with
      | String c rest =>
          if Ascii.eqb c "." then digitpart 0 rest else None
      | EmptyString => None
      end
  end.

(** [float(s)] for a [str]. *)
Definition float_of_str (s : string) : res float :=
  let '(neg, t) := read_sign (c_strip s) in
  let low := lower t in
  if String.eqb low "inf" || String.eqb low "infinity" then ok (S754_infinity neg)
  else if String.eqb low "nan" then ok S754_nan
  else
    match read_number t with
    | Some (m, nfrac, rest) =>
        match read_exponent rest with
        | Some (e, EmptyString) => ok (float_of_decimal neg m (e - nfrac))
        | _ =>
            raise (ValueError ("could not convert string to float: "
                                 +:+ repr_str s))
        end
    | None =>
        raise (ValueError ("could not convert string to float: "
                             +:+ repr_str s))
    end.

(** [float(n)] for an [int]. *)
Definition float_of_int (n : Z) : res float :=
  match binary_normalize 53 1024 n 0 false with
  | S754_infinity _ => raise (OverflowError "int too large to convert to float")
  | f => ok f
  end.

(** [int(f)] for a [float]: truncation towards zero. *)
Definition int_of_float (f : float) : res Z :=
  match f with
  | S754_zero _ => ok 0
  | S754_infinity _ =>
      raise (OverflowError "cannot convert float infinity to integer")
  | S754_nan => raise (ValueError "cannot convert float NaN to integer")
  | S754_finite s m e =>
      let a := if 0 <=? e then Z.pos m * 2 ^ e else Z.pos m / 2 ^ (- e) in
      ok (if s then - a else a)
  end.

(** [x + n] for a [float] [x] and an [int] [n]. *)
Definition float_add_int (x : float) (n : Z) : res float :=
  y ← float_of_int n;
  ok (SFadd 53 1024 x y).

(** *** Values *)

(** The Python values of this program: what [json] parses and what
    [jsonify] prints.  [VDict] lists the items in insertion order; a
    [dict] built by Python has distinct keys, and on a list that repeats
    a key the operations below use its first binding. *)
Inductive value : Type :=
| VNone
| VBool (b : bool)
| VInt (n : Z)
| VFloat (f : float)
| VStr (s : string)
| VList (l : list value)
| VDict (d : list (string * value)).

Abbreviation dict := (list (string * value)).

(** [type(v).__name__] *)
Definition type_name (v : value) : string :=
  match v with
  | VNone => "NoneType"
  | VBool _ => "bool"
  | VInt _ => "int"
  | VFloat _ => "float"
  | VStr _ => "str"
  | VList _ => "list"
  | VDict _ => "dict"
  end.

(** [bool(v)] *)
Definition truthy (v : value) : bool :=
  match v with
  | VNone => false
  | VBool b => b
  | VInt n => negb (n =? 0)
  | VFloat f => negb (SFeqb f (S754_zero false))
  | VStr s => negb (String.eqb s EmptyString)
  | VList l => match l with [] => false | _ => true end
  | VDict d => match d with [] => false | _ => true end
  end.

(** [a or b] *)
Definition or_ (a b : value) : value := if truthy a then a else b.

(** [d.get(k)] on a [dict], [None] for Python's [None]. *)
Fixpoint dict_get (d : dict) (k : string) : option value :=
  match d with
  | [] => None
  | (k', v) :: d' => if String.eqb k' k then Some v else dict_get d' k
  end.

(** [d.get(k, dflt)] on a [dict]. *)
Definition dict_get_or (d : dict) (k : string) (dflt : value) : value :=
  default dflt (dict_get d k).

(** [d[k] = v]: a present key keeps its position. *)
Fixpoint dict_set (d : dict) (k : string) (v : value) : dict :=
  match d with
  | [] => [(k, v)]
  | (k', v') :: d' =>
      if String.eqb k' k then (k', v) :: d' else (k', v') :: dict_set d' k v
  end.

(** [{**base, **extra}] *)
Definition dict_merge (base extra : dict) : dict :=
  fold_left (fun d kv => dict_set d (fst kv) (snd kv)) extra base.

Definition no_attribute (v : value) (attr : string) : exn :=
  AttributeError (repr_str (type_name v) +:+ " object has no attribute "
                    +:+ repr_str attr).

(** [v.get(k, dflt)] on any value: only a [dict] has [get]. *)
Definition get (v : value) (k : string) (dflt : value) : res value :=
  match v with
  | VDict d => ok (dict_get_or d k dflt)
  | _ => raise (no_attribute v "get")
  end.

(** [len(v)] *)
Definition len (v : value) : res Z :=
  match v with
  | VStr s => ok (Z.of_nat (length (code_points s)))
  | VList l => ok (Z.of_nat (length l))
  | VDict d => ok (Z.of_nat (length d))
  | _ => raise (TypeError ("object of type " +:+ repr_str (type_name v)
                             +:+ " has no len()"))
  end.

(** [v[i]] for an [int] index [0 <= i]. *)
Definition index (v : value) (i : Z) : res value :=
  match v with
  | VList l =>
      match l !! Z.to_nat i with
      | Some x => ok x
      | None => raise (IndexError "list index out of range")
      end
  | VStr s =>
      match code_points s !! Z.to_nat i with
      | Some c => ok (VStr c)
      | None => raise (IndexError "string index out of range")
      end
  | VDict _ => raise (KeyError (str_of_int i))
  | _ => raise (TypeError (repr_str (type_name v)
                             +:+ " object is not subscriptable"))
  end.

(** The characters of a string, each a string of length one. *)
Definition chars (s : string) : list value := VStr <$> code_points s.

(** The items a [for] loop over [v] visits. *)
Definition iter (v : value) : res (list value) :=
  match v with
  | VList l => ok l
  | VStr s => ok (chars s)
  | VDict d => ok (map (fun kv => VStr (fst kv)) d)
  | _ => raise (TypeError (repr_str (type_name v)
                             +:+ " object is not iterable"))
  end.

(** [int(v)] *)
Definition int (v : value) : res Z :=
  match v with
  | VInt n => ok n
  | VBool b => ok (if b then 1 else 0)
  | VFloat f => int_of_float f
  | VStr s => int_of_str s
  | _ =>
      raise (TypeError
               ("int() argument must be a string, a bytes-like object or a real number, not "
                  +:+ repr_str (type_name v)))
  end.

(** [float(v)] *)
Definition float_ (v : value) : res float :=
  match v with
  | VInt n => float_of_int n
  | VBool b => ok (if b then SFone 53 1024 else S754_zero false)
  | VFloat f => ok f
  | VStr s => float_of_str s
  | _ =>
      raise (TypeError
               ("float() argument must be a string or a real number, not "
                  +:+ repr_str (type_name v)))
  end.

(** The value is not a string outside ASCII: [int] and [float] convert
    it as modelled. *)
Definition ascii_scalar (v : value) : Prop :=
  match v with
  | VStr s => is_ascii s = true
  | _ => True
  end.

(** Every string of the value, keys included, is ASCII. *)
Fixpoint ascii_value (v : value) : bool :=
  match v with
  | VStr s => is_ascii s
  | VList l => forallb ascii_value l
  | VDict d => forallb (fun kv => is_ascii (fst kv) && ascii_value (snd kv)) d
  | _ => true
  end.

(** [l[:n]] for a list and an [int] [n], negative [n] counting from the
    end. *)
Definition slice_to {A} (l : list A) (n : Z) : list A :=
  if 0 <=? n then take (Z.to_nat n) l
  else take (Z.to_nat (Z.of_nat (length l) + n)) l.

End Py.

Import Py.

(** ** Configuration, environment and state *)

(** The module-level configuration constants that the handler reads. *)
Record config : Type := Config {
  WILLYWEATHER_API_KEY : string;
  USE_MOCK : bool;
  CACHE_TTL_SECONDS : Z;
  REQUEST_TIMEOUT : float;
  WEATHER_PROVIDER : string;
}.

(** The configuration as the module computes it from the process
    environment [getenv]; [None] when [int] or [float] raises at import
    time. *)
Definition load_config (getenv : string -> option string) : option config :=
  let use_mock := default "1" (getenv "USE_MOCK") in
  match int_of_str (default "300" (getenv "CACHE_TTL_SECONDS")),
        float_of_str (default "5" (getenv "REQUEST_TIMEOUT")) with
  | inr ttl, inr timeout =>
      Some {|
        WILLYWEATHER_API_KEY := strip (default EmptyString (getenv "WILLYWEATHER_API_KEY"));
        USE_MOCK := String.eqb use_mock "1" || String.eqb use_mock "true"
                    || String.eqb use_mock "True";
        CACHE_TTL_SECONDS := ttl;
        REQUEST_TIMEOUT := timeout;
        WEATHER_PROVIDER := lower (strip (default "mock" (getenv "WEATHER_PROVIDER")));
      |}
  | _, _ => None
  end.

(** One [requests.get]: the endpoint and what the call sends. *)
Inductive call : Type :=
| OpenMeteoForecast (latitude longitude : float) (forecast_days : Z)
| WillyWeatherSearch (api_key : string) (lat lng : float)
| WillyWeatherForecast (api_key : string) (location_id : Z) (days : Z).

(** What one [requests.get] does: it raises [requests.Timeout], raises
    another [RequestException], or returns a response with a status code
    and a body ([None] when the body is not JSON, so that [res.json()]
    raises). *)
Inductive http_result : Type :=
| TimedOut
| ConnectionFailed (msg : string)
| Response (status_code : Z) (json : option value).

(** The surroundings of one request: the value [time.time()] returns in
    [cache_get], the value it returns in [cache_set], the upstream
    servers, and, for a call answered by a body that is not JSON, the
    message [str(e)] of the exception that [res.json()] raises on that
    body. *)
Record env : Type := Env {
  time_at_get : float;
  time_at_set : float;
  upstream : call -> http_result;
  json_error : call -> string;
}.

(** [CacheType = Dict[str, Tuple[float, dict]]] *)
Abbreviation CacheType := (gmap string (float * dict)).

(** The process state a request can change or that observes it: the
    global [cache] and the log of upstream calls issued so far (most
    recent last). *)
Record world : Type := World {
  cache : CacheType;
  calls : list call;
}.

(** Stateful computations that may raise.  The state an exception leaves
    behind is kept. *)
Definition M (A : Type) : Type := world -> res A * world.

Definition M_ret {A} (a : A) : M A := fun w => (ok a, w).

Definition M_bind {A B} (m : M A) (k : A -> M B) : M B :=
  fun w =>
    match m w with
    | (inl e, w') => (inl e, w')
    | (inr a, w') => k a w'
    end.

#[global] Instance M_mret : MRet M := @M_ret.
#[global] Instance M_mbind : MBind M := fun A B k m => M_bind m k.

(** A pure computation inside [M]. *)
Definition lift {A} (r : res A) : M A := fun w => (r, w).

(** [try: body  except ...: handler] *)
Definition try_except {A} (body : M A) (handler : exn -> M A) : M A :=
  fun w =>
    match body w with
    | (inl e, w') => handler e w'
    | (inr a, w') => (inr a, w')
    end.

Definition get_cache : M CacheType := fun w => (ok (cache w), w).

(** The state with the cache replaced by [c]. *)
Definition with_cache (c : CacheType) (w : world) : world :=
  {| cache := c; calls := calls w |}.

Definition put_cache (c : CacheType) : M unit :=
  fun w => (ok tt, with_cache c w).

(** The state once the upstream call [c] has been issued. *)
Definition log_call (c : call) (w : world) : world :=
  {| cache := cache w; calls := calls w ++ [c] |}.

(** What a Flask view returns: [jsonify(body), status]. *)
Record response : Type := HttpResponse {
  status : Z;
  body : dict;
}.

(** The query parameters the handler reads, [None] when absent. *)
Record request : Type := Request {
  arg_lat : option string;
  arg_lon : option string;
  arg_days : option string;
  arg_provider : option string;
}.

(** ** The application *)

(** [—], the placeholder summary (U+2014 in UTF-8). *)
Definition em_dash : string :=
  String (ascii_of_nat 226) (String (ascii_of_nat 128)
    (String (ascii_of_nat 148) EmptyString)).

(** [cache_get(key)] when [time.time()] returns [now]. *)
Definition cache_get (now : float) (key : string) : M (option dict) :=
  c ← get_cache;
  match c !! key with
  | None => mret None
  | Some (exp, data) =>
      if SFltb exp now then
        _ ← put_cache (delete key c);
        mret None
      else mret (Some data)
  end.

(** [cache_set(key, data, ttl)] when [time.time()] returns [now]. *)
Definition cache_set (now : float) (key : string) (data : dict) (ttl : Z)
  : M unit :=
  exp ← lift (float_add_int now ttl);
  c ← get_cache;
  put_cache (<[key := (exp, data)]> c).

(** One element of the list [normalize_forecast] builds, for [enumerate]
    index [i]. *)
Definition normalize_day (i : nat) (d : dict) : value :=
  VDict [("day", VInt (Z.of_nat i + 1));
         ("summary", dict_get_or d "summary" (VStr em_dash));
         ("tempMin", dict_get_or d "tempMin" VNone);
         ("tempMax", dict_get_or d "tempMax" VNone)].

Definition normalize_forecast (days : list dict) : dict :=
  [("forecast", VList (imap normalize_day days))].

(** The [groups] table of [map_open_meteo_code], in insertion order. *)
Definition groups : list (list Z * string) :=
  [([0], "Clear sky");
   ([1], "Mainly clear");
   ([2], "Partly cloudy");
   ([3], "Overcast");
   ([45; 48], "Fog");
   ([51; 53; 55], "Drizzle");
   ([56; 57], "Freezing drizzle");
   ([61; 63; 65], "Rain");
   ([66; 67], "Freezing rain");
   ([71; 73; 75; 77], "Snow");
   ([80; 81; 82], "Rain showers");
   ([85; 86], "Snow showers");
   ([95], "Thunderstorm");
   ([96; 97; 99], "Thunderstorm w/ hail")].

(** [code in keys] *)
Definition code_in (code : Z) (keys : list Z) : bool :=
  existsb (Z.eqb code) keys.

Definition map_open_meteo_code (code : Z) : string :=
  match find (fun g => code_in code (fst g)) groups with
  | Some (_, label) => label
  | None => "Code " +:+ str_of_int code
  end.

Section App.

(** The module's configuration and the surroundings of the request
    being served. *)
Context (cfg : config) (e : env).

(** [requests.get(...)]: logs the call and returns the status code and
    the body, or raises. *)
Definition requests_get (c : call) : M (Z * option value) :=
  fun w =>
    let w' := log_call c w in
    match upstream e c with
    | TimedOut => (raise (Timeout "Read timed out."), w')
    | ConnectionFailed msg => (raise (RequestException msg), w')
    | Response st j => (ok (st, j), w')
    end.

(** [res.raise_for_status()] *)
Definition raise_for_status (st : Z) : res unit :=
  if (400 <=? st) && (st <? 600)
  then raise (HTTPError st (str_of_int st +:+ " Error"))
  else ok tt.

(** [res.json()] on the response to the call [c]. *)
Definition res_json (c : call) (j : option value) : res value :=
  match j with
  | Some v => ok v
  | None => raise (RequestException (json_error e c))
  end.

(** The body of the loop of [open_meteo_forecast]: the dict appended
    for index [i]. *)
Definition open_meteo_day (times tmins tmaxs codes : value) (i : Z)
  : res dict :=
  ncodes ← len codes;
  summary ← (if i <? ncodes
             then c ← index codes i;
                  n ← int c;
                  ok (VStr (map_open_meteo_code n))
             else ok (VStr em_dash));
  ntmins ← len tmins;
  temp_min ← (if i <? ntmins
              then x ← index tmins i; f ← float_ x; ok (VFloat f)
              else ok VNone);
  ntmaxs ← len tmaxs;
  temp_max ← (if i <? ntmaxs
              then x ← index tmaxs i; f ← float_ x; ok (VFloat f)
              else ok VNone);
  date ← index times i;
  ok [("date", date); ("summary", summary);
      ("tempMin", temp_min); ("tempMax", temp_max)].

(** What [open_meteo_forecast] computes from the decoded body [j]. *)
Definition open_meteo_days (j : value) (days : Z) : res dict :=
  daily ← get j "daily" (VDict []);
  times ← get daily "time" (VList []);
  tmins ← get daily "temperature_2m_min" (VList []);
  tmaxs ← get daily "temperature_2m_max" (VList []);
  codes ← get daily "weathercode" (VList []);
  n ← len times;
  out_days ← res_mapM (open_meteo_day times tmins tmaxs codes)
                      (seqZ 0 (Z.min n days));
  ok (normalize_forecast out_days).

Definition open_meteo_forecast (lat lon : float) (days : Z) : M dict :=
  r ← requests_get (OpenMeteoForecast lat lon days);
  _ ← lift (raise_for_status (fst r));
  j ← lift (res_json (OpenMeteoForecast lat lon days) (snd r));
  lift (open_meteo_days j days).

(** [data.get("location") if isinstance(data, dict) else None] *)
Definition location_of (data : value) : value :=
  match data with
  | VDict d => dict_get_or d "location" VNone
  | _ => VNone
  end.

Definition willyweather_find_location_id (lat lon : float) : M (option Z) :=
  if String.eqb (WILLYWEATHER_API_KEY cfg) EmptyString
  then lift (raise (ValueError "WILLYWEATHER_API_KEY missing"))
  else
    r ← requests_get (WillyWeatherSearch (WILLYWEATHER_API_KEY cfg) lat lon);
    _ ← lift (raise_for_status (fst r));
    data ← lift (res_json
                   (WillyWeatherSearch (WILLYWEATHER_API_KEY cfg) lat lon)
                   (snd r));
    let loc := location_of data in
    match loc with
    | VDict d =>
        if truthy loc
        then id ← lift (int (dict_get_or d "id" VNone)); mret (Some id)
        else mret None
    | _ => mret None
    end.

(** The inner loop of [willyweather_forecast_by_id]: the first entry
    whose [night] is falsy or absent, [None] when the loop ends without
    a [break]. *)
Fixpoint first_day_entry (entries : list value) : res value :=
  match entries with
  | [] => ok VNone
  | en :: rest =>
      night ← get en "night" (VBool false);
      if negb (truthy night) then ok en else first_day_entry rest
  end.

(** The body of the outer loop for the day object [d]: the dict it
    appends to [out_days], if any. *)
Definition willyweather_day (d : value) : res (option dict) :=
  ents ← get d "entries" VNone;
  let entries := or_ ents (VList []) in
  items ← iter entries;
  found ← first_day_entry items;
  chosen ← (if negb (truthy found) && truthy entries
            then index entries 0
            else ok found);
  if truthy chosen then
    precis ← get chosen "precis" VNone;
    tmin ← get chosen "min" VNone;
    tmax ← get chosen "max" VNone;
    ok (Some [("summary", or_ precis (VStr em_dash));
              ("tempMin", tmin); ("tempMax", tmax)])
  else ok None.

(** The [days_arr] that [willyweather_forecast_by_id] finds in the
    decoded body. *)
Definition willyweather_days_arr (body : value) : res value :=
  let j := or_ body (VDict []) in
  fc ← get j "forecasts" VNone;
  wt ← get (or_ fc (VDict [])) "weather" VNone;
  let forecasts := or_ wt (VDict []) in
  da ← get forecasts "days" VNone;
  ok (or_ da (VList [])).

(** The outer loop over [days_arr] and the final normalisation. *)
Definition willyweather_out_days (days_arr : value) (days : Z) : res dict :=
  ds ← iter days_arr;
  appended ← res_mapM willyweather_day ds;
  let out_days := omap id appended in
  ok (normalize_forecast (slice_to out_days days)).

(** What [willyweather_forecast_by_id] computes from the decoded body. *)
Definition willyweather_days (body : value) (days : Z) : res dict :=
  days_arr ← willyweather_days_arr body;
  willyweather_out_days days_arr days.

Definition willyweather_forecast_by_id (location_id days : Z) : M dict :=
  if String.eqb (WILLYWEATHER_API_KEY cfg) EmptyString
  then lift (raise (ValueError "WILLYWEATHER_API_KEY missing"))
  else
    r ← requests_get
          (WillyWeatherForecast (WILLYWEATHER_API_KEY cfg) location_id days);
    _ ← lift (raise_for_status (fst r));
    j ← lift (res_json
                (WillyWeatherForecast (WILLYWEATHER_API_KEY cfg)
                   location_id days)
                (snd r));
    lift (willyweather_days j days).

(** [{"error": msg}] *)
Definition error_body (msg : string) : dict := [("error", VStr msg)].

(** One element of the mock forecast, for [i] in [range(days)]. *)
Definition mock_day (i : Z) : value :=
  VDict [("day", VInt (i + 1)); ("summary", VStr "Partly cloudy");
         ("tempMin", VInt (10 + i)); ("tempMax", VInt (18 + i))].

(** [provider == 'mock' or (provider == WEATHER_PROVIDER and USE_MOCK)] *)
Definition mock_mode (provider : string) : bool :=
  String.eqb provider "mock"
  || (String.eqb provider (WEATHER_PROVIDER cfg) && USE_MOCK cfg).

(** [f"weather:{provider}:{lat}:{lon}:{days}"] *)
Definition cache_key_of (provider lat lon : string) (days : Z) : string :=
  "weather:" +:+ provider +:+ ":" +:+ lat +:+ ":" +:+ lon +:+ ":"
    +:+ str_of_int days.

(** The [except] clauses that close the provider block. *)
Definition upstream_handler (ex : exn) : M response :=
  match ex with
  | Timeout _ => mret (HttpResponse 504 (error_body "Upstream timeout"))
  | HTTPError st _ =>
      mret (HttpResponse 502 [("error", VStr "Upstream error");
                              ("status", VInt st)])
  | _ =>
      mret (HttpResponse 502 [("error", VStr "Upstream failure");
                              ("detail", VStr (exn_str ex))])
  end.

(** The [try] block that dispatches on the provider name.  [lat_f] and
    [lon_f] are [float(lat)] and [float(lon)], which the block computes
    again for the response. *)
Definition provider_block (provider cache_key : string) (lat_f lon_f : float)
    (days : Z) : M response :=
  if String.eqb provider "open-meteo" then
    normalized ← open_meteo_forecast lat_f lon_f days;
    let data := dict_merge
                  [("location", VDict [("lat", VFloat lat_f);
                                       ("lon", VFloat lon_f)]);
                   ("days", VInt days)]
                  normalized in
    _ ← cache_set (time_at_set e) cache_key data (CACHE_TTL_SECONDS cfg);
    mret (HttpResponse 200 data)
  else if String.eqb provider "willyweather" then
    loc_id ← willyweather_find_location_id lat_f lon_f;
    match loc_id with
    | Some id =>
        if id =? 0 then
          mret (HttpResponse 404
                  (error_body "No WillyWeather location found for coordinates"))
        else
          normalized ← willyweather_forecast_by_id id days;
          let data := dict_merge
                        [("location",
                           VDict [("lat", VFloat lat_f);
                                  ("lon", VFloat lon_f);
                                  ("willyWeatherLocationId", VInt id)]);
                         ("days", VInt days)]
                        normalized in
          _ ← cache_set (time_at_set e) cache_key data (CACHE_TTL_SECONDS cfg);
          mret (HttpResponse 200 data)
    | None =>
        mret (HttpResponse 404
                (error_body "No WillyWeather location found for coordinates"))
    end
  else
    mret (HttpResponse 400
            (error_body ("Unknown provider '" +:+ provider +:+ "'"))).

(** The [data] dict of the mock branch. *)
Definition mock_data (lat_f lon_f : float) (days : Z) : dict :=
  [("location", VDict [("lat", VFloat lat_f); ("lon", VFloat lon_f)]);
   ("days", VInt days);
   ("mock", VBool true);
   ("forecast", VList (mock_day <$> seqZ 0 days))].

(** The mock branch: no upstream call. *)
Definition mock_branch (cache_key lat lon : string) (days : Z) : M response :=
  lat_f ← lift (float_of_str lat);
  lon_f ← lift (float_of_str lon);
  let data := mock_data lat_f lon_f days in
  _ ← cache_set (time_at_set e) cache_key data (CACHE_TTL_SECONDS cfg);
  mret (HttpResponse 200 data).

(** The provider branch: parse the coordinates, then the [try] block. *)
Definition upstream_branch (provider cache_key lat lon : string) (days : Z)
  : M response :=
  match (lat_f ← float_of_str lat;
         lon_f ← float_of_str lon;
         ok (lat_f, lon_f)) with
  | inl (ValueError _) =>
      mret (HttpResponse 400 (error_body "Invalid lat/lon"))
  | inl ex => lift (raise ex)
  | inr (lat_f, lon_f) =>
      try_except (provider_block provider cache_key lat_f lon_f days)
                 upstream_handler
  end.

(** The handler from the cache lookup on, for present [lat] and [lon]. *)
Definition weather_lookup (provider lat lon : string) (days : Z)
  : M response :=
  let cache_key := cache_key_of provider lat lon days in
  cached ← cache_get (time_at_get e) cache_key;
  match cached with
  | Some ((_ :: _) as data) =>
      mret (HttpResponse 200 (dict_merge [("source", VStr "cache")] data))
  | _ =>
      if mock_mode provider
      then mock_branch cache_key lat lon days
      else upstream_branch provider cache_key lat lon days
  end.

(** [(request.args.get('provider') or WEATHER_PROVIDER).strip().lower()] *)
Definition resolve_provider (rq : request) : string :=
  lower (strip (match arg_provider rq with
                | Some (String _ _ as p) => p
                | _ => WEATHER_PROVIDER cfg
                end)).

(** The view function of [GET /api/weather].  An exception it raises is
    one that no [except] clause of the handler catches. *)
Definition weather (rq : request) : M response :=
  days ← lift (int_of_str (default "7" (arg_days rq)));
  let provider := resolve_provider rq in
  match arg_lat rq, arg_lon rq with
  | Some (String _ _ as lat), Some (String _ _ as lon) =>
      weather_lookup provider lat lon days
  | _, _ => mret (HttpResponse 400 (error_body "lat and lon are required"))
  end.

End App.

(** ** Runs and states *)

(** A freshly started process. *)
Definition fresh_world : world := {| cache := ∅; calls := [] |}.

(** The state after serving a sequence of requests, each in its own
    surroundings, whatever the handler answered or raised. *)
Definition serve_all (cfg : config) (steps : list (env * request)) (w : world)
  : world :=
  fold_left (fun w' step => (weather cfg (fst step) (snd step) w').2) steps w.

(** The states of a process with configuration [cfg]: the fresh one, and
    the state after any request served in any surroundings. *)
Inductive reachable (cfg : config) : world -> Prop :=
| reachable_fresh : reachable cfg fresh_world
| reachable_step (w : world) (e : env) (rq : request) :
    reachable cfg w -> reachable cfg (weather cfg e rq w).2.

(** The live entry under [key] at time [now]: what [cache_get] returns. *)
Definition cache_lookup (now : float) (key : string) (c : CacheType)
  : option dict :=
  match c !! key with
  | Some (exp, data) => if SFltb exp now then None else Some data
  | None => None
  end.

(** The cache key of a request that reaches the cache lookup. *)
Definition request_key (cfg : config) (rq : request) : option string :=
  match int_of_str (default "7" (arg_days rq)), arg_lat rq, arg_lon rq with
  | inr days, Some (String _ _ as lat), Some (String _ _ as lon) =>
      Some (cache_key_of (resolve_provider cfg rq) lat lon days)
  | _, _, _ => None
  end.

(** ** The WillyWeather adapter as the specification words it *)

(** An entry flagged as not night-time: [night] false or absent. *)
Definition not_night (en : dict) : bool :=
  negb (truthy (dict_get_or en "night" (VBool false))).

(** The first entry flagged as not night-time; with no such entry, the
    first entry; with no entry, nothing. *)
Definition spec_chosen_entry (entries : list dict) : option dict :=
  match find not_night entries with
  | Some en => Some en
  | None => head entries
  end.

(** The chosen entry's summary and min/max fields as a forecast day. *)
Definition spec_forecast_day (en : dict) : dict :=
  [("summary", or_ (dict_get_or en "precis" VNone) (VStr em_dash));
   ("tempMin", dict_get_or en "min" VNone);
   ("tempMax", dict_get_or en "max" VNone)].

(** One forecast day per day that has an entry, days without entries
    left out, the list cut to the requested count and normalised. *)
Definition spec_willyweather_days (days_entries : list (list dict)) (days : Z)
  : dict :=
  normalize_forecast
    (take (Z.to_nat days)
       (omap (fun entries => spec_forecast_day <$> spec_chosen_entry entries)
             days_entries)).

(** The day object [d] holds the entry objects [entries]: it is a dict
    whose [entries] is that list, or is absent or falsy when the list is
    empty. *)
Definition day_has_entries (d : value) (entries : list dict) : Prop :=
  exists dd, d = VDict dd /\
    or_ (dict_get_or dd "entries" VNone) (VList []) = VList (VDict <$> entries).

(** ** The Open-Meteo adapter on well-typed arrays *)

(** The dict the loop of [open_meteo_forecast] appends at index [i] when
    the weather codes convert to the integers [ncodes] and the
    temperatures to the floats [fmins] and [fmaxs]. *)
Definition open_meteo_day_of (ncodes : list Z) (fmins fmaxs : list float)
    (date : value) (i : nat) : dict :=
  [("date", date);
   ("summary", VStr (match ncodes !! i with
                     | Some n => map_open_meteo_code n
                     | None => em_dash
                     end));
   ("tempMin", match fmins !! i with Some f => VFloat f | None => VNone end);
   ("tempMax", match fmaxs !! i with Some f => VFloat f | None => VNone end)].

(** ** Predicates on computations, bodies and keys *)

(** [m] changes the cache under the keys in [keys] only. *)
Definition touches_only {A} (keys : option string) (m : M A) : Prop :=
  forall (w : world) (k : string),
    keys <> Some k -> cache (m w).2 !! k = cache w !! k.

(** The body of a 200 answer computed by a provider: location, days and
    forecast, with the mock marker in mock mode. *)
Definition forecast_body (b : dict) : Prop :=
  exists (loc : value) (d : Z) (fc : list value),
    b = [("location", loc); ("days", VInt d); ("forecast", VList fc)]
    \/ b = [("location", loc); ("days", VInt d); ("mock", VBool true);
            ("forecast", VList fc)].

(** The string has no [":"]. *)
Fixpoint no_colon (s : string) : bool :=
  match s with
  | String c s' => negb (Ascii.eqb c ":") && no_colon s'
  | EmptyString => true
  end.


(** ** Sample configurations, surroundings, requests and bodies *)

(** A process environment given as a list of bindings. *)
Definition getenv_of (vars : list (string * string)) (name : string)
  : option string :=
  snd <$> find (fun kv => String.eqb (fst kv) name) vars.

(** The float a literal denotes, for literals [float] accepts. *)
Definition float_lit (s : string) : float :=
  match float_of_str s with
  | inr f => f
  | inl _ => S754_nan
  end.

(** The configuration of a process started with no variable set. *)
Definition default_config : config :=
  {| WILLYWEATHER_API_KEY := EmptyString;
     USE_MOCK := true;
     CACHE_TTL_SECONDS := 300;
     REQUEST_TIMEOUT := float_lit "5";
     WEATHER_PROVIDER := "mock" |}.

(** Started with only [WEATHER_PROVIDER=open-meteo]: mock mode stays on. *)
Definition open_meteo_default_config : config :=
  {| WILLYWEATHER_API_KEY := EmptyString;
     USE_MOCK := true;
     CACHE_TTL_SECONDS := 300;
     REQUEST_TIMEOUT := float_lit "5";
     WEATHER_PROVIDER := "open-meteo" |}.

(** Started with [USE_MOCK=0], [WEATHER_PROVIDER=open-meteo] and an API
    key. *)
Definition live_config : config :=
  {| WILLYWEATHER_API_KEY := "secret";
     USE_MOCK := false;
     CACHE_TTL_SECONDS := 300;
     REQUEST_TIMEOUT := float_lit "5";
     WEATHER_PROVIDER := "open-meteo" |}.



(** What [res.json()] says of a body that does not start a JSON value,
    an empty body or an HTML page for instance. *)
Definition expecting_value : string :=
  "Expecting value: line 1 column 1 (char 0)".

(** Surroundings in which the clock reads [now] and every upstream call
    times out. *)
Definition offline_at (now : float) : env :=
  {| time_at_get := now; time_at_set := now; upstream := fun _ => TimedOut;
     json_error := fun _ => expecting_value |}.

(** Surroundings in which the clock reads [now] and every upstream call
    is answered 200 with the body [j]. *)
Definition answering_at (now : float) (j : value) : env :=
  {| time_at_get := now; time_at_set := now;
     upstream := fun _ => Response 200 (Some j);
     json_error := fun _ => expecting_value |}.

Definition melbourne (days provider : option string) : request :=
  {| arg_lat := Some "-37.8136"; arg_lon := Some "144.9631";
     arg_days := days; arg_provider := provider |}.

(** The WillyWeather body around the day objects [ds]. *)
Definition willyweather_body (ds : list value) : value :=
  VDict [("location", VDict [("id", VInt 4950); ("name", VStr "Melbourne")]);
         ("forecasts", VDict [("weather", VDict [("days", VList ds)])])].

(** The day object around the entry objects [entries]. *)
Definition day_of (entries : list dict) : value :=
  VDict [("dateTime", VStr "2024-01-01 00:00:00");
         ("entries", VList (VDict <$> entries))].

Definition night_entry : dict :=
  [("night", VBool true); ("precis", VStr "Clear"); ("min", VInt 4);
   ("max", VInt 9)].

Definition sunny_entry : dict :=
  [("night", VBool false); ("precis", VStr "Sunny"); ("min", VInt 5);
   ("max", VInt 20)].

(** The Open-Meteo body of a three-day answer whose maximum-temperature
    array holds one element only. *)
Definition open_meteo_body : value :=
  VDict [("daily",
          VDict [("time", VList [VStr "2024-01-01"; VStr "2024-01-02";
                                 VStr "2024-01-03"]);
                 ("temperature_2m_min",
                  VList [VFloat (float_lit "11.5"); VInt 12; VInt 9]);
                 ("temperature_2m_max", VList [VFloat (float_lit "21.5")]);
                 ("weathercode", VList [VInt 61; VInt 999; VInt 0])])].

(** The answer of the mock branch to [melbourne (Some "3") None]. *)
Definition mock_answer : response :=
  HttpResponse 200
    (mock_data (float_lit "-37.8136") (float_lit "144.9631") 3).

(** The state after that answer was stored at time 1700000000 with the
    default TTL of 300 seconds. *)
Definition world_after_mock_answer : world :=
  with_cache
    {[ "weather:mock:-37.8136:144.9631:3"
       := (float_lit "1700000300", body mock_answer) ]}
    fresh_world.

(** ** One upstream exchange *)

(** What the three lines [res = requests.get(...)],
    [res.raise_for_status()], [res.json()] yield for the call [c]: the
    decoded body, or the exception one of them raises. *)
Definition fetch_json (e : env) (c : call) : res value :=
  match upstream e c with
  | TimedOut => raise (Timeout "Read timed out.")
  | ConnectionFailed msg => raise (RequestException msg)
  | Response st j => _ ← raise_for_status st; res_json e c j
  end.

(** What [willyweather_find_location_id] computes from the decoded body. *)
Definition location_id_of (data : value) : res (option Z) :=
  match location_of data with
  | VDict d =>
      if truthy (VDict d)
      then id ← int (dict_get_or d "id" VNone); ok (Some id)
      else ok None
  | _ => ok None
  end.

(** The message of the exception that the exchange [c] raises when it
    fails otherwise than by a timeout or an HTTP error: that of the
    connection error, or that of [res.json()] on a body that is not
    JSON. *)
Definition failure_detail (e : env) (c : call) : option string :=
  match upstream e c with
  | ConnectionFailed msg => Some msg
  | Response st None =>
      if (400 <=? st) && (st <? 600) then None else Some (json_error e c)
  | _ => None
  end.

(** The first upstream call of a request for [provider]. *)
Definition first_call (cfg : config) (provider : string) (lat lon : float)
    (days : Z) : call :=
  if String.eqb provider "open-meteo"
  then OpenMeteoForecast lat lon days
  else WillyWeatherSearch (WILLYWEATHER_API_KEY cfg) lat lon.

(** The provider is one the handler has an adapter for, and the adapter
    can run: Open-Meteo, or WillyWeather with an API key configured. *)
Definition has_adapter (cfg : config) (provider : string) : Prop :=
  provider = "open-meteo"
  \/ (provider = "willyweather" /\ WILLYWEATHER_API_KEY cfg <> EmptyString).

(** Surroundings in which the clock reads [now] and every upstream call
    has the outcome [r]. *)
Definition upstream_at (now : float) (r : http_result) : env :=
  {| time_at_get := now; time_at_set := now; upstream := fun _ => r;
     json_error := fun _ => expecting_value |}.

(** The request [rq], served in state [w], passes the presence check,
    misses the cache, is not in mock mode and reaches the [try] block of
    the handler with provider [p], the coordinates [latf] and [lonf]
    parsed from [lat] and [lon], and the day count [d]. *)
Definition reaches_provider (cfg : config) (e : env) (rq : request)
    (w : world) (p lat lon : string) (latf lonf : float) (d : Z) : Prop :=
  arg_lat rq = Some lat /\ arg_lon rq = Some lon
  /\ float_of_str lat = ok latf /\ float_of_str lon = ok lonf
  /\ int_of_str (default "7" (arg_days rq)) = ok d
  /\ resolve_provider cfg rq = p
  /\ mock_mode cfg p = false
  /\ cache_lookup (time_at_get e) (cache_key_of p lat lon d) (cache w) = None.

(** ** More sample data *)

(** The clock reading of the samples. *)
Definition noon : float := float_lit "1700000000".

(** The coordinates of [melbourne] as [float] parses them. *)
Definition melbourne_lat : float := float_lit "-37.8136".
Definition melbourne_lon : float := float_lit "144.9631".

(** ** Upstream calls of a computation *)

(** [m] issues at most [n] upstream calls and withdraws none from the
    log. *)
Definition issues_at_most {A} (n : nat) (m : M A) : Prop :=
  forall w : world,
    exists cs : list call,
      calls (m w).2 = calls w ++ cs /\ (length cs <= n)%nat.

(** The number of upstream calls one request may cost. *)
Definition call_budget (cfg : config) (rq : request) : nat :=
  if mock_mode cfg (resolve_provider cfg rq) then 0%nat else 2%nat.

(** ** Reading a normalised body back *)

(** The day objects under [forecast] in a body. *)
Definition forecast_of (b : dict) : list dict :=
  match dict_get b "forecast" with
  | Some (VList l) =>
      omap (fun v => match v with VDict d => Some d | _ => None end) l
  | _ => []
  end.

(** ** The weather code table in another iteration order *)

(** The loop of [map_open_meteo_code] over the groups in the order
    [gs]. *)
Definition map_code_in_order (gs : list (list Z * string)) (code : Z)
  : string :=
  match find (fun g => code_in code (fst g)) gs with
  | Some (_, label) => label
  | None => "Code " +:+ str_of_int code
  end.

(** ** Levels of a WillyWeather body *)

(** [d.get(k)] is falsy: the key is absent or its value is. *)
Definition falsy_at (d : dict) (k : string) : Prop :=
  truthy (dict_get_or d k VNone) = false.

(** ** The two exchanges of a WillyWeather request *)

(** The location search found the location object [loc] with the id
    [id]: the call is answered with a status outside 400 to 599 by a
    JSON body whose [location] is the non-empty dict [loc], and [int]
    turns its [id] into [id], which is not zero. *)
Definition search_finds (cfg : config) (e : env) (latf lonf : float)
    (id : Z) : Prop :=
  exists (st : Z) (data : value) (loc : dict),
    upstream e (WillyWeatherSearch (WILLYWEATHER_API_KEY cfg) latf lonf)
    = Response st (Some data)
    /\ (400 <=? st) && (st <? 600) = false
    /\ location_of data = VDict loc /\ loc <> []
    /\ int (dict_get_or loc "id" VNone) = ok id
    /\ id <> 0.

(** Surroundings in which the clock reads [now], the location search is
    answered 200 with [found] and the forecast call gets [r]. *)
Definition searching_at (now : float) (found : value) (r : http_result)
  : env :=
  {| time_at_get := now; time_at_set := now;
     upstream := fun c =>
       match c with
       | WillyWeatherSearch _ _ _ => Response 200 (Some found)
       | _ => r
       end;
     json_error := fun _ => expecting_value |}.

(** ** Exceptions the last [except] clause answers *)

(** Neither [requests.Timeout] nor [requests.HTTPError]. *)
Definition plain_failure (ex : exn) : Prop :=
  match ex with
  | Timeout _ | HTTPError _ _ => False
  | _ => True
  end.

(** Whatever [r] raises is a plain failure. *)
Definition raises_plain {A} (r : res A) : Prop :=
  forall ex : exn, r = inl ex -> plain_failure ex.

(** The Open-Meteo body of a one-day answer whose minimum temperature is
    [null]. *)
Definition null_temperature_body : value :=
  VDict [("daily",
          VDict [("time", VList [VStr "2024-01-01"]);
                 ("temperature_2m_min", VList [VNone]);
                 ("temperature_2m_max", VList [VInt 20]);
                 ("weathercode", VList [VInt 3])])].

(** ** Requests whose coordinates parse *)

(** [lat] and [lon] are present and [float] accepts both: the requests
    that can store an entry. *)
Definition coordinates_parse (rq : request) : Prop :=
  exists (lat lon : string) (latf lonf : float),
    arg_lat rq = Some lat /\ arg_lon rq = Some lon
    /\ float_of_str lat = ok latf /\ float_of_str lon = ok lonf.

(** ** The allowed origins *)

(** [s.split(sep)] for a separator of one character. *)
Fixpoint split_on (sep : ascii) (s : string) : list string :=
  match s with
  | EmptyString => [EmptyString]
  | String c s' =>
      if Ascii.eqb c sep then EmptyString :: split_on sep s'
      else match split_on sep s' with
           | piece :: rest => String c piece :: rest
           | [] => [String c EmptyString]
           end
  end.

(** [[o.strip() for o in os.getenv('ALLOWED_ORIGINS',
    'http://localhost:8000').split(',') if o.strip()]] *)
Definition ALLOWED_ORIGINS (getenv : string -> option string) : list string :=
  map strip
    (List.filter (fun o => negb (String.eqb (strip o) EmptyString))
       (split_on "," (default "http://localhost:8000"
                        (getenv "ALLOWED_ORIGINS")))).

(** The character [c] does not occur in the string. *)
Fixpoint lacks (c : ascii) (s : string) : bool :=
  match s with
  | String c' s' => negb (Ascii.eqb c' c) && lacks c s'
  | EmptyString => true
  end.

(** * Properties *)

(** ** The monads *)

Lemma res_bind_ok {A B} (a : A) (k : A -> res B) : (ok a ≫= k) = k a.
Proof. reflexivity. Qed.

Lemma res_bind_inr {A B} (a : A) (k : A -> res B) : (inr a ≫= k) = k a.
Proof. reflexivity. Qed.

Lemma res_bind_raise {A B} (ex : exn) (k : A -> res B) :
  (inl ex ≫= k) = inl ex.
Proof. reflexivity. Qed.

Lemma M_bind_run {A B} (m : M A) (k : A -> M B) (w : world) :
  (m ≫= k) w = match m w with
               | (inl ex, w') => (inl ex, w')
               | (inr a, w') => k a w'
               end.
Proof. reflexivity. Qed.

Lemma M_bind_lift {A B} (r : res A) (k : A -> M B) (w : world) :
  (lift r ≫= k) w = match r with
                    | inl ex => (inl ex, w)
                    | inr a => k a w
                    end.
Proof. rewrite M_bind_run. unfold lift. by destruct r. Qed.

Lemma M_ret_run {A} (a : A) (w : world) : (mret a : M A) w = (inr a, w).
Proof. reflexivity. Qed.

Lemma requests_get_response (e : env) (c : call) (w : world) st j :
  upstream e c = Response st j ->
  requests_get e c w = (ok (st, j), log_call c w).
Proof. intros H. unfold requests_get. by rewrite H. Qed.

(** [res_mapM] of a function that succeeds on every element maps it. *)
Lemma res_mapM_ok {A B} (f : A -> res B) (g : A -> B) (l : list A) :
  Forall (fun a => f a = ok (g a)) l -> res_mapM f l = ok (g <$> l).
Proof.
  induction 1 as [|a l Ha _ IH]; [done|].
  cbn [res_mapM]. rewrite Ha, res_bind_ok, IH. done.
Qed.

(** ** Dictionaries *)

Lemma dict_get_set_ne (d : dict) (k k' : string) (v : value) :
  k <> k' -> dict_get (dict_set d k v) k' = dict_get d k'.
Proof.
  intros Hne. induction d as [|[k0 v0] d IH]; cbn.
  - destruct (String.eqb_spec k k'); congruence.
  - destruct (String.eqb_spec k0 k) as [->|Hk]; cbn.
    + destruct (String.eqb_spec k k'); congruence.
    + by rewrite IH.
Qed.

Lemma dict_get_or_set_ne (d : dict) (k k' : string) (v dflt : value) :
  k <> k' -> dict_get_or (dict_set d k v) k' dflt = dict_get_or d k' dflt.
Proof. intros. unfold dict_get_or. by rewrite dict_get_set_ne. Qed.

(** ** [normalize_forecast] *)

Lemma normalize_day_set_date (i : nat) (d : dict) (date : value) :
  normalize_day i (dict_set d "date" date) = normalize_day i d.
Proof. unfold normalize_day. by rewrite !dict_get_or_set_ne. Qed.

(** C9. Normalisation numbers the entries by their 1-based position and
    emits exactly the fields day, summary, tempMin and tempMax, taken from
    the input's summary, tempMin and tempMax: the output has no date
    field, and it does not change when a date field is written into the
    input days. *)
Theorem normalize_forecast_position_and_fields (days : list dict) :
  exists fc : list value,
    normalize_forecast days = [("forecast", VList fc)]
    /\ length fc = length days
    /\ (forall (i : nat) (d : dict), days !! i = Some d ->
          exists out : dict,
            fc !! i = Some (VDict out)
            /\ out.*1 = ["day"; "summary"; "tempMin"; "tempMax"]
            /\ dict_get out "day" = Some (VInt (Z.of_nat i + 1))
            /\ dict_get out "summary" = Some (dict_get_or d "summary" (VStr em_dash))
            /\ dict_get out "tempMin" = Some (dict_get_or d "tempMin" VNone)
            /\ dict_get out "tempMax" = Some (dict_get_or d "tempMax" VNone)
            /\ dict_get out "date" = None)
    /\ (forall date : value,
          normalize_forecast ((fun d => dict_set d "date" date) <$> days)
          = normalize_forecast days).
Proof.
  exists (imap normalize_day days). split; [done|].
  split; [apply length_imap|]. split.
  - intros i d Hd. eexists. rewrite list_lookup_imap, Hd. cbn.
    split; [reflexivity|]. by repeat split.
  - intros date. unfold normalize_forecast. do 3 f_equal.
    rewrite imap_fmap. apply imap_ext. intros i d _. cbn.
    apply normalize_day_set_date.
Qed.

(** ** The Open-Meteo adapter *)

Lemma code_in_elem_of (code : Z) (keys : list Z) :
  code_in code keys = true <-> code ∈ keys.
Proof.
  unfold code_in. rewrite existsb_exists. split.
  - intros (k & Hk & Heq). apply Z.eqb_eq in Heq as ->.
    by apply list_elem_of_In.
  - intros Hk. exists code. split; [by apply list_elem_of_In|apply Z.eqb_refl].
Qed.

Lemma find_none_Forall {A} (f : A -> bool) (l : list A) :
  Forall (fun a => f a = false) l -> find f l = None.
Proof. induction 1 as [|a l Ha _ IH]; cbn; [done|]. by rewrite Ha. Qed.

(** A code outside every group of the table renders as ["Code {n}"]. *)
Lemma map_open_meteo_code_unmapped (code : Z) :
  code ∉ mjoin groups.*1 ->
  map_open_meteo_code code = "Code " +:+ str_of_int code.
Proof.
  intros Hnot. unfold map_open_meteo_code.
  rewrite find_none_Forall; [done|].
  apply Forall_forall. intros [keys label] Hg. cbn.
  destruct (code_in code keys) eqn:Hin; [|done].
  exfalso. apply Hnot. apply code_in_elem_of in Hin.
  apply list_elem_of_join. exists keys. split; [done|].
  apply list_elem_of_fmap. by exists (keys, label).
Qed.

(** Every code of the table maps to the label of its group. *)
Lemma map_open_meteo_code_table :
  Forall (fun g => Forall (fun code => map_open_meteo_code code = g.2) g.1)
         groups.
Proof.
  unfold groups.
  repeat (apply Forall_cons; split;
          [cbn [fst snd]; repeat (apply Forall_cons; split; [reflexivity|]);
           apply Forall_nil_2|]).
  apply Forall_nil_2.
Qed.

Lemma index_list_lookup (l : list value) (i : nat) (x : value) :
  l !! i = Some x -> index (VList l) (Z.of_nat i) = ok x.
Proof. intros H. cbn. by rewrite Nat2Z.id, H. Qed.

Section OpenMeteoDay.

Context (times tmins tmaxs codes : list value).
Context (fmins fmaxs : list float) (ncodes : list Z).
Hypothesis Hmins : Forall2 (fun v f => float_ v = ok f) tmins fmins.
Hypothesis Hmaxs : Forall2 (fun v f => float_ v = ok f) tmaxs fmaxs.
Hypothesis Hcodes : Forall2 (fun v n => int v = ok n) codes ncodes.

Lemma temp_at (vs : list value) (fs : list float) (i : nat) :
  Forall2 (fun v f => float_ v = ok f) vs fs ->
  (n ← len (VList vs);
   if Z.of_nat i <? n
   then x ← index (VList vs) (Z.of_nat i); f ← float_ x; ok (VFloat f)
   else ok VNone)
  = ok (match fs !! i with Some f => VFloat f | None => VNone end).
Proof.
  intros HF. cbn [len]. rewrite res_bind_ok.
  destruct (Z.ltb_spec (Z.of_nat i) (Z.of_nat (length vs))) as [Hlt|Hge].
  - destruct (lookup_lt_is_Some_2 vs i) as [v Hv]; [lia|].
    destruct (Forall2_lookup_l _ _ _ _ _ HF Hv) as (f & Hf & Hconv).
    rewrite (index_list_lookup _ _ _ Hv), res_bind_ok, Hconv, res_bind_ok.
    by rewrite Hf.
  - rewrite (lookup_ge_None_2 fs i); [done|].
    rewrite <- (Forall2_length _ _ _ HF). lia.
Qed.

Lemma open_meteo_day_ok (i : nat) (date : value) :
  times !! i = Some date ->
  open_meteo_day (VList times) (VList tmins) (VList tmaxs) (VList codes)
                 (Z.of_nat i)
  = ok (open_meteo_day_of ncodes fmins fmaxs date i).
Proof.
  intros Hdate. unfold open_meteo_day.
  assert ((ncodes' ← len (VList codes);
           if Z.of_nat i <? ncodes'
           then c ← index (VList codes) (Z.of_nat i);
                n ← int c; ok (VStr (map_open_meteo_code n))
           else ok (VStr em_dash))
          = ok (VStr (match ncodes !! i with
                      | Some n => map_open_meteo_code n
                      | None => em_dash
                      end))) as Hsummary.
  { cbn [len]. rewrite res_bind_ok.
    destruct (Z.ltb_spec (Z.of_nat i) (Z.of_nat (length codes))) as [Hlt|Hge].
    - destruct (lookup_lt_is_Some_2 codes i) as [v Hv]; [lia|].
      destruct (Forall2_lookup_l _ _ _ _ _ Hcodes Hv) as (n & Hn & Hconv).
      rewrite (index_list_lookup _ _ _ Hv), res_bind_ok, Hconv, res_bind_ok.
      by rewrite Hn.
    - rewrite (lookup_ge_None_2 ncodes i); [done|].
      rewrite <- (Forall2_length _ _ _ Hcodes). lia. }
  pose proof (temp_at tmins fmins i Hmins) as Hmin.
  pose proof (temp_at tmaxs fmaxs i Hmaxs) as Hmax.
  cbn [len] in *. rewrite !res_bind_ok in *.
  rewrite Hsummary, !res_bind_ok, Hmin, !res_bind_ok, Hmax, !res_bind_ok.
  by rewrite (index_list_lookup _ _ _ Hdate), res_bind_ok.
Qed.

End OpenMeteoDay.

(** C8. On a response whose daily arrays are well typed (codes that
    [int] converts, temperatures that [float] converts), the Open-Meteo
    adapter issues one call and returns one forecast day for each of the
    first [min(len(time), days)] positions; the summary of a day is
    [map_open_meteo_code] of its weather code, which is the label of the
    table for each of its 29 codes (["Rain"] for 61) and ["Code {n}"] for
    every other code (["Code 999"] for 999); a temperature array that
    ends before position [i] gives [None] at [i], not an error. *)
Theorem open_meteo_forecast_days
    (e : env) (lat lon : float) (days : Z) (w : world)
    (st : Z) (j : value) (daily : dict)
    (times tmins tmaxs codes : list value)
    (fmins fmaxs : list float) (ncodes : list Z) :
  upstream e (OpenMeteoForecast lat lon days) = Response st (Some j) ->
  (400 <=? st) && (st <? 600) = false ->
  get j "daily" (VDict []) = ok (VDict daily) ->
  dict_get_or daily "time" (VList []) = VList times ->
  dict_get_or daily "temperature_2m_min" (VList []) = VList tmins ->
  dict_get_or daily "temperature_2m_max" (VList []) = VList tmaxs ->
  dict_get_or daily "weathercode" (VList []) = VList codes ->
  Forall2 (fun v f => float_ v = ok f) tmins fmins ->
  Forall2 (fun v f => float_ v = ok f) tmaxs fmaxs ->
  Forall2 (fun v n => int v = ok n) codes ncodes ->
  exists fc : list value,
    open_meteo_forecast e lat lon days w
    = (ok [("forecast", VList fc)],
       log_call (OpenMeteoForecast lat lon days) w)
    /\ length fc = Z.to_nat (Z.min (Z.of_nat (length times)) days)
    /\ (0 <= days ->
        Z.of_nat (length fc) = Z.min (Z.of_nat (length times)) days)
    /\ (forall i : nat, (i < length fc)%nat ->
          fc !! i
          = Some (VDict
                    [("day", VInt (Z.of_nat i + 1));
                     ("summary",
                       VStr (match ncodes !! i with
                             | Some n => map_open_meteo_code n
                             | None => em_dash
                             end));
                     ("tempMin",
                       match fmins !! i with
                       | Some f => VFloat f
                       | None => VNone
                       end);
                     ("tempMax",
                       match fmaxs !! i with
                       | Some f => VFloat f
                       | None => VNone
                       end)]))
    /\ map_open_meteo_code
         <$> [0; 1; 2; 3; 45; 48; 51; 53; 55; 56; 57; 61; 63; 65; 66; 67;
              71; 73; 75; 77; 80; 81; 82; 85; 86; 95; 96; 97; 99]
       = ["Clear sky"; "Mainly clear"; "Partly cloudy"; "Overcast";
          "Fog"; "Fog"; "Drizzle"; "Drizzle"; "Drizzle";
          "Freezing drizzle"; "Freezing drizzle"; "Rain"; "Rain"; "Rain";
          "Freezing rain"; "Freezing rain";
          "Snow"; "Snow"; "Snow"; "Snow";
          "Rain showers"; "Rain showers"; "Rain showers";
          "Snow showers"; "Snow showers"; "Thunderstorm";
          "Thunderstorm w/ hail"; "Thunderstorm w/ hail";
          "Thunderstorm w/ hail"]
    /\ map_open_meteo_code 999 = "Code 999"
    /\ (forall code : Z,
          code ∉ [0; 1; 2; 3; 45; 48; 51; 53; 55; 56; 57; 61; 63; 65; 66; 67;
                  71; 73; 75; 77; 80; 81; 82; 85; 86; 95; 96; 97; 99] ->
          map_open_meteo_code code = "Code " +:+ str_of_int code).
Proof.
  intros Hup Hst Hdaily Htimes Htmins Htmaxs Hcodes HFmin HFmax HFcode.
  set (n := Z.min (Z.of_nat (length times)) days).
  set (g := fun i : Z =>
              open_meteo_day_of ncodes fmins fmaxs
                (default VNone (times !! Z.to_nat i)) (Z.to_nat i)).
  assert (open_meteo_days j days = ok (normalize_forecast (g <$> seqZ 0 n)))
    as Hdays.
  { unfold open_meteo_days. rewrite Hdaily, res_bind_ok. cbn [get].
    rewrite !res_bind_ok, Htimes, Htmins, Htmaxs, Hcodes.
    cbn [len]. rewrite res_bind_ok. fold n.
    rewrite (res_mapM_ok _ g); [done|].
    apply Forall_seqZ. intros i Hi. subst g. cbn beta.
    destruct (lookup_lt_is_Some_2 times (Z.to_nat i)) as [date Hdate];
      [lia|].
    rewrite Hdate. cbn [default].
    rewrite <- (Z2Nat.id i) at 1 by lia.
    by apply open_meteo_day_ok. }
  exists (imap normalize_day (g <$> seqZ 0 n)).
  assert (length (imap normalize_day (g <$> seqZ 0 n)) = Z.to_nat n) as Hlen.
  { by rewrite length_imap, length_fmap, length_seqZ. }
  split; [|split; [done|split; [lia|split]]].
  - unfold open_meteo_forecast.
    rewrite M_bind_run, (requests_get_response _ _ _ _ _ Hup). cbn [fst snd ok].
    rewrite M_bind_lift. unfold raise_for_status. rewrite Hst. cbn [ok].
    rewrite M_bind_lift. cbn [res_json ok]. unfold lift. by rewrite Hdays.
  - intros i Hi. rewrite Hlen in Hi.
    rewrite list_lookup_imap, list_lookup_fmap, lookup_seqZ_lt by lia.
    cbn [fmap option_fmap option_map]. subst g. cbn beta.
    rewrite Z.add_0_l, Nat2Z.id. reflexivity.
  - split; [reflexivity|]. split; [reflexivity|].
    apply map_open_meteo_code_unmapped.
Qed.

(** ** The cache *)

Lemma cache_get_run (now : float) (key : string) (w : world) :
  cache_get now key w
  = (ok (cache_lookup now key (cache w)),
     match cache w !! key with
     | Some (exp, _) =>
         if SFltb exp now then with_cache (delete key (cache w)) w else w
     | None => w
     end).
Proof.
  unfold cache_get, cache_lookup. rewrite M_bind_run. cbn [get_cache ok].
  destruct (cache w !! key) as [[exp data]|]; [|done].
  destruct (SFltb exp now); done.
Qed.

Lemma cache_get_miss (now : float) (key : string) (w : world) :
  cache w !! key = None -> cache_get now key w = (ok None, w).
Proof. intros H. rewrite cache_get_run. unfold cache_lookup. by rewrite H. Qed.

Lemma cache_get_hit (now : float) (key : string) (w : world) exp data :
  cache w !! key = Some (exp, data) -> SFltb exp now = false ->
  cache_get now key w = (ok (Some data), w).
Proof.
  intros H Hlive. rewrite cache_get_run. unfold cache_lookup.
  by rewrite H, Hlive.
Qed.

Lemma cache_get_expired (now : float) (key : string) (w : world) exp data :
  cache w !! key = Some (exp, data) -> SFltb exp now = true ->
  cache_get now key w = (ok None, with_cache (delete key (cache w)) w).
Proof.
  intros H Hdead. rewrite cache_get_run. unfold cache_lookup.
  by rewrite H, Hdead.
Qed.

(** [cache_get] changes the cache under [key] at most. *)
Lemma cache_get_other (now : float) (key key' : string) (w : world) :
  key <> key' -> cache (cache_get now key w).2 !! key' = cache w !! key'.
Proof.
  intros Hne. rewrite cache_get_run. cbn [snd].
  destruct (cache w !! key) as [[exp data]|]; [|done].
  destruct (SFltb exp now); [|done]. cbn. by rewrite lookup_delete_ne.
Qed.

Lemma cache_set_run (now : float) (key : string) (data : dict) (ttl : Z)
    (w : world) :
  cache_set now key data ttl w
  = match float_add_int now ttl with
    | inl ex => (inl ex, w)
    | inr exp => (ok tt, with_cache (<[key := (exp, data)]> (cache w)) w)
    end.
Proof.
  unfold cache_set. rewrite M_bind_lift.
  by destruct (float_add_int now ttl).
Qed.

(** ** The request handler: unfolding *)

Lemma float_of_str_nonempty (s : string) (f : float) :
  float_of_str s = ok f -> s <> EmptyString.
Proof. intros H ->. discriminate H. Qed.

(** With [lat] and [lon] present and [days] an integer literal, the
    handler reaches the cache lookup. *)
Lemma weather_present (cfg : config) (e : env) (rq : request) (w : world)
    (lat lon : string) (d : Z) :
  arg_lat rq = Some lat -> lat <> EmptyString ->
  arg_lon rq = Some lon -> lon <> EmptyString ->
  int_of_str (default "7" (arg_days rq)) = ok d ->
  weather cfg e rq w
  = weather_lookup cfg e (resolve_provider cfg rq) lat lon d w.
Proof.
  intros Hlat Hlat' Hlon Hlon' Hd. unfold weather.
  rewrite M_bind_lift, Hd, Hlat, Hlon. cbn [ok].
  destruct lat; [done|]. destruct lon; [done|]. done.
Qed.

(** With [lat] or [lon] absent or empty and [days] an integer literal,
    the handler answers 400. *)
Lemma weather_missing (cfg : config) (e : env) (rq : request) (w : world)
    (d : Z) :
  arg_lat rq = None \/ arg_lat rq = Some EmptyString
  \/ arg_lon rq = None \/ arg_lon rq = Some EmptyString ->
  int_of_str (default "7" (arg_days rq)) = ok d ->
  weather cfg e rq w
  = (ok (HttpResponse 400 (error_body "lat and lon are required")), w).
Proof.
  intros Hmiss Hd. unfold weather. rewrite M_bind_lift, Hd. cbn [ok].
  destruct (arg_lat rq) as [[|c lat]|], (arg_lon rq) as [[|c' lon]|];
    try done.
  exfalso. destruct Hmiss as [H|[H|[H|H]]]; discriminate H.
Qed.

(** When [int] rejects the [days] parameter, the handler raises before
    it looks at anything else. *)
Lemma weather_bad_days (cfg : config) (e : env) (rq : request) (w : world)
    (ex : exn) :
  int_of_str (default "7" (arg_days rq)) = inl ex ->
  weather cfg e rq w = (inl ex, w).
Proof. intros Hd. unfold weather. by rewrite M_bind_lift, Hd. Qed.

Lemma weather_lookup_run (cfg : config) (e : env) (p lat lon : string)
    (d : Z) (w : world) :
  weather_lookup cfg e p lat lon d w
  = let key := cache_key_of p lat lon d in
    let w1 := (cache_get (time_at_get e) key w).2 in
    match cache_lookup (time_at_get e) key (cache w) with
    | Some ((_ :: _) as data) =>
        (ok (HttpResponse 200 (dict_merge [("source", VStr "cache")] data)),
         w1)
    | _ =>
        if mock_mode cfg p
        then mock_branch cfg e key lat lon d w1
        else upstream_branch cfg e p key lat lon d w1
    end.
Proof.
  unfold weather_lookup. rewrite M_bind_run.
  rewrite (cache_get_run (time_at_get e)). cbn [snd ok]. cbv zeta.
  destruct (cache_lookup _ _ _) as [[|kv data]|]; try reflexivity;
    by destruct (mock_mode cfg p).
Qed.

Lemma mock_branch_run (cfg : config) (e : env) (key lat lon : string)
    (d : Z) (w : world) (latf lonf : float) :
  float_of_str lat = ok latf -> float_of_str lon = ok lonf ->
  mock_branch cfg e key lat lon d w
  = match float_add_int (time_at_set e) (CACHE_TTL_SECONDS cfg) with
    | inl ex => (inl ex, w)
    | inr exp =>
        (ok (HttpResponse 200 (mock_data latf lonf d)),
         with_cache (<[key := (exp, mock_data latf lonf d)]> (cache w)) w)
    end.
Proof.
  intros Hlat Hlon. unfold mock_branch.
  rewrite M_bind_lift, Hlat. cbn [ok]. rewrite M_bind_lift, Hlon. cbn [ok].
  rewrite M_bind_run, cache_set_run.
  by destruct (float_add_int _ _).
Qed.


(** The state in which the cache lookup leaves a missed key is the
    initial one up to the removal of the dead entry, which a later
    [cache_set] under the same key overwrites. *)
Lemma insert_after_cache_get (now : float) (key : string) (w : world)
    (v : float * dict) :
  with_cache (<[key := v]> (cache (cache_get now key w).2))
             (cache_get now key w).2
  = with_cache (<[key := v]> (cache w)) w.
Proof.
  rewrite cache_get_run. cbn [snd].
  destruct (cache w !! key) as [[exp data]|]; [|done].
  destruct (SFltb exp now); [|done].
  unfold with_cache. cbn. by rewrite insert_delete_eq.
Qed.

(** ** The mock provider *)



(** ** Which cache keys a request can change *)

Lemma touches_only_ret {A} (keys : option string) (a : A) :
  touches_only keys (mret a : M A).
Proof. by intros w k _. Qed.

Lemma touches_only_lift {A} (keys : option string) (r : res A) :
  touches_only keys (lift r).
Proof. by intros w k _. Qed.

Lemma touches_only_bind {A B} (keys : option string) (m : M A)
    (f : A -> M B) :
  touches_only keys m -> (forall a, touches_only keys (f a)) ->
  touches_only keys (m ≫= f).
Proof.
  intros Hm Hf w k Hk. rewrite M_bind_run.
  specialize (Hm w k Hk). destruct (m w) as [[ex|a] w1]; [done|].
  cbn [snd] in Hm. rewrite <- Hm. by apply Hf.
Qed.

Lemma touches_only_try {A} (keys : option string) (m : M A)
    (h : exn -> M A) :
  touches_only keys m -> (forall ex, touches_only keys (h ex)) ->
  touches_only keys (try_except m h).
Proof.
  intros Hm Hh w k Hk. unfold try_except.
  specialize (Hm w k Hk). destruct (m w) as [[ex|a] w1]; [|done].
  cbn [snd] in Hm. rewrite <- Hm. by apply Hh.
Qed.

Lemma touches_only_cache_get (now : float) (key : string) :
  touches_only (Some key) (cache_get now key).
Proof.
  intros w k Hk. apply cache_get_other. congruence.
Qed.

Lemma touches_only_cache_set (now : float) (key : string) (data : dict)
    (ttl : Z) :
  touches_only (Some key) (cache_set now key data ttl).
Proof.
  intros w k Hk. rewrite cache_set_run.
  destruct (float_add_int now ttl); [done|]. cbn.
  rewrite lookup_insert_ne; [done|congruence].
Qed.

Lemma touches_only_requests_get (e : env) (keys : option string) (c : call) :
  touches_only keys (requests_get e c).
Proof.
  intros w k _. unfold requests_get. by destruct (upstream e c).
Qed.

Create HintDb footprint.

#[local] Hint Resolve touches_only_ret touches_only_lift touches_only_bind
  touches_only_try touches_only_cache_get touches_only_cache_set
  touches_only_requests_get : footprint.
#[local] Hint Extern 1 (touches_only _ _) => progress cbv zeta : footprint.

Lemma touches_only_open_meteo (e : env) (keys : option string)
    (lat lon : float) (d : Z) :
  touches_only keys (open_meteo_forecast e lat lon d).
Proof. unfold open_meteo_forecast. eauto 10 with footprint. Qed.

Lemma touches_only_find_location (cfg : config) (e : env)
    (keys : option string) (lat lon : float) :
  touches_only keys (willyweather_find_location_id cfg e lat lon).
Proof.
  unfold willyweather_find_location_id.
  destruct (String.eqb _ _); [apply touches_only_lift|].
  do 3 (apply touches_only_bind; [auto with footprint|intros ?]).
  cbv zeta.
  destruct (location_of a1);
    try apply touches_only_ret.
  destruct (truthy _); eauto with footprint.
Qed.

Lemma touches_only_forecast_by_id (cfg : config) (e : env)
    (keys : option string) (id d : Z) :
  touches_only keys (willyweather_forecast_by_id cfg e id d).
Proof.
  unfold willyweather_forecast_by_id.
  destruct (String.eqb _ _); eauto 10 with footprint.
Qed.

#[local] Hint Resolve touches_only_open_meteo touches_only_find_location
  touches_only_forecast_by_id : footprint.

Lemma touches_only_provider_block (cfg : config) (e : env)
    (p key : string) (latf lonf : float) (d : Z) :
  touches_only (Some key) (provider_block cfg e p key latf lonf d).
Proof.
  unfold provider_block.
  destruct (String.eqb p "open-meteo"); [eauto 10 with footprint|].
  destruct (String.eqb p "willyweather"); [|apply touches_only_ret].
  apply touches_only_bind; [apply touches_only_find_location|].
  intros [id|]; [|apply touches_only_ret].
  destruct (id =? 0); eauto 10 with footprint.
Qed.

Lemma touches_only_upstream_handler (keys : option string) (ex : exn) :
  touches_only keys (upstream_handler ex).
Proof. destruct ex; apply touches_only_ret. Qed.

#[local] Hint Resolve touches_only_provider_block
  touches_only_upstream_handler : footprint.

Lemma touches_only_weather_lookup (cfg : config) (e : env)
    (p lat lon : string) (d : Z) :
  touches_only (Some (cache_key_of p lat lon d))
               (weather_lookup cfg e p lat lon d).
Proof.
  unfold weather_lookup. cbv zeta.
  apply touches_only_bind; [apply touches_only_cache_get|].
  intros cached.
  assert (touches_only (Some (cache_key_of p lat lon d))
            (if mock_mode cfg p
             then mock_branch cfg e (cache_key_of p lat lon d) lat lon d
             else upstream_branch cfg e p (cache_key_of p lat lon d)
                    lat lon d)) as Hfresh.
  { destruct (mock_mode cfg p).
    - unfold mock_branch. eauto 10 with footprint.
    - unfold upstream_branch.
      destruct (_ ≫= _) as [[]|[latf lonf]]; eauto with footprint. }
  destruct cached as [[|kv data]|]; done.
Qed.

(** A request changes the cache under its own key at most. *)
Lemma touches_only_weather (cfg : config) (e : env) (rq : request) :
  touches_only (request_key cfg rq) (weather cfg e rq).
Proof.
  unfold weather, request_key.
  destruct (int_of_str _) as [ex|d].
  { intros w k _. by rewrite M_bind_lift. }
  intros w k Hk. rewrite M_bind_lift.
  destruct (arg_lat rq) as [[|c lat]|], (arg_lon rq) as [[|c' lon]|];
    try done.
  by apply touches_only_weather_lookup.
Qed.

(** ** Shapes of the adapters' results *)

(** Splits a hypothesis [H : (m ≫= k) = inr _] of the [res] monad along
    its binds. *)
Ltac res_inv H :=
  repeat match type of H with
         | @mbind res _ _ _ ?k ?m = _ =>
             let E := fresh "E" in
             destruct m eqn:E; [discriminate H|rewrite res_bind_inr in H]
         end.

Lemma open_meteo_days_shape (j : value) (d : Z) (n : dict) :
  open_meteo_days j d = ok n -> exists fc, n = [("forecast", VList fc)].
Proof.
  unfold open_meteo_days. intros H. res_inv H.
  injection H as <-. by eexists.
Qed.

Lemma willyweather_days_shape (j : value) (d : Z) (n : dict) :
  willyweather_days j d = ok n -> exists fc, n = [("forecast", VList fc)].
Proof.
  unfold willyweather_days, willyweather_out_days. intros H. res_inv H.
  injection H as <-. by eexists.
Qed.

Lemma open_meteo_forecast_inv (e : env) (lat lon : float) (d : Z)
    (w w' : world) (n : dict) :
  open_meteo_forecast e lat lon d w = (ok n, w') ->
  w' = log_call (OpenMeteoForecast lat lon d) w
  /\ exists fc, n = [("forecast", VList fc)].
Proof.
  unfold open_meteo_forecast. rewrite M_bind_run. unfold requests_get.
  destruct (upstream e _) as [| |st j]; try discriminate. cbn [ok].
  rewrite M_bind_lift. destruct (raise_for_status _); [discriminate|].
  rewrite M_bind_lift. destruct (res_json _) as [|v]; [discriminate|].
  unfold lift. intros [= H <-]. split; [done|].
  by apply open_meteo_days_shape in H.
Qed.

Lemma willyweather_forecast_by_id_inv (cfg : config) (e : env) (id d : Z)
    (w w' : world) (n : dict) :
  willyweather_forecast_by_id cfg e id d w = (ok n, w') ->
  w' = log_call (WillyWeatherForecast (WILLYWEATHER_API_KEY cfg) id d) w
  /\ exists fc, n = [("forecast", VList fc)].
Proof.
  unfold willyweather_forecast_by_id.
  destruct (String.eqb _ _); [discriminate|].
  rewrite M_bind_run. unfold requests_get.
  destruct (upstream e _) as [| |st j]; try discriminate. cbn [ok].
  rewrite M_bind_lift. destruct (raise_for_status _); [discriminate|].
  rewrite M_bind_lift. destruct (res_json _) as [|v]; [discriminate|].
  unfold lift. intros [= H <-]. split; [done|].
  by apply willyweather_days_shape in H.
Qed.

Lemma willyweather_find_location_id_cache (cfg : config) (e : env)
    (lat lon : float) (w : world) :
  cache (willyweather_find_location_id cfg e lat lon w).2 = cache w.
Proof.
  unfold willyweather_find_location_id.
  destruct (String.eqb _ _); [done|].
  rewrite M_bind_run. unfold requests_get.
  destruct (upstream e _) as [| |st j]; try done. cbn [ok].
  rewrite M_bind_lift. destruct (raise_for_status _); [done|].
  rewrite M_bind_lift. destruct (res_json _) as [|v]; [done|]. cbv zeta.
  destruct (location_of v); try done.
  destruct (truthy _); [|done].
  rewrite M_bind_lift. by destruct (int _).
Qed.

(** What the provider block answers when it does not raise: a 200 whose
    body is location, days and forecast and which is now cached under
    [key], or a 404 or 400 error body with the cache as it was. *)
Lemma provider_block_inv (cfg : config) (e : env) (p key : string)
    (latf lonf : float) (d : Z) (w w' : world) (r : response) :
  provider_block cfg e p key latf lonf d w = (ok r, w') ->
  (status r = 200
   /\ (exists loc fc,
         body r = [("location", loc); ("days", VInt d);
                   ("forecast", VList fc)])
   /\ exists exp,
        float_add_int (time_at_set e) (CACHE_TTL_SECONDS cfg) = ok exp
        /\ cache w' = <[key := (exp, body r)]> (cache w))
  \/ ((status r = 404 \/ status r = 400)
      /\ (exists msg, body r = error_body msg)
      /\ cache w' = cache w).
Proof.
  unfold provider_block.
  destruct (String.eqb p "open-meteo").
  { rewrite M_bind_run.
    destruct (open_meteo_forecast _ _ _ _ _) as [[ex|n] w1] eqn:Hom;
      [discriminate|].
    apply open_meteo_forecast_inv in Hom as [-> [fc ->]]. cbv zeta.
    rewrite M_bind_run, cache_set_run.
    destruct (float_add_int _ _) as [ex|exp] eqn:Hexp; [discriminate|].
    intros [= <- <-]. left. cbn. split; [done|].
    split; [by do 2 eexists|]. by exists exp. }
  destruct (String.eqb p "willyweather").
  2:{ intros [= <- <-]. right. cbn. split; [by right|].
      split; [by eexists|done]. }
  rewrite M_bind_run.
  pose proof (willyweather_find_location_id_cache cfg e latf lonf w) as Hc.
  destruct (willyweather_find_location_id _ _ _ _ _) as [[ex|loc] w1];
    [discriminate|]. cbn [snd] in Hc.
  destruct loc as [id|].
  2:{ intros [= <- <-]. right. cbn. split; [by left|].
      split; [by eexists|done]. }
  destruct (id =? 0).
  { intros [= <- <-]. right. cbn. split; [by left|].
    split; [by eexists|done]. }
  rewrite M_bind_run.
  destruct (willyweather_forecast_by_id _ _ _ _ _) as [[ex|n] w2] eqn:Hww;
    [discriminate|].
  apply willyweather_forecast_by_id_inv in Hww as [-> [fc ->]]. cbv zeta.
  rewrite M_bind_run, cache_set_run.
  destruct (float_add_int _ _) as [ex|exp] eqn:Hexp; [discriminate|].
  intros [= <- <-]. left. cbn. split; [done|].
  split; [by do 2 eexists|]. exists exp. by rewrite Hc.
Qed.

(** ** Cache hits *)

Lemma dict_set_keeps (d : dict) (k k' : string) (v : value) :
  is_Some (dict_get d k) -> is_Some (dict_get (dict_set d k' v) k).
Proof.
  induction d as [|[k0 v0] d IH]; cbn; [by intros [? [=]]|].
  destruct (String.eqb_spec k0 k) as [->|Hne].
  - intros _. destruct (String.eqb_spec k k'); cbn;
      by rewrite String.eqb_refl.
  - intros Hd. destruct (String.eqb_spec k0 k'); cbn;
      destruct (String.eqb_spec k0 k); try done. by apply IH.
Qed.

Lemma dict_merge_keeps (base extra : dict) (k : string) :
  is_Some (dict_get base k) -> is_Some (dict_get (dict_merge base extra) k).
Proof.
  unfold dict_merge. revert base.
  induction extra as [|[k' v'] extra IH]; intros base Hb; cbn; [done|].
  apply IH. by apply dict_set_keeps.
Qed.

(** An answer served from the cache carries a [source] field. *)
Lemma cached_answer_has_source (data : dict) :
  dict_get (dict_merge [("source", VStr "cache")] data) "source" <> None.
Proof.
  intros Hnone.
  destruct (dict_merge_keeps [("source", VStr "cache")] data "source")
    as [v Hv]; [by eexists|]. congruence.
Qed.

Lemma cached_forecast_body (b : dict) :
  forecast_body b ->
  dict_merge [("source", VStr "cache")] b = ("source", VStr "cache") :: b.
Proof. by intros (loc & d & fc & [-> | ->]). Qed.

(** A request that reaches the cache lookup has a key, and conversely. *)
Lemma request_key_Some (cfg : config) (rq : request) (key : string) :
  request_key cfg rq = Some key ->
  exists lat lon d,
    arg_lat rq = Some lat /\ lat <> EmptyString
    /\ arg_lon rq = Some lon /\ lon <> EmptyString
    /\ int_of_str (default "7" (arg_days rq)) = ok d
    /\ key = cache_key_of (resolve_provider cfg rq) lat lon d.
Proof.
  unfold request_key.
  destruct (int_of_str _) as [ex|d]; [done|].
  destruct (arg_lat rq) as [[|c lat]|]; try done.
  destruct (arg_lon rq) as [[|c' lon]|]; try done.
  intros [= <-]. by exists (String c lat), (String c' lon), d.
Qed.

(** A live, non-empty entry under the request's key is the answer, and
    the state does not change. *)
Lemma weather_hit (cfg : config) (e : env) (rq : request) (w : world)
    (key : string) (exp : float) (data : dict) :
  request_key cfg rq = Some key ->
  cache w !! key = Some (exp, data) -> data <> [] ->
  SFltb exp (time_at_get e) = false ->
  weather cfg e rq w
  = (ok (HttpResponse 200 (dict_merge [("source", VStr "cache")] data)), w).
Proof.
  intros (lat & lon & d & Hlat & Hlat' & Hlon & Hlon' & Hd & ->)%request_key_Some
         Hentry Hdata Hlive.
  rewrite (weather_present cfg e rq w lat lon d) by done.
  rewrite weather_lookup_run. cbv zeta.
  rewrite (cache_get_hit _ _ _ _ _ Hentry Hlive).
  unfold cache_lookup. rewrite Hentry, Hlive. cbn [snd].
  destruct data; [congruence|reflexivity].
Qed.

(** No request served while an entry is live removes or replaces it. *)
Lemma weather_keeps_live_entry (cfg : config) (e : env) (rq : request)
    (w : world) (key : string) (exp : float) (data : dict) :
  cache w !! key = Some (exp, data) -> data <> [] ->
  SFltb exp (time_at_get e) = false ->
  cache (weather cfg e rq w).2 !! key = Some (exp, data).
Proof.
  intros Hentry Hdata Hlive.
  destruct (decide (request_key cfg rq = Some key)) as [Hkey|Hkey].
  - by rewrite (weather_hit cfg e rq w key exp data).
  - by rewrite (touches_only_weather cfg e rq w key Hkey).
Qed.

Lemma serve_all_keeps_live_entry (cfg : config) (steps : list (env * request))
    (w : world) (key : string) (exp : float) (data : dict) :
  cache w !! key = Some (exp, data) -> data <> [] ->
  Forall (fun step => SFltb exp (time_at_get step.1) = false) steps ->
  cache (serve_all cfg steps w) !! key = Some (exp, data).
Proof.
  intros Hentry Hdata Hsteps. revert w Hentry.
  induction Hsteps as [|[e rq] steps Hlive _ IH]; intros w Hentry; [done|].
  cbn. apply IH. by apply weather_keeps_live_entry.
Qed.

(** A 200 answer without a [source] field was computed by a provider and
    is now in the cache under the request's key, expiring [ttl] after the
    time read by [cache_set]. *)
Lemma weather_fresh_stored (cfg : config) (e : env) (rq : request)
    (w w' : world) (r : response) (exp : float) :
  weather cfg e rq w = (ok r, w') ->
  status r = 200 ->
  dict_get (body r) "source" = None ->
  float_add_int (time_at_set e) (CACHE_TTL_SECONDS cfg) = ok exp ->
  exists key,
    request_key cfg rq = Some key
    /\ cache w' !! key = Some (exp, body r)
    /\ forecast_body (body r).
Proof.
  intros Hrun Hst Hsrc Hexp.
  destruct (int_of_str (default "7" (arg_days rq))) as [ex|d] eqn:Hd.
  { by rewrite (weather_bad_days cfg e rq w ex) in Hrun. }
  destruct (request_key cfg rq) as [key|] eqn:Hkey.
  2:{ unfold request_key in Hkey. unfold weather in Hrun.
      rewrite M_bind_lift, Hd in Hrun. rewrite Hd in Hkey.
      destruct (arg_lat rq) as [[|c lat]|], (arg_lon rq) as [[|c' lon]|];
        try discriminate Hkey; injection Hrun as <- <-; discriminate Hst. }
  exists key. split; [done|].
  destruct (request_key_Some _ _ _ Hkey)
    as (lat & lon & d' & Hlat & Hlat' & Hlon & Hlon' & Hd' & ->).
  rewrite (weather_present cfg e rq w lat lon d') in Hrun by done.
  rewrite weather_lookup_run in Hrun. cbv zeta in Hrun.
  set (p := resolve_provider cfg rq) in *.
  set (key := cache_key_of p lat lon d') in *.
  pose proof (insert_after_cache_get (time_at_get e) key w) as Hins.
  set (w1 := (cache_get (time_at_get e) key w).2) in *.
  assert ((if mock_mode cfg p
           then mock_branch cfg e key lat lon d' w1
           else upstream_branch cfg e p key lat lon d' w1) = (ok r, w') ->
          cache w' !! key = Some (exp, body r) /\ forecast_body (body r))
    as Hfresh.
  { clear Hrun. destruct (mock_mode cfg p).
    - unfold mock_branch. rewrite M_bind_lift.
      destruct (float_of_str lat) as [|latf]; [done|].
      rewrite M_bind_lift.
      destruct (float_of_str lon) as [|lonf]; [done|]. cbv zeta.
      rewrite M_bind_run, cache_set_run, Hexp.
      intros [= <- <-]. cbn. rewrite lookup_insert_eq. split; [done|].
      do 3 eexists. by right.
    - unfold upstream_branch.
      destruct (_ ≫= _) as [[]|[latf lonf]]; try discriminate.
      { intros [= <- <-]. discriminate Hst. }
      unfold try_except.
      destruct (provider_block _ _ _ _ _ _ _ _) as [[ex|r0] w2] eqn:Hblock.
      { destruct ex; intros [= <- <-]; discriminate Hst. }
      intros [= -> ->].
      apply provider_block_inv in Hblock
        as [(_ & (loc & fc & Hbody) & exp' & Hexp' & Hcache)
           |([H4|H4] & _)]; try congruence.
      rewrite Hexp in Hexp'. injection Hexp' as <-.
      rewrite Hcache, lookup_insert_eq.
      split; [done|]. rewrite Hbody. do 3 eexists. by left. }
  destruct (cache_lookup _ _ _) as [[|kv data]|]; try by apply Hfresh.
  unfold ok in Hrun. injection Hrun as Hr _. rewrite <- Hr in Hsrc.
  exfalso. exact (cached_answer_has_source (kv :: data) Hsrc).
Qed.

(** C4. After a request answered 200 afresh (no [source] field: it was
    computed and stored), the identical request is answered from the
    cache as long as the stored expiry time is not in the past, whatever
    other requests are served in between within that time: the answer is
    200, carries [source: "cache"], and its forecast is the forecast of
    the first answer. *)
Theorem repeat_within_ttl_served_from_cache
    (cfg : config) (e1 e2 : env) (rq : request) (w w1 : world)
    (r1 : response) (exp : float) (steps : list (env * request)) :
  weather cfg e1 rq w = (ok r1, w1) ->
  status r1 = 200 ->
  dict_get (body r1) "source" = None ->
  float_add_int (time_at_set e1) (CACHE_TTL_SECONDS cfg) = ok exp ->
  Forall (fun step => SFltb exp (time_at_get step.1) = false) steps ->
  SFltb exp (time_at_get e2) = false ->
  exists r2 : response,
    weather cfg e2 rq (serve_all cfg steps w1)
    = (ok r2, serve_all cfg steps w1)
    /\ status r2 = 200
    /\ body r2 = ("source", VStr "cache") :: body r1
    /\ dict_get (body r2) "source" = Some (VStr "cache")
    /\ dict_get (body r2) "forecast" = dict_get (body r1) "forecast".
Proof.
  intros Hrun Hst Hsrc Hexp Hsteps Hlive.
  destruct (weather_fresh_stored cfg e1 rq w w1 r1 exp Hrun Hst Hsrc Hexp)
    as (key & Hkey & Hentry & Hbody).
  assert (body r1 <> []) as Hne.
  { by destruct Hbody as (loc & d & fc & [-> | ->]). }
  pose proof (serve_all_keeps_live_entry cfg steps w1 key exp (body r1)
                Hentry Hne Hsteps) as Hentry2.
  eexists. split.
  { by apply (weather_hit cfg e2 rq _ key exp (body r1)). }
  cbn [status body]. rewrite (cached_forecast_body _ Hbody).
  split; [done|]. split; [done|]. split; [done|].
  by destruct Hbody as (loc & d & fc & [-> | ->]).
Qed.

(** ** Answers computed afresh *)

Lemma upstream_handler_run (ex : exn) (w : world) :
  exists r, upstream_handler ex w = (ok r, w)
            /\ (status r = 504 \/ status r = 502)
            /\ exists msg rest, body r = ("error", VStr msg) :: rest
                                /\ dict_get rest "source" = None
                                /\ dict_get rest "mock" = None.
Proof.
  destruct ex; eexists; (split; [reflexivity|]); cbn;
    (split; [auto|]); do 2 eexists; by split.
Qed.

(** The body of an answer that is not read from the cache has neither a
    [source] nor, outside mock mode, a [mock] field. *)
Lemma upstream_branch_body (cfg : config) (e : env) (p key lat lon : string)
    (d : Z) (w w' : world) (r : response) :
  upstream_branch cfg e p key lat lon d w = (ok r, w') ->
  dict_get (body r) "source" = None /\ dict_get (body r) "mock" = None.
Proof.
  unfold upstream_branch.
  destruct (_ ≫= _) as [[]|[latf lonf]]; try discriminate.
  { by intros [= <- <-]. }
  unfold try_except.
  destruct (provider_block _ _ _ _ _ _ _ _) as [[ex|r0] w2] eqn:Hblock.
  - destruct (upstream_handler_run ex w2)
      as (r1 & -> & _ & msg & rest & Hbody & Hsrc & Hmock).
    intros [= <- <-]. by rewrite Hbody.
  - intros [= -> ->].
    apply provider_block_inv in Hblock
      as [(_ & (loc & fc & ->) & _)|(_ & (msg & ->) & _)]; by split.
Qed.

Lemma mock_branch_body (cfg : config) (e : env) (key lat lon : string)
    (d : Z) (w w' : world) (r : response) :
  mock_branch cfg e key lat lon d w = (ok r, w') ->
  dict_get (body r) "source" = None.
Proof.
  unfold mock_branch. rewrite M_bind_lift.
  destruct (float_of_str lat) as [|latf]; [done|]. rewrite M_bind_lift.
  destruct (float_of_str lon) as [|lonf]; [done|]. cbv zeta.
  rewrite M_bind_run, cache_set_run.
  destruct (float_add_int _ _); [done|]. by intros [= <- <-].
Qed.

(** ** Upstream calls issued by a request *)

Lemma open_meteo_forecast_world (e : env) (lat lon : float) (d : Z)
    (w : world) :
  (open_meteo_forecast e lat lon d w).2
  = log_call (OpenMeteoForecast lat lon d) w.
Proof.
  unfold open_meteo_forecast. rewrite M_bind_run. unfold requests_get.
  destruct (upstream e _) as [| |st j]; try done. cbn [ok].
  rewrite M_bind_lift. destruct (raise_for_status _); [done|].
  rewrite M_bind_lift. by destruct (res_json _).
Qed.

Lemma cache_set_calls (now : float) (key : string) (data : dict) (ttl : Z)
    (w : world) :
  calls (cache_set now key data ttl w).2 = calls w.
Proof. rewrite cache_set_run. by destruct (float_add_int _ _). Qed.

Lemma willyweather_find_location_id_calls (cfg : config) (e : env)
    (lat lon : float) (w : world) :
  WILLYWEATHER_API_KEY cfg <> EmptyString ->
  calls (willyweather_find_location_id cfg e lat lon w).2
  = calls w ++ [WillyWeatherSearch (WILLYWEATHER_API_KEY cfg) lat lon].
Proof.
  intros Hkey. unfold willyweather_find_location_id.
  destruct (String.eqb_spec (WILLYWEATHER_API_KEY cfg) EmptyString); [done|].
  rewrite M_bind_run. unfold requests_get.
  destruct (upstream e _) as [| |st j]; try done. cbn [ok].
  rewrite M_bind_lift. destruct (raise_for_status _); [done|].
  rewrite M_bind_lift. destruct (res_json _) as [|v]; [done|]. cbv zeta.
  destruct (location_of v); try done.
  destruct (truthy _); [|done].
  rewrite M_bind_lift. by destruct (int _).
Qed.

Lemma willyweather_forecast_by_id_calls (cfg : config) (e : env) (id d : Z)
    (w : world) :
  exists more, calls (willyweather_forecast_by_id cfg e id d w).2
               = calls w ++ more.
Proof.
  unfold willyweather_forecast_by_id.
  destruct (String.eqb _ _); [exists []; by rewrite app_nil_r|].
  eexists [_]. rewrite M_bind_run. unfold requests_get.
  destruct (upstream e _) as [| |st j]; try done. cbn [ok].
  rewrite M_bind_lift. destruct (raise_for_status _); [done|].
  rewrite M_bind_lift. by destruct (res_json _).
Qed.

Lemma try_except_snd {A} (m : M A) (h : exn -> M A) (w : world) :
  (forall ex w1, (h ex w1).2 = w1) ->
  (try_except m h w).2 = (m w).2.
Proof.
  intros Hh. unfold try_except. destruct (m w) as [[ex|a] w1]; [|done].
  apply Hh.
Qed.

Lemma upstream_handler_snd (ex : exn) (w : world) :
  (upstream_handler ex w).2 = w.
Proof. by destruct ex. Qed.

(** Outside mock mode, an Open-Meteo request that misses the cache issues
    exactly one upstream call, whatever comes back. *)
Lemma upstream_branch_open_meteo_calls (cfg : config) (e : env)
    (key lat lon : string) (latf lonf : float) (d : Z) (w : world) :
  float_of_str lat = ok latf -> float_of_str lon = ok lonf ->
  calls (upstream_branch cfg e "open-meteo" key lat lon d w).2
  = calls w ++ [OpenMeteoForecast latf lonf d].
Proof.
  intros Hlat Hlon. unfold upstream_branch. rewrite Hlat, Hlon.
  rewrite !res_bind_ok. cbn [ok].
  rewrite try_except_snd by apply upstream_handler_snd.
  unfold provider_block. cbn [String.eqb Ascii.eqb Bool.eqb].
  rewrite M_bind_run.
  pose proof (open_meteo_forecast_world e latf lonf d w) as Hw.
  destruct (open_meteo_forecast _ _ _ _ _) as [[ex|n] w1]; cbn [snd] in *;
    subst w1; [done|].
  cbv zeta. rewrite M_bind_run.
  match goal with
  | |- context [cache_set ?t ?k ?dt ?ttl ?w0] =>
      pose proof (cache_set_calls t k dt ttl w0) as Hc;
      destruct (cache_set t k dt ttl w0) as [[ex|[]] w2]
  end; cbn [snd] in *; rewrite ?M_ret_run; cbn [snd]; by rewrite Hc.
Qed.

(** Outside mock mode, a WillyWeather request that misses the cache issues
    the location search first. *)
Lemma upstream_branch_willyweather_calls (cfg : config) (e : env)
    (key lat lon : string) (latf lonf : float) (d : Z) (w : world) :
  float_of_str lat = ok latf -> float_of_str lon = ok lonf ->
  WILLYWEATHER_API_KEY cfg <> EmptyString ->
  exists more,
    calls (upstream_branch cfg e "willyweather" key lat lon d w).2
    = calls w ++ WillyWeatherSearch (WILLYWEATHER_API_KEY cfg) latf lonf
                 :: more.
Proof.
  intros Hlat Hlon Hkey. unfold upstream_branch. rewrite Hlat, Hlon.
  rewrite !res_bind_ok. cbn [ok].
  rewrite try_except_snd by apply upstream_handler_snd.
  unfold provider_block. cbn [String.eqb Ascii.eqb Bool.eqb].
  rewrite M_bind_run.
  pose proof (willyweather_find_location_id_calls cfg e latf lonf w Hkey)
    as Hw.
  destruct (willyweather_find_location_id _ _ _ _ _) as [[ex|loc] w1];
    cbn [snd] in *; [by exists []|].
  destruct loc as [id|]; [|by exists []].
  destruct (id =? 0); [by exists []|].
  rewrite M_bind_run.
  destruct (willyweather_forecast_by_id_calls cfg e id d w1) as [more Hmore].
  exists more.
  destruct (willyweather_forecast_by_id _ _ _ _ _) as [[ex|n] w2];
    cbn [snd] in *; [by rewrite Hmore, Hw, <- app_assoc|].
  cbv zeta. rewrite M_bind_run.
  match goal with
  | |- context [cache_set ?t ?k ?dt ?ttl ?w0] =>
      pose proof (cache_set_calls t k dt ttl w0) as Hc;
      destruct (cache_set t k dt ttl w0) as [[ex|[]] w3]
  end; cbn [snd] in *; rewrite ?M_ret_run; cbn [snd];
    by rewrite Hc, Hmore, Hw, <- app_assoc.
Qed.

(** ** Expired entries *)

(** C5. When the expiry time stored under a key is in the past at read
    time, [cache_get] returns [None] and deletes the entry.  A request
    whose entry has expired is therefore handled exactly as if the entry
    had never been stored: its answer carries no [source] field, and
    outside mock mode an Open-Meteo request issues its upstream call and a
    WillyWeather request starts with the location search. *)
Theorem expired_entry_evicted_and_refetched
    (cfg : config) (e : env) (rq : request) (w : world)
    (p lat lon : string) (d : Z) (exp : float) (data : dict) :
  arg_lat rq = Some lat -> lat <> EmptyString ->
  arg_lon rq = Some lon -> lon <> EmptyString ->
  int_of_str (default "7" (arg_days rq)) = ok d ->
  resolve_provider cfg rq = p ->
  cache w !! cache_key_of p lat lon d = Some (exp, data) ->
  SFltb exp (time_at_get e) = true ->
  cache_get (time_at_get e) (cache_key_of p lat lon d) w
  = (ok None, with_cache (delete (cache_key_of p lat lon d) (cache w)) w)
  /\ cache (cache_get (time_at_get e) (cache_key_of p lat lon d) w).2
       !! cache_key_of p lat lon d = None
  /\ weather cfg e rq w
     = weather cfg e rq
         (with_cache (delete (cache_key_of p lat lon d) (cache w)) w)
  /\ (forall (r : response) (w' : world),
        weather cfg e rq w = (ok r, w') ->
        dict_get (body r) "source" = None)
  /\ (forall latf lonf : float,
        mock_mode cfg p = false ->
        float_of_str lat = ok latf -> float_of_str lon = ok lonf ->
        (p = "open-meteo" ->
         calls (weather cfg e rq w).2
         = calls w ++ [OpenMeteoForecast latf lonf d])
        /\ (p = "willyweather" ->
            WILLYWEATHER_API_KEY cfg <> EmptyString ->
            exists more,
              calls (weather cfg e rq w).2
              = calls w
                ++ WillyWeatherSearch (WILLYWEATHER_API_KEY cfg) latf lonf
                   :: more)).
Proof.
  intros Hlat Hlat' Hlon Hlon' Hd Hp Hentry Hdead.
  set (key := cache_key_of p lat lon d) in *.
  set (w1 := with_cache (delete key (cache w)) w).
  pose proof (cache_get_expired _ _ _ _ _ Hentry Hdead) as Hget.
  fold w1 in Hget.
  assert (cache_lookup (time_at_get e) key (cache w) = None) as Hmiss.
  { unfold cache_lookup. by rewrite Hentry, Hdead. }
  assert (cache w1 !! key = None) as Hgone by apply lookup_delete_eq.
  assert (weather cfg e rq w
          = if mock_mode cfg p
            then mock_branch cfg e key lat lon d w1
            else upstream_branch cfg e p key lat lon d w1) as Hrun.
  { rewrite (weather_present cfg e rq w lat lon d) by done.
    rewrite weather_lookup_run, Hp. cbv zeta. fold key.
    by rewrite Hmiss, Hget. }
  split; [done|]. split; [by rewrite Hget|]. split; [|split].
  - rewrite Hrun. rewrite (weather_present cfg e rq w1 lat lon d) by done.
    rewrite weather_lookup_run, Hp. cbv zeta. fold key.
    rewrite (cache_get_miss _ _ _ Hgone). unfold cache_lookup.
    by rewrite Hgone.
  - intros r w'. rewrite Hrun. destruct (mock_mode cfg p).
    + apply mock_branch_body.
    + intros H. by apply upstream_branch_body in H as [? _].
  - intros latf lonf Hmode Hlatf Hlonf. rewrite Hrun, Hmode. split.
    + intros ->.
      by rewrite (upstream_branch_open_meteo_calls cfg e key lat lon
                    latf lonf d w1).
    + intros -> Hkey.
      destruct (upstream_branch_willyweather_calls cfg e key lat lon
                  latf lonf d w1) as [more Hmore]; [done..|].
      exists more. by rewrite Hmore.
Qed.

(** ** The mock branch *)

Lemma mock_mode_spec (cfg : config) (p : string) :
  mock_mode cfg p = true
  <-> p = "mock" \/ (p = WEATHER_PROVIDER cfg /\ USE_MOCK cfg = true).
Proof.
  unfold mock_mode.
  rewrite orb_true_iff, andb_true_iff, !String.eqb_eq. tauto.
Qed.

(** C2, as the code has it. A request whose [lat] and [lon] [float]
    accepts and whose [days] [int] accepts, and that misses the cache,
    takes the mock branch exactly when its provider is ["mock"], or is
    the configured default provider while [USE_MOCK] is on.  The mock
    branch issues no upstream call; it answers 200 with the synthesized
    forecast and stores it under the request's key, unless the
    configured TTL is too large to be added to the clock: then
    [cache_set] raises, nothing is stored and the exception leaves the
    handler.  Otherwise no answer carries the [mock] marker. *)
Theorem mock_branch_exactly_in_mock_mode
    (cfg : config) (e : env) (rq : request) (w : world)
    (p lat lon : string) (latf lonf : float) (d : Z) :
  arg_lat rq = Some lat -> arg_lon rq = Some lon ->
  float_of_str lat = ok latf -> float_of_str lon = ok lonf ->
  int_of_str (default "7" (arg_days rq)) = ok d ->
  resolve_provider cfg rq = p ->
  cache_lookup (time_at_get e) (cache_key_of p lat lon d) (cache w) = None ->
  (mock_mode cfg p = true
   <-> p = "mock" \/ (p = WEATHER_PROVIDER cfg /\ USE_MOCK cfg = true))
  /\ (mock_mode cfg p = true ->
      weather cfg e rq w
      = match float_add_int (time_at_set e) (CACHE_TTL_SECONDS cfg) with
        | inr exp =>
            (ok (HttpResponse 200 (mock_data latf lonf d)),
             with_cache (<[cache_key_of p lat lon d
                           := (exp, mock_data latf lonf d)]> (cache w)) w)
        | inl ex =>
            (raise ex,
             (cache_get (time_at_get e) (cache_key_of p lat lon d) w).2)
        end
      /\ (forall ex,
            float_add_int (time_at_set e) (CACHE_TTL_SECONDS cfg) = inl ex ->
            ex = OverflowError "int too large to convert to float")
      /\ calls (weather cfg e rq w).2 = calls w)
  /\ (mock_mode cfg p = false ->
      forall (r : response) (w' : world),
        weather cfg e rq w = (ok r, w') ->
        dict_get (body r) "mock" = None).
Proof.
  intros Hlat Hlon Hlatf Hlonf Hd Hp Hmiss.
  split; [apply mock_mode_spec|].
  assert (weather cfg e rq w
          = let w1 := (cache_get (time_at_get e) (cache_key_of p lat lon d) w).2
            in if mock_mode cfg p
               then mock_branch cfg e (cache_key_of p lat lon d) lat lon d w1
               else upstream_branch cfg e p (cache_key_of p lat lon d)
                      lat lon d w1) as Hrun.
  { rewrite (weather_present cfg e rq w lat lon d)
      by eauto using float_of_str_nonempty.
    rewrite weather_lookup_run, Hp. cbv zeta. by rewrite Hmiss. }
  cbv zeta in Hrun. split.
  - intros Hmode. rewrite Hrun, Hmode.
    rewrite (mock_branch_run cfg e _ lat lon d _ latf lonf) by done.
    split; [|split].
    + destruct (float_add_int _ _) as [ex|exp]; [done|].
      by rewrite insert_after_cache_get.
    + intros ex. unfold float_add_int, float_of_int.
      by destruct (binary_normalize _ _ _ _ _); intros [= <-].
    + pose proof (cache_get_run (time_at_get e) (cache_key_of p lat lon d) w)
        as Hget.
      destruct (float_add_int _ _) as [ex|exp]; cbn [snd with_cache calls];
        rewrite Hget; cbn [snd];
        (destruct (cache w !! _) as [[exp0 data0]|]; [|done]);
        by destruct (SFltb exp0 _).
  - intros Hmode r w'. rewrite Hrun, Hmode.
    intros H. by apply upstream_branch_body in H as [_ ?].
Qed.

(** C2, counterexample. Started with [WEATHER_PROVIDER=open-meteo] and
    [USE_MOCK] left at its default, a request that names no provider
    resolves to ["open-meteo"], not to the mock provider, and is still
    answered by the mock branch: mock data, stored in the cache, no
    upstream call. *)
Lemma mock_branch_for_open_meteo_default :
  load_config (getenv_of [("WEATHER_PROVIDER", "open-meteo")])
  = Some open_meteo_default_config
  /\ resolve_provider open_meteo_default_config (melbourne (Some "3") None)
     = "open-meteo"
  /\ WEATHER_PROVIDER open_meteo_default_config <> "mock"
  /\ weather open_meteo_default_config (offline_at (float_lit "1700000000"))
             (melbourne (Some "3") None) fresh_world
     = (ok (HttpResponse 200
              (mock_data (float_lit "-37.8136") (float_lit "144.9631") 3)),
        with_cache
          {[ "weather:open-meteo:-37.8136:144.9631:3"
             := (float_lit "1700000300",
                 mock_data (float_lit "-37.8136") (float_lit "144.9631") 3) ]}
          fresh_world).
Proof. repeat split; try reflexivity. discriminate. Qed.

Lemma mock_branch_exactly_in_mock_mode_witness :
  (mock_mode open_meteo_default_config "open-meteo" = true
   <-> "open-meteo" = "mock"
       \/ ("open-meteo" = WEATHER_PROVIDER open_meteo_default_config
           /\ USE_MOCK open_meteo_default_config = true))
  /\ (mock_mode open_meteo_default_config "open-meteo" = true ->
      weather open_meteo_default_config (offline_at (float_lit "1700000000"))
              (melbourne (Some "3") None) fresh_world
      = match float_add_int
                (time_at_set (offline_at (float_lit "1700000000")))
                (CACHE_TTL_SECONDS open_meteo_default_config) with
        | inr exp =>
            (ok (HttpResponse 200
                   (mock_data (float_lit "-37.8136") (float_lit "144.9631")
                      3)),
             with_cache
               (<[cache_key_of "open-meteo" "-37.8136" "144.9631" 3
                  := (exp,
                      mock_data (float_lit "-37.8136") (float_lit "144.9631")
                        3)]>
                  (cache fresh_world))
               fresh_world)
        | inl ex =>
            (raise ex,
             (cache_get (time_at_get (offline_at (float_lit "1700000000")))
                (cache_key_of "open-meteo" "-37.8136" "144.9631" 3)
                fresh_world).2)
        end
      /\ (forall ex,
            float_add_int (time_at_set (offline_at (float_lit "1700000000")))
              (CACHE_TTL_SECONDS open_meteo_default_config) = inl ex ->
            ex = OverflowError "int too large to convert to float")
      /\ calls (weather open_meteo_default_config
                  (offline_at (float_lit "1700000000"))
                  (melbourne (Some "3") None) fresh_world).2
         = calls fresh_world)
  /\ (mock_mode open_meteo_default_config "open-meteo" = false ->
      forall (r : response) (w' : world),
        weather open_meteo_default_config (offline_at (float_lit "1700000000"))
                (melbourne (Some "3") None) fresh_world = (ok r, w') ->
        dict_get (body r) "mock" = None).
Proof.
  apply (mock_branch_exactly_in_mock_mode open_meteo_default_config
           (offline_at (float_lit "1700000000"))
           (melbourne (Some "3") None) fresh_world
           "open-meteo" "-37.8136" "144.9631"
           (float_lit "-37.8136") (float_lit "144.9631") 3);
    reflexivity.
Defined.

(** ** Exceptions that leave the handler *)

(** C6, at the failing input. With [lat] absent and [days=abc], the
    handler raises [ValueError] from [int] before it checks [lat] and
    [lon]: no 400 answer is produced. *)
Theorem missing_lat_with_bad_days_raises
    (cfg : config) (e : env) (w : world) :
  weather cfg e
    {| arg_lat := None; arg_lon := Some "144.9631";
       arg_days := Some "abc"; arg_provider := None |} w
  = (raise (ValueError "invalid literal for int() with base 10: 'abc'"), w).
Proof. by apply weather_bad_days. Qed.

(** C1, at the failing inputs. A non-integer [days] makes the handler
    raise [ValueError]; so does an unparseable [lat] on the mock branch,
    where [float(lat)] runs outside the [try] that guards it on the
    provider branch, which answers 400 for the same input. *)
Theorem exceptions_escape_the_handler :
  weather default_config (offline_at (float_lit "1700000000"))
          (melbourne (Some "abc") None) fresh_world
  = (raise (ValueError "invalid literal for int() with base 10: 'abc'"),
     fresh_world)
  /\ weather default_config (offline_at (float_lit "1700000000"))
       {| arg_lat := Some "north"; arg_lon := Some "144.9631";
          arg_days := None; arg_provider := Some "mock" |} fresh_world
     = (raise (ValueError "could not convert string to float: 'north'"),
        fresh_world)
  /\ weather live_config (offline_at (float_lit "1700000000"))
       {| arg_lat := Some "north"; arg_lon := Some "144.9631";
          arg_days := None; arg_provider := Some "open-meteo" |} fresh_world
     = (ok (HttpResponse 400 (error_body "Invalid lat/lon")), fresh_world).
Proof. repeat split; reflexivity. Qed.

(** ** The WillyWeather adapter *)

Lemma res_mapM_Forall2 {A B} (f : A -> res B) (l : list A) (bs : list B) :
  Forall2 (fun a b => f a = ok b) l bs -> res_mapM f l = ok bs.
Proof.
  induction 1 as [|a b l bs Hab _ IH]; [done|].
  cbn [res_mapM]. by rewrite Hab, res_bind_ok, IH.
Qed.

Lemma first_day_entry_find (entries : list dict) :
  first_day_entry (VDict <$> entries)
  = ok (match find not_night entries with
        | Some en => VDict en
        | None => VNone
        end).
Proof.
  induction entries as [|en entries IH]; [done|].
  cbn [fmap list_fmap first_day_entry find get]. rewrite res_bind_ok.
  fold (not_night en). destruct (not_night en); [done|]. apply IH.
Qed.

Lemma find_Forall {A} (P : A -> Prop) (f : A -> bool) (l : list A) (a : A) :
  Forall P l -> find f l = Some a -> P a.
Proof.
  induction 1 as [|x l Hx _ IH]; cbn; [done|].
  destruct (f x); [by intros [= <-]|done].
Qed.

(** On a day whose entries are non-empty objects, the loop body chooses
    as the specification says. *)
Lemma willyweather_day_spec (d : value) (entries : list dict) :
  day_has_entries d entries ->
  Forall (fun en => en <> []) entries ->
  willyweather_day d = ok (spec_forecast_day <$> spec_chosen_entry entries).
Proof.
  intros (dd & -> & Hents) Hne. unfold willyweather_day.
  cbn [get]. rewrite res_bind_ok. cbv zeta. rewrite Hents.
  cbn [iter]. rewrite res_bind_ok, first_day_entry_find, res_bind_ok.
  unfold spec_chosen_entry.
  destruct (find not_night entries) as [en|] eqn:Hfind.
  - assert (en <> []) as Hen
      by exact (find_Forall (fun en => en <> []) _ _ _ Hne Hfind).
    destruct en as [|kv en]; [done|]. by cbn.
  - destruct entries as [|en entries]; [done|].
    apply Forall_cons in Hne as [Hen _].
    destruct en as [|kv en]; [done|]. by cbn.
Qed.

Lemma omap_id_fmap {A B} (f : A -> option B) (l : list A) :
  omap id (f <$> l) = omap f l.
Proof.
  induction l as [|a l IH]; [done|]. cbn. rewrite IH. by destruct (f a).
Qed.

Lemma length_omap_le {A B} (f : A -> option B) (l : list A) :
  (length (omap f l) <= length l)%nat.
Proof.
  induction l as [|a l IH]; [done|]. cbn. destruct (f a); cbn; lia.
Qed.

Lemma willyweather_out_days_spec (ds : list value)
    (days_entries : list (list dict)) (days : Z) :
  Forall2 day_has_entries ds days_entries ->
  Forall (Forall (fun en => en <> [])) days_entries ->
  0 <= days ->
  willyweather_out_days (VList ds) days
  = ok (spec_willyweather_days days_entries days).
Proof.
  intros Hds Hne Hdays. unfold willyweather_out_days.
  cbn [iter]. rewrite res_bind_ok.
  rewrite (res_mapM_Forall2 _ _
             ((fun entries => spec_forecast_day <$> spec_chosen_entry entries)
                <$> days_entries)).
  - rewrite res_bind_ok. cbv zeta. rewrite omap_id_fmap.
    unfold slice_to, spec_willyweather_days.
    by destruct (Z.leb_spec 0 days); [|lia].
  - apply Forall2_fmap_r.
    revert Hne. induction Hds as [|d entries ds des Hd _ IH];
      intros Hne; [constructor|].
    apply Forall_cons in Hne as [Hne1 Hne2].
    constructor; [by apply willyweather_day_spec|by apply IH].
Qed.

(** C7, as the code has it. For a requested count [0 <= days] and a
    response whose days hold entries that are non-empty objects, the
    adapter issues one call and returns what the specification describes:
    per day the first entry whose [night] is false or absent, else the
    first entry; no forecast day for a day without entries; summary,
    tempMin and tempMax from the chosen entry's precis, min and max; at
    most [days] forecast days. *)
Theorem willyweather_forecast_follows_spec
    (cfg : config) (e : env) (w : world) (location_id days st : Z)
    (j : value) (ds : list value) (days_entries : list (list dict)) :
  WILLYWEATHER_API_KEY cfg <> EmptyString ->
  upstream e (WillyWeatherForecast (WILLYWEATHER_API_KEY cfg) location_id days)
  = Response st (Some j) ->
  (400 <=? st) && (st <? 600) = false ->
  willyweather_days_arr j = ok (VList ds) ->
  Forall2 day_has_entries ds days_entries ->
  Forall (Forall (fun en => en <> [])) days_entries ->
  0 <= days ->
  willyweather_forecast_by_id cfg e location_id days w
  = (ok (spec_willyweather_days days_entries days),
     log_call (WillyWeatherForecast (WILLYWEATHER_API_KEY cfg) location_id days)
              w)
  /\ exists fc,
       spec_willyweather_days days_entries days = [("forecast", VList fc)]
       /\ Z.of_nat (length fc) <= days
       /\ (length fc <= length days_entries)%nat.
Proof.
  intros Hkey Hup Hst Harr Hds Hne Hdays. split.
  - unfold willyweather_forecast_by_id.
    destruct (String.eqb_spec (WILLYWEATHER_API_KEY cfg) EmptyString);
      [done|].
    rewrite M_bind_run, (requests_get_response _ _ _ _ _ Hup).
    cbn [fst snd ok].
    rewrite M_bind_lift. unfold raise_for_status. rewrite Hst. cbn [ok].
    rewrite M_bind_lift. cbn [res_json ok]. unfold lift.
    unfold willyweather_days. rewrite Harr, res_bind_ok.
    by rewrite (willyweather_out_days_spec ds days_entries days).
  - eexists. split; [reflexivity|].
    rewrite length_imap, length_take.
    pose proof (length_omap_le
                  (fun entries => spec_forecast_day <$> spec_chosen_entry entries)
                  days_entries).
    lia.
Qed.

(** C7, counterexample. A day whose only entry is the empty object has
    an entry, yet the adapter leaves the day out, where the specification
    maps that entry to a forecast day; and for the requested count -1 the
    adapter returns one forecast day out of two, which is more than the
    requested count. *)
Lemma willyweather_empty_entry_and_negative_count :
  (day_has_entries (day_of [[]]) [[]]
   /\ willyweather_days (willyweather_body [day_of [[]]]) 7
      = ok [("forecast", VList [])]
   /\ spec_willyweather_days [[[]]] 7
      = [("forecast",
          VList [VDict [("day", VInt 1); ("summary", VStr em_dash);
                        ("tempMin", VNone); ("tempMax", VNone)]])])
  /\ (willyweather_days
        (willyweather_body [day_of [sunny_entry]; day_of [night_entry]]) (-1)
      = ok [("forecast",
             VList [VDict [("day", VInt 1); ("summary", VStr "Sunny");
                           ("tempMin", VInt 5); ("tempMax", VInt 20)]])]
      /\ ~ (Z.of_nat 1 <= -1)).
Proof.
  split; [split; [|split]|split]; try reflexivity.
  - by eexists.
  - lia.
Qed.

Lemma willyweather_forecast_follows_spec_witness :
  willyweather_forecast_by_id live_config
    (answering_at (float_lit "1700000000")
       (willyweather_body [day_of [night_entry; sunny_entry];
                           day_of [night_entry]; day_of []]))
    4950 7 fresh_world
  = (ok (spec_willyweather_days
           [[night_entry; sunny_entry]; [night_entry]; []] 7),
     log_call (WillyWeatherForecast (WILLYWEATHER_API_KEY live_config) 4950 7)
              fresh_world)
  /\ exists fc,
       spec_willyweather_days
         [[night_entry; sunny_entry]; [night_entry]; []] 7
       = [("forecast", VList fc)]
       /\ Z.of_nat (length fc) <= 7
       /\ (length fc <= length [[night_entry; sunny_entry]; [night_entry];
                                ([] : list dict)])%nat.
Proof.
  apply (willyweather_forecast_follows_spec live_config
           (answering_at (float_lit "1700000000")
              (willyweather_body [day_of [night_entry; sunny_entry];
                                  day_of [night_entry]; day_of []]))
           fresh_world 4950 7 200
           (willyweather_body [day_of [night_entry; sunny_entry];
                               day_of [night_entry]; day_of []])
           [day_of [night_entry; sunny_entry]; day_of [night_entry]; day_of []]
           [[night_entry; sunny_entry]; [night_entry]; []]).
  - discriminate.
  - reflexivity.
  - reflexivity.
  - reflexivity.
  - repeat (apply Forall2_cons; split; [eexists; split; reflexivity|]).
    apply Forall2_nil_2.
  - repeat (apply Forall_cons; split;
            [repeat (apply Forall_cons; split; [discriminate|]);
             apply Forall_nil_2|]).
    apply Forall_nil_2.
  - lia.
Defined.

(** The two examples of the specification: the entry that is not
    night-time is selected, and a lone night-time entry is the fallback. *)
Example willyweather_spec_examples :
  willyweather_day (day_of [night_entry; sunny_entry])
  = ok (Some [("summary", VStr "Sunny"); ("tempMin", VInt 5);
              ("tempMax", VInt 20)])
  /\ willyweather_day (day_of [night_entry])
     = ok (Some [("summary", VStr "Clear"); ("tempMin", VInt 4);
                 ("tempMax", VInt 9)]).
Proof. split; reflexivity. Qed.

(** ** Location lookup *)

Lemma find_location_found (cfg : config) (e : env) (lat lon : float)
    (w : world) (st id : Z) (data : value) (loc : dict) :
  WILLYWEATHER_API_KEY cfg <> EmptyString ->
  upstream e (WillyWeatherSearch (WILLYWEATHER_API_KEY cfg) lat lon)
  = Response st (Some data) ->
  (400 <=? st) && (st <? 600) = false ->
  location_of data = VDict loc -> loc <> [] ->
  int (dict_get_or loc "id" VNone) = ok id ->
  willyweather_find_location_id cfg e lat lon w
  = (ok (Some id),
     log_call (WillyWeatherSearch (WILLYWEATHER_API_KEY cfg) lat lon) w).
Proof.
  intros Hkey Hup Hst Hloc Hne Hid. unfold willyweather_find_location_id.
  destruct (String.eqb_spec (WILLYWEATHER_API_KEY cfg) EmptyString); [done|].
  rewrite M_bind_run, (requests_get_response _ _ _ _ _ Hup). cbn [fst snd ok].
  rewrite M_bind_lift. unfold raise_for_status. rewrite Hst. cbn [ok].
  rewrite M_bind_lift. cbn [res_json ok]. cbv zeta. rewrite Hloc.
  destruct loc as [|kv loc]; [done|]. cbn [truthy].
  by rewrite M_bind_lift, Hid.
Qed.

Lemma find_location_absent (cfg : config) (e : env) (lat lon : float)
    (w : world) (st : Z) (data : value) :
  WILLYWEATHER_API_KEY cfg <> EmptyString ->
  upstream e (WillyWeatherSearch (WILLYWEATHER_API_KEY cfg) lat lon)
  = Response st (Some data) ->
  (400 <=? st) && (st <? 600) = false ->
  location_of data = VNone ->
  willyweather_find_location_id cfg e lat lon w
  = (ok None,
     log_call (WillyWeatherSearch (WILLYWEATHER_API_KEY cfg) lat lon) w).
Proof.
  intros Hkey Hup Hst Hloc. unfold willyweather_find_location_id.
  destruct (String.eqb_spec (WILLYWEATHER_API_KEY cfg) EmptyString); [done|].
  rewrite M_bind_run, (requests_get_response _ _ _ _ _ Hup). cbn [fst snd ok].
  rewrite M_bind_lift. unfold raise_for_status. rewrite Hst. cbn [ok].
  rewrite M_bind_lift. cbn [res_json ok]. cbv zeta. by rewrite Hloc.
Qed.

(** What [int] raises is a [ValueError], a [TypeError] or an
    [OverflowError]. *)
Lemma int_raises (v : value) (ex : exn) :
  int v = inl ex ->
  exists msg,
    ex = ValueError msg \/ ex = TypeError msg \/ ex = OverflowError msg.
Proof.
  destruct v as [| |n|f|s| |]; cbn [int];
    try (intros [= <-]; eexists; eauto; fail); try done.
  - destruct f; cbn; try done; intros [= <-]; eexists; eauto.
  - unfold int_of_str. destruct (read_sign _) as [neg t].
    destruct (digitpart 0 t) as [[[v n] [|c rest]]|];
      [destruct (_ <? _)|destruct (_ || _)|];
      try done; intros [= <-]; eexists; eauto.
Qed.

(** C10, as the code has it. When the location search returns a
    non-empty location object, a WillyWeather request that misses the
    cache is answered according to what [int] makes of the id.  An id
    that [int] converts to 0 gives 404 with the no-location error body
    and nothing cached: the answer and the state are those of a search
    that returned no location at all.  An id on which [int] raises, a
    string outside ASCII apart, gives 502 with the upstream-failure body
    whose detail is the message of the exception. *)
Theorem zero_location_id_answers_not_found
    (cfg : config) (e e' : env) (rq : request) (w : world)
    (lat lon : string) (latf lonf : float) (d st st' : Z)
    (data data' : value) (loc : dict) :
  arg_lat rq = Some lat -> arg_lon rq = Some lon ->
  float_of_str lat = ok latf -> float_of_str lon = ok lonf ->
  int_of_str (default "7" (arg_days rq)) = ok d ->
  resolve_provider cfg rq = "willyweather" ->
  mock_mode cfg "willyweather" = false ->
  WILLYWEATHER_API_KEY cfg <> EmptyString ->
  cache_lookup (time_at_get e)
    (cache_key_of "willyweather" lat lon d) (cache w) = None ->
  upstream e (WillyWeatherSearch (WILLYWEATHER_API_KEY cfg) latf lonf)
  = Response st (Some data) ->
  (400 <=? st) && (st <? 600) = false ->
  location_of data = VDict loc -> loc <> [] ->
  time_at_get e' = time_at_get e ->
  upstream e' (WillyWeatherSearch (WILLYWEATHER_API_KEY cfg) latf lonf)
  = Response st' (Some data') ->
  (400 <=? st') && (st' <? 600) = false ->
  location_of data' = VNone ->
  (int (dict_get_or loc "id" VNone) = ok 0 ->
   weather cfg e rq w
   = (ok (HttpResponse 404
            (error_body "No WillyWeather location found for coordinates")),
      log_call (WillyWeatherSearch (WILLYWEATHER_API_KEY cfg) latf lonf)
        (cache_get (time_at_get e)
           (cache_key_of "willyweather" lat lon d) w).2)
   /\ weather cfg e' rq w = weather cfg e rq w)
  /\ (forall ex : exn,
        int (dict_get_or loc "id" VNone) = inl ex ->
        ascii_scalar (dict_get_or loc "id" VNone) ->
        weather cfg e rq w
        = (ok (HttpResponse 502 [("error", VStr "Upstream failure");
                                 ("detail", VStr (exn_str ex))]),
           log_call (WillyWeatherSearch (WILLYWEATHER_API_KEY cfg) latf lonf)
             (cache_get (time_at_get e)
                (cache_key_of "willyweather" lat lon d) w).2)).
Proof.
  intros Hlat Hlon Hlatf Hlonf Hd Hp Hmode Hkey Hmiss Hup Hst Hloc Hne
         Htime Hup' Hst' Hloc'.
  assert (forall e0 : env,
            time_at_get e0 = time_at_get e ->
            weather cfg e0 rq w
            = try_except
                (provider_block cfg e0 "willyweather"
                   (cache_key_of "willyweather" lat lon d) latf lonf d)
                upstream_handler
                (cache_get (time_at_get e)
                   (cache_key_of "willyweather" lat lon d) w).2) as Hblock.
  { intros e0 Ht.
    rewrite (weather_present cfg e0 rq w lat lon d)
      by eauto using float_of_str_nonempty.
    rewrite weather_lookup_run, Hp, Ht. cbv zeta. rewrite Hmiss, Hmode.
    unfold upstream_branch. by rewrite Hlatf, Hlonf, !res_bind_ok. }
  assert (forall e0 : env,
            time_at_get e0 = time_at_get e ->
            (exists id, willyweather_find_location_id cfg e0 latf lonf
                          (cache_get (time_at_get e)
                             (cache_key_of "willyweather" lat lon d) w).2
                        = (ok id,
                           log_call (WillyWeatherSearch
                                       (WILLYWEATHER_API_KEY cfg) latf lonf)
                             (cache_get (time_at_get e)
                                (cache_key_of "willyweather" lat lon d) w).2)
                        /\ (id = None \/ id = Some 0)) ->
            weather cfg e0 rq w
            = (ok (HttpResponse 404
                     (error_body
                        "No WillyWeather location found for coordinates")),
               log_call (WillyWeatherSearch (WILLYWEATHER_API_KEY cfg)
                           latf lonf)
                 (cache_get (time_at_get e)
                    (cache_key_of "willyweather" lat lon d) w).2)) as Hrun.
  { intros e0 Ht (id & Hfind & Hid0). rewrite (Hblock e0 Ht).
    unfold try_except, provider_block.
    cbn [String.eqb Ascii.eqb Bool.eqb].
    rewrite M_bind_run, Hfind. by destruct Hid0 as [-> | ->]. }
  split.
  - intros Hid. split.
    + apply Hrun; [done|]. exists (Some 0). split; [|by right].
      by apply (find_location_found cfg e latf lonf _ st 0 data loc).
    + rewrite (Hrun e'), (Hrun e); try done.
      * exists (Some 0). split; [|by right].
        by apply (find_location_found cfg e latf lonf _ st 0 data loc).
      * exists None. split; [|by left].
        by apply (find_location_absent cfg e' latf lonf _ st' data').
  - intros ex Hid _. rewrite (Hblock e eq_refl).
    unfold try_except, provider_block.
    cbn [String.eqb Ascii.eqb Bool.eqb].
    rewrite M_bind_run. unfold willyweather_find_location_id.
    destruct (String.eqb_spec (WILLYWEATHER_API_KEY cfg) EmptyString);
      [done|].
    rewrite M_bind_run, (requests_get_response _ _ _ _ _ Hup).
    cbn [fst snd ok].
    rewrite M_bind_lift. unfold raise_for_status. rewrite Hst. cbn [ok].
    rewrite M_bind_lift. cbn [res_json ok]. cbv zeta. rewrite Hloc.
    destruct loc as [|kv loc]; [done|]. cbn [truthy].
    rewrite M_bind_lift, Hid.
    by destruct (int_raises _ _ Hid) as (msg & [-> | [-> | ->]]).
Qed.

(** C10, counterexample. A location object whose id is [null], which is
    falsy, makes [int] raise: the answer is 502 with the upstream-failure
    body, not 404. *)
Lemma null_location_id_is_upstream_failure :
  truthy VNone = false
  /\ location_of (VDict [("location", VDict [("id", VNone)])])
     = VDict [("id", VNone)]
  /\ weather live_config
       (answering_at (float_lit "1700000000")
          (VDict [("location", VDict [("id", VNone)])]))
       (melbourne None (Some "willyweather")) fresh_world
     = (ok (HttpResponse 502
              [("error", VStr "Upstream failure");
               ("detail",
                VStr "int() argument must be a string, a bytes-like object or a real number, not 'NoneType'")]),
        log_call (WillyWeatherSearch "secret" (float_lit "-37.8136")
                    (float_lit "144.9631"))
                 fresh_world).
Proof. repeat split; reflexivity. Qed.

(** ** Instances *)

Lemma zero_location_id_answers_not_found_witness :
  (int (dict_get_or [("id", VStr " 0 "); ("name", VStr "Nowhere")] "id" VNone)
   = ok 0 ->
   weather live_config
     (answering_at (float_lit "1700000000")
        (VDict [("location",
                 VDict [("id", VStr " 0 "); ("name", VStr "Nowhere")])]))
     (melbourne None (Some "willyweather")) fresh_world
   = (ok (HttpResponse 404
            (error_body "No WillyWeather location found for coordinates")),
      log_call (WillyWeatherSearch (WILLYWEATHER_API_KEY live_config)
                  (float_lit "-37.8136") (float_lit "144.9631"))
        (cache_get (time_at_get
                      (answering_at (float_lit "1700000000")
                         (VDict [("location",
                                  VDict [("id", VStr " 0 ");
                                         ("name", VStr "Nowhere")])])))
           (cache_key_of "willyweather" "-37.8136" "144.9631" 7)
           fresh_world).2)
   /\ weather live_config
        (answering_at (float_lit "1700000000")
           (VDict [("units", VDict [("distance", VStr "km")])]))
        (melbourne None (Some "willyweather")) fresh_world
      = weather live_config
          (answering_at (float_lit "1700000000")
             (VDict [("location",
                      VDict [("id", VStr " 0 ");
                             ("name", VStr "Nowhere")])]))
          (melbourne None (Some "willyweather")) fresh_world)
  /\ (forall ex : exn,
        int (dict_get_or [("id", VStr " 0 "); ("name", VStr "Nowhere")]
               "id" VNone) = inl ex ->
        ascii_scalar
          (dict_get_or [("id", VStr " 0 "); ("name", VStr "Nowhere")]
             "id" VNone) ->
        weather live_config
          (answering_at (float_lit "1700000000")
             (VDict [("location",
                      VDict [("id", VStr " 0 ");
                             ("name", VStr "Nowhere")])]))
          (melbourne None (Some "willyweather")) fresh_world
        = (ok (HttpResponse 502 [("error", VStr "Upstream failure");
                                 ("detail", VStr (exn_str ex))]),
           log_call (WillyWeatherSearch (WILLYWEATHER_API_KEY live_config)
                       (float_lit "-37.8136") (float_lit "144.9631"))
             (cache_get (time_at_get
                           (answering_at (float_lit "1700000000")
                              (VDict [("location",
                                       VDict [("id", VStr " 0 ");
                                              ("name", VStr "Nowhere")])])))
                (cache_key_of "willyweather" "-37.8136" "144.9631" 7)
                fresh_world).2)).
Proof.
  apply (zero_location_id_answers_not_found live_config
           (answering_at (float_lit "1700000000")
              (VDict [("location",
                       VDict [("id", VStr " 0 "); ("name", VStr "Nowhere")])]))
           (answering_at (float_lit "1700000000")
              (VDict [("units", VDict [("distance", VStr "km")])]))
           (melbourne None (Some "willyweather")) fresh_world
           "-37.8136" "144.9631"
           (float_lit "-37.8136") (float_lit "144.9631") 7 200 200
           (VDict [("location",
                    VDict [("id", VStr " 0 "); ("name", VStr "Nowhere")])])
           (VDict [("units", VDict [("distance", VStr "km")])])
           [("id", VStr " 0 "); ("name", VStr "Nowhere")]);
    try reflexivity; discriminate.
Defined.

Lemma repeat_within_ttl_served_from_cache_witness :
  exists r2 : response,
    weather default_config (offline_at (float_lit "1700000300"))
      (melbourne (Some "3") None)
      (serve_all default_config
         [(offline_at (float_lit "1700000100"),
           melbourne None (Some "open-meteo"))]
         world_after_mock_answer)
    = (ok r2,
       serve_all default_config
         [(offline_at (float_lit "1700000100"),
           melbourne None (Some "open-meteo"))]
         world_after_mock_answer)
    /\ status r2 = 200
    /\ body r2 = ("source", VStr "cache") :: body mock_answer
    /\ dict_get (body r2) "source" = Some (VStr "cache")
    /\ dict_get (body r2) "forecast" = dict_get (body mock_answer) "forecast".
Proof.
  apply (repeat_within_ttl_served_from_cache default_config
           (offline_at (float_lit "1700000000"))
           (offline_at (float_lit "1700000300"))
           (melbourne (Some "3") None) fresh_world world_after_mock_answer
           mock_answer (float_lit "1700000300")
           [(offline_at (float_lit "1700000100"),
             melbourne None (Some "open-meteo"))]);
    try reflexivity.
  apply Forall_cons; split; [reflexivity|apply Forall_nil_2].
Defined.

Lemma expired_entry_evicted_and_refetched_witness :
  cache_get (float_lit "1700000301")
    (cache_key_of "mock" "-37.8136" "144.9631" 3) world_after_mock_answer
  = (ok None,
     with_cache (delete (cache_key_of "mock" "-37.8136" "144.9631" 3)
                   (cache world_after_mock_answer))
                world_after_mock_answer)
  /\ cache (cache_get (float_lit "1700000301")
              (cache_key_of "mock" "-37.8136" "144.9631" 3)
              world_after_mock_answer).2
       !! cache_key_of "mock" "-37.8136" "144.9631" 3 = None.
Proof.
  pose proof (expired_entry_evicted_and_refetched default_config
                (offline_at (float_lit "1700000301"))
                (melbourne (Some "3") None) world_after_mock_answer
                "mock" "-37.8136" "144.9631" 3
                (float_lit "1700000300") (body mock_answer)) as H.
  destruct H as (H1 & H2 & _); try reflexivity; try discriminate.
  split; [exact H1|exact H2].
Defined.

Lemma open_meteo_forecast_days_witness :
  exists fc : list value,
    open_meteo_forecast
      (answering_at (float_lit "1700000000") open_meteo_body)
      (float_lit "-37.8136") (float_lit "144.9631") 7 fresh_world
    = (ok [("forecast", VList fc)],
       log_call (OpenMeteoForecast (float_lit "-37.8136")
                   (float_lit "144.9631") 7) fresh_world)
    /\ length fc = 3%nat
    /\ fc !! 1%nat
       = Some (VDict [("day", VInt 2); ("summary", VStr "Code 999");
                      ("tempMin", VFloat (float_lit "12"));
                      ("tempMax", VNone)]).
Proof.
  destruct (open_meteo_forecast_days
              (answering_at (float_lit "1700000000") open_meteo_body)
              (float_lit "-37.8136") (float_lit "144.9631") 7 fresh_world
              200 open_meteo_body
              [("time", VList [VStr "2024-01-01"; VStr "2024-01-02";
                               VStr "2024-01-03"]);
               ("temperature_2m_min",
                VList [VFloat (float_lit "11.5"); VInt 12; VInt 9]);
               ("temperature_2m_max", VList [VFloat (float_lit "21.5")]);
               ("weathercode", VList [VInt 61; VInt 999; VInt 0])]
              [VStr "2024-01-01"; VStr "2024-01-02"; VStr "2024-01-03"]
              [VFloat (float_lit "11.5"); VInt 12; VInt 9]
              [VFloat (float_lit "21.5")]
              [VInt 61; VInt 999; VInt 0]
              [float_lit "11.5"; float_lit "12"; float_lit "9"]
              [float_lit "21.5"]
              [61; 999; 0])
    as (fc & Hrun & Hlen & _ & Hday & _);
    try reflexivity;
    try (repeat (apply Forall2_cons; split; [reflexivity|]);
         apply Forall2_nil_2).
  exists fc. split; [exact Hrun|]. split; [exact Hlen|].
  apply (Hday 1%nat). rewrite Hlen. cbn. lia.
Defined.

(** ** Where the handler can raise *)

Lemma float_of_str_raises (s : string) (ex : exn) :
  float_of_str s = inl ex -> exists msg, ex = ValueError msg.
Proof.
  unfold float_of_str. destruct (read_sign _) as [neg t].
  destruct (_ || _); [done|]. destruct (String.eqb _ _); [done|].
  destruct (read_number t) as [[[m nfrac] rest]|];
    [|intros [= <-]; by eexists].
  destruct (read_exponent rest) as [[? [|]]|]; try done;
    intros [= <-]; by eexists.
Qed.

(** Whatever the provider block does, the [try] around it answers. *)
Lemma try_provider_block_answers (cfg : config) (e : env) (p key : string)
    (latf lonf : float) (d : Z) (w : world) :
  exists r w',
    try_except (provider_block cfg e p key latf lonf d) upstream_handler w
    = (ok r, w')
    /\ (status r = 200 \/ status r = 400 \/ status r = 404
        \/ status r = 502 \/ status r = 504).
Proof.
  unfold try_except.
  destruct (provider_block _ _ _ _ _ _ _ _) as [[ex|r] w1] eqn:Hblock.
  - destruct (upstream_handler_run ex w1) as (r & -> & Hst & _).
    exists r, w1. split; [done|]. destruct Hst; auto.
  - exists r, w1. split; [done|].
    apply provider_block_inv in Hblock as [(-> & _)|([-> | ->] & _)]; auto.
Qed.

(** The handler raises in three places only: [int] on the [days]
    parameter, [float] on [lat] or [lon] on the mock branch, and the
    addition of the TTL in [cache_set] on the mock branch.  Every other
    failure is answered. *)
Lemma weather_raises_only (cfg : config) (e : env) (rq : request)
    (w w' : world) (ex : exn) :
  weather cfg e rq w = (inl ex, w') ->
  int_of_str (default "7" (arg_days rq)) = inl ex
  \/ (mock_mode cfg (resolve_provider cfg rq) = true
      /\ exists lat lon,
           arg_lat rq = Some lat /\ arg_lon rq = Some lon
           /\ (float_of_str lat = inl ex
               \/ float_of_str lon = inl ex
               \/ float_add_int (time_at_set e) (CACHE_TTL_SECONDS cfg)
                  = inl ex)).
Proof.
  intros Hrun.
  destruct (int_of_str (default "7" (arg_days rq))) as [ex0|d] eqn:Hd.
  { rewrite (weather_bad_days cfg e rq w ex0 Hd) in Hrun.
    left. congruence. }
  right.
  destruct (request_key cfg rq) as [key|] eqn:Hkey.
  2:{ unfold request_key in Hkey. unfold weather in Hrun.
      rewrite M_bind_lift, Hd in Hrun. rewrite Hd in Hkey.
      destruct (arg_lat rq) as [[|c lat]|], (arg_lon rq) as [[|c' lon]|];
        discriminate. }
  destruct (request_key_Some _ _ _ Hkey)
    as (lat & lon & d' & Hlat & Hlat' & Hlon & Hlon' & Hd' & ->).
  rewrite (weather_present cfg e rq w lat lon d') in Hrun by done.
  rewrite weather_lookup_run in Hrun. cbv zeta in Hrun.
  destruct (cache_lookup _ _ _) as [[|kv data]|]; try discriminate Hrun;
    (destruct (mock_mode cfg (resolve_provider cfg rq)) eqn:Hmode;
     [split; [done|]; exists lat, lon; split; [done|]; split; [done|];
      revert Hrun; unfold mock_branch; rewrite M_bind_lift;
      destruct (float_of_str lat) as [ex1|latf];
        [intros [= -> _]; by left|];
      rewrite M_bind_lift;
      destruct (float_of_str lon) as [ex2|lonf];
        [intros [= -> _]; by right; left|];
      cbv zeta; rewrite M_bind_run, cache_set_run;
      destruct (float_add_int _ _) as [ex3|exp];
        [intros [= -> _]; by right; right|discriminate]
     |exfalso; revert Hrun; unfold upstream_branch;
      destruct (float_of_str lat) as [ex1|latf] eqn:Hlatf;
        [destruct (float_of_str_raises _ _ Hlatf) as [msg ->]; discriminate|];
      destruct (float_of_str lon) as [ex2|lonf] eqn:Hlonf;
        [destruct (float_of_str_raises _ _ Hlonf) as [msg ->]; discriminate|];
      rewrite !res_bind_inr; cbn [ok];
      match goal with
      | |- context [try_except (provider_block ?c ?e0 ?p ?k ?a ?b ?n)
                               upstream_handler ?w0] =>
          destruct (try_provider_block_answers c e0 p k a b n w0)
            as (r & w2 & -> & _)
      end; discriminate]).
Qed.

(** Every answer of the handler has a status of the documented set. *)
Lemma weather_status (cfg : config) (e : env) (rq : request)
    (w w' : world) (r : response) :
  weather cfg e rq w = (ok r, w') ->
  status r = 200 \/ status r = 400 \/ status r = 404
  \/ status r = 502 \/ status r = 504.
Proof.
  intros Hrun.
  destruct (int_of_str (default "7" (arg_days rq))) as [ex0|d] eqn:Hd.
  { by rewrite (weather_bad_days cfg e rq w ex0 Hd) in Hrun. }
  destruct (request_key cfg rq) as [key|] eqn:Hkey.
  2:{ unfold request_key in Hkey. unfold weather in Hrun.
      rewrite M_bind_lift, Hd in Hrun. rewrite Hd in Hkey.
      destruct (arg_lat rq) as [[|c lat]|], (arg_lon rq) as [[|c' lon]|];
        try discriminate Hkey; injection Hrun as <- _; auto. }
  destruct (request_key_Some _ _ _ Hkey)
    as (lat & lon & d' & Hlat & Hlat' & Hlon & Hlon' & Hd' & ->).
  rewrite (weather_present cfg e rq w lat lon d') in Hrun by done.
  rewrite weather_lookup_run in Hrun. cbv zeta in Hrun.
  assert (forall w1,
            (if mock_mode cfg (resolve_provider cfg rq)
             then mock_branch cfg e
                    (cache_key_of (resolve_provider cfg rq) lat lon d')
                    lat lon d' w1
             else upstream_branch cfg e (resolve_provider cfg rq)
                    (cache_key_of (resolve_provider cfg rq) lat lon d')
                    lat lon d' w1) = (ok r, w') ->
            status r = 200 \/ status r = 400 \/ status r = 404
            \/ status r = 502 \/ status r = 504) as Hfresh.
  { intros w1. destruct (mock_mode _ _).
    - unfold mock_branch. rewrite M_bind_lift.
      destruct (float_of_str lat) as [|latf]; [done|]. rewrite M_bind_lift.
      destruct (float_of_str lon) as [|lonf]; [done|]. cbv zeta.
      rewrite M_bind_run, cache_set_run.
      destruct (float_add_int _ _); [done|]. intros [= <- _]. auto.
    - unfold upstream_branch.
      destruct (_ ≫= _) as [[]|[latf lonf]]; try discriminate.
      { intros [= <- _]. auto. }
      destruct (try_provider_block_answers cfg e (resolve_provider cfg rq)
                  (cache_key_of (resolve_provider cfg rq) lat lon d')
                  latf lonf d' w1) as (r0 & w2 & -> & Hst).
      by intros [= <- _]. }
  destruct (cache_lookup _ _ _) as [[|kv data]|]; eauto.
  unfold ok in Hrun. injection Hrun as <- _. auto.
Qed.

(** ** Cache keys determine their request *)

Lemma append_cons (c : ascii) (a b : string) :
  String c a +:+ b = String c (a +:+ b).
Proof. reflexivity. Qed.

Lemma append_assoc (a b c : string) : (a +:+ b) +:+ c = a +:+ b +:+ c.
Proof.
  induction a as [|x a IH]; [done|]. by rewrite !append_cons, IH.
Qed.

Lemma no_colon_app (a b : string) :
  no_colon (a +:+ b) = no_colon a && no_colon b.
Proof.
  induction a as [|x a IH]; [done|].
  rewrite append_cons. cbn [no_colon]. by rewrite IH, andb_assoc.
Qed.

(** A string splits in one way only at its last colon. *)
Lemma split_at_last_colon (a a' b b' : string) :
  no_colon b = true -> no_colon b' = true ->
  a +:+ ":" +:+ b = a' +:+ ":" +:+ b' -> a = a' /\ b = b'.
Proof.
  intros Hb Hb'. revert a'.
  induction a as [|x a IH]; intros [|x' a'] Heq.
  - change (String ":" b = String ":" b') in Heq. by injection Heq as ->.
  - exfalso.
    change (String ":" b = String x' (a' +:+ ":" +:+ b')) in Heq.
    injection Heq as <- ->.
    rewrite no_colon_app in Hb. cbn in Hb.
    by rewrite andb_false_r in Hb.
  - exfalso.
    change (String x (a +:+ ":" +:+ b) = String ":" b') in Heq.
    injection Heq as -> <-.
    rewrite no_colon_app in Hb'. cbn in Hb'.
    by rewrite andb_false_r in Hb'.
  - rewrite !append_cons in Heq. injection Heq as -> Heq.
    by destruct (IH _ Heq) as [-> ->].
Qed.

Lemma no_colon_string_of_uint (u : Decimal.uint) :
  no_colon (NilEmpty.string_of_uint u) = true.
Proof. induction u; cbn; auto. Qed.

Lemma no_colon_nilzero_uint (u : Decimal.uint) :
  no_colon (NilZero.string_of_uint u) = true.
Proof.
  destruct u; [reflexivity|exact (no_colon_string_of_uint _)..].
Qed.

Lemma no_colon_str_of_int (n : Z) : no_colon (str_of_int n) = true.
Proof.
  unfold str_of_int, NilZero.string_of_int.
  destruct (Z.to_int n) as [u|u]; [apply no_colon_nilzero_uint|].
  change (no_colon (NilZero.string_of_uint u) = true).
  apply no_colon_nilzero_uint.
Qed.

Lemma to_int_proper (n : Z) :
  Z.to_int n <> Decimal.Pos Decimal.Nil /\ Z.to_int n <> Decimal.Neg Decimal.Nil.
Proof.
  destruct n as [|q|q]; cbn; split; try discriminate;
    intros [= H]; by apply Unsigned.to_uint_nonnil in H.
Qed.

Lemma str_of_int_inj (a b : Z) : str_of_int a = str_of_int b -> a = b.
Proof.
  unfold str_of_int. intros H.
  destruct (to_int_proper a) as [Ha1 Ha2], (to_int_proper b) as [Hb1 Hb2].
  pose proof (NilZero.isi _ Ha1 Ha2) as Ha.
  pose proof (NilZero.isi _ Hb1 Hb2) as Hb.
  rewrite H, Hb in Ha. injection Ha as Ha.
  by rewrite <- (DecimalZ.of_to a), <- (DecimalZ.of_to b), Ha.
Qed.

Lemma cache_key_of_nested (p lat lon : string) (d : Z) :
  cache_key_of p lat lon d
  = ((("weather:" +:+ p) +:+ ":" +:+ lat) +:+ ":" +:+ lon)
      +:+ ":" +:+ str_of_int d.
Proof. unfold cache_key_of. by rewrite !append_assoc. Qed.

(** Two requests with colon-free coordinates share a cache key only if
    they agree on provider, coordinates and day count. *)
Lemma cache_key_of_inj (p p' lat lat' lon lon' : string) (d d' : Z) :
  no_colon lat = true -> no_colon lon = true ->
  no_colon lat' = true -> no_colon lon' = true ->
  cache_key_of p lat lon d = cache_key_of p' lat' lon' d' ->
  p = p' /\ lat = lat' /\ lon = lon' /\ d = d'.
Proof.
  intros Hlat Hlon Hlat' Hlon'. rewrite !cache_key_of_nested. intros H.
  apply split_at_last_colon in H as [H Hd]; try apply no_colon_str_of_int.
  apply split_at_last_colon in H as [H ->]; try done.
  apply split_at_last_colon in H as [H ->]; try done.
  apply str_of_int_inj in Hd as ->.
  by apply (inj (String.append "weather:")) in H as ->.
Qed.

(** ** A string [float] accepts has no colon *)

Lemma is_digit_not_colon (c : ascii) :
  is_digit c = true -> Ascii.eqb c ":" = false.
Proof. by destruct c as [[] [] [] [] [] [] [] []]. Qed.

Lemma lower_ascii_colon (c : ascii) :
  Ascii.eqb (lower_ascii c) ":" = Ascii.eqb c ":".
Proof. by destruct c as [[] [] [] [] [] [] [] []]. Qed.

Lemma is_c_space_not_colon (c : ascii) :
  is_c_space c = true -> Ascii.eqb c ":" = false.
Proof. by destruct c as [[] [] [] [] [] [] [] []]. Qed.

Lemma no_colon_c_lstrip (s : string) : no_colon (c_lstrip s) = no_colon s.
Proof.
  induction s as [|c s IH]; [done|]. cbn [c_lstrip no_colon].
  destruct (is_c_space c) eqn:Hc; [|done].
  by rewrite (is_c_space_not_colon c Hc).
Qed.

Lemma no_colon_c_rstrip (s : string) : no_colon (c_rstrip s) = no_colon s.
Proof.
  induction s as [|c s IH]; [done|]. cbn [c_rstrip no_colon]. rewrite <- IH.
  destruct (c_rstrip s) as [|c' t]; [|done].
  destruct (is_c_space c) eqn:Hc; [|by cbn; rewrite andb_true_r].
  by rewrite (is_c_space_not_colon c Hc).
Qed.

Lemma no_colon_lower (s : string) : no_colon (lower s) = no_colon s.
Proof.
  induction s as [|c s IH]; [done|]. cbn [lower no_colon].
  by rewrite lower_ascii_colon, IH.
Qed.

Lemma read_sign_no_colon (s rest : string) (neg : bool) :
  read_sign s = (neg, rest) -> no_colon rest = true -> no_colon s = true.
Proof.
  destruct s as [|c s]; cbn [read_sign]; [by intros [= _ <-]|].
  destruct (Ascii.eqb_spec c "-") as [->|_]; [by intros [= _ <-]|].
  destruct (Ascii.eqb_spec c "+") as [->|_]; by intros [= _ <-].
Qed.

Lemma digitpart_rest_no_colon (n : nat) :
  forall (s rest : string) (acc k v k' : Z),
    (String.length s < n)%nat ->
    digitpart_rest acc k s = (v, k', rest) ->
    no_colon rest = true -> no_colon s = true.
Proof.
  induction n as [|n IH]; intros s rest acc k v k' Hlen; [lia|].
  destruct s as [|c s]; cbn [digitpart_rest]; [by intros [= _ _ <-]|].
  cbn [String.length] in Hlen.
  destruct (is_digit c) eqn:Hc.
  { intros Hrun Hrest. cbn [no_colon].
    rewrite (is_digit_not_colon c Hc). cbn.
    eapply (IH s rest); [lia|exact Hrun|done]. }
  destruct (Ascii.eqb_spec c "_") as [->|_]; [|by intros [= _ _ <-]].
  destruct s as [|d s]; [by intros [= _ _ <-]|].
  cbn [String.length] in Hlen.
  destruct (is_digit d) eqn:Hd; [|by intros [= _ _ <-]].
  intros Hrun Hrest. cbn [no_colon].
  rewrite (is_digit_not_colon d Hd). cbn.
  eapply (IH s rest); [lia|exact Hrun|done].
Qed.

Lemma digitpart_no_colon (s rest : string) (acc v k : Z) :
  digitpart acc s = Some (v, k, rest) ->
  no_colon rest = true -> no_colon s = true.
Proof.
  destruct s as [|c s]; cbn [digitpart]; [done|].
  destruct (is_digit c) eqn:Hc; [|done].
  intros [= Hrun] Hrest. cbn [no_colon].
  rewrite (is_digit_not_colon c Hc). cbn.
  eapply (digitpart_rest_no_colon (S (String.length s)) s rest);
    [lia|exact Hrun|done].
Qed.

Lemma read_number_no_colon (s rest : string) (m nfrac : Z) :
  read_number s = Some (m, nfrac, rest) ->
  no_colon rest = true -> no_colon s = true.
Proof.
  unfold read_number.
  destruct (digitpart 0 s) as [[[ip k] [|c r]]|] eqn:Hint.
  - intros _ _. by eapply digitpart_no_colon.
  - destruct (Ascii.eqb_spec c ".") as [->|_].
    + destruct (digitpart ip r) as [[[m' nf'] r']|] eqn:Hfrac.
      * intros [= _ _ ->] Hrest.
        eapply digitpart_no_colon; [exact Hint|]. cbn.
        by eapply digitpart_no_colon.
      * intros [= _ _ ->] Hrest.
        eapply digitpart_no_colon; [exact Hint|]. by cbn.
    + intros [= _ _ <-] Hrest. by eapply digitpart_no_colon.
  - destruct s as [|c r]; [done|].
    destruct (Ascii.eqb_spec c ".") as [->|_]; [|done].
    intros Hfrac Hrest. cbn. by eapply digitpart_no_colon.
Qed.

Lemma read_exponent_no_colon (s rest : string) (ex : Z) :
  read_exponent s = Some (ex, rest) ->
  no_colon rest = true -> no_colon s = true.
Proof.
  destruct s as [|c s]; cbn [read_exponent]; [by intros [= _ <-]|].
  destruct (Ascii.eqb c "e" || Ascii.eqb c "E") eqn:Hc;
    [|by intros [= _ <-]].
  destruct (read_sign s) as [eneg t] eqn:Hsign.
  destruct (digitpart 0 t) as [[[v k] r]|] eqn:Hd; [|done].
  intros [= _ ->] Hrest. cbn [no_colon].
  assert (Ascii.eqb c ":" = false) as ->.
  { apply orb_true_iff in Hc as [->%Ascii.eqb_eq | ->%Ascii.eqb_eq]; done. }
  cbn. apply (read_sign_no_colon s t eneg Hsign).
  by eapply digitpart_no_colon.
Qed.

Lemma float_of_str_no_colon (s : string) (f : float) :
  float_of_str s = ok f -> no_colon s = true.
Proof.
  unfold float_of_str, c_strip.
  destruct (read_sign (c_rstrip (c_lstrip s))) as [neg t] eqn:Hsign.
  intros Hrun.
  rewrite <- no_colon_c_lstrip, <- no_colon_c_rstrip.
  apply (read_sign_no_colon _ t neg Hsign).
  destruct (String.eqb (lower t) "inf" || String.eqb (lower t) "infinity")
    eqn:Hinf.
  { rewrite <- no_colon_lower.
    apply orb_true_iff in Hinf as [->%String.eqb_eq | ->%String.eqb_eq];
      done. }
  destruct (String.eqb_spec (lower t) "nan") as [Hnan|_].
  { by rewrite <- no_colon_lower, Hnan. }
  destruct (read_number t) as [[[m nfrac] rest]|] eqn:Hnum; [|done].
  destruct (read_exponent rest) as [[ex [|]]|] eqn:Hexp; try done.
  apply (read_number_no_colon t rest m nfrac Hnum).
  by eapply read_exponent_no_colon.
Qed.

(** ** What a request leaves under its own key *)

Lemma willyweather_forecast_by_id_cache (cfg : config) (e : env) (id d : Z)
    (w : world) :
  cache (willyweather_forecast_by_id cfg e id d w).2 = cache w.
Proof.
  unfold willyweather_forecast_by_id.
  destruct (String.eqb _ _); [done|].
  rewrite M_bind_run. unfold requests_get.
  destruct (upstream e _) as [| |st j]; try done. cbn [ok].
  rewrite M_bind_lift. destruct (raise_for_status _); [done|].
  rewrite M_bind_lift. by destruct (res_json _).
Qed.






(** ** Mock entries in reachable states *)






(** * Further properties of the code *)

(** ** The cache: round trip, overwrite, repeated reads *)

(** X1. An entry written by [cache_set] is what [cache_get] under the
    same key returns as long as the expiry time, the time of the write
    plus the TTL, is not before the time of the read; once it is, the
    read returns [None] and leaves the cache as it was before the write,
    without the key. *)
Theorem cache_set_then_get
    (now now' : float) (key : string) (data : dict) (ttl : Z) (w : world)
    (exp : float) :
  float_add_int now ttl = ok exp ->
  cache_get now' key (cache_set now key data ttl w).2
  = if SFltb exp now'
    then (ok None, with_cache (delete key (cache w)) w)
    else (ok (Some data), with_cache (<[key := (exp, data)]> (cache w)) w).
Proof.
  intros Hexp. rewrite cache_set_run, Hexp. cbn [snd ok].
  rewrite cache_get_run. unfold cache_lookup. cbn [cache with_cache].
  rewrite lookup_insert_eq.
  destruct (SFltb exp now'); [|done].
  unfold with_cache. cbn. by rewrite delete_insert_eq.
Qed.

Lemma cache_set_then_get_witness :
  cache_get (float_lit "1700000200") "k"
    (cache_set (float_lit "1700000000") "k" [("days", VInt 3)] 300
       fresh_world).2
  = if SFltb (float_lit "1700000300") (float_lit "1700000200")
    then (ok None, with_cache (delete "k" (cache fresh_world)) fresh_world)
    else (ok (Some [("days", VInt 3)]),
          with_cache (<["k" := (float_lit "1700000300", [("days", VInt 3)])]>
                        (cache fresh_world)) fresh_world).
Proof.
  apply (cache_set_then_get (float_lit "1700000000") (float_lit "1700000200")
           "k" [("days", VInt 3)] 300 fresh_world (float_lit "1700000300")).
  reflexivity.
Defined.

(** X2. [cache_set] overwrites unconditionally and touches one key: a
    second write under a key leaves the state that this write alone would
    have left, and a write leaves every other key and the upstream log
    untouched. *)
Theorem cache_set_last_write_wins
    (now1 now2 : float) (key : string) (data1 data2 : dict) (ttl1 ttl2 : Z)
    (w : world) (exp1 exp2 : float) :
  float_add_int now1 ttl1 = ok exp1 ->
  float_add_int now2 ttl2 = ok exp2 ->
  (cache_set now2 key data2 ttl2 (cache_set now1 key data1 ttl1 w).2).2
  = (cache_set now2 key data2 ttl2 w).2
  /\ cache (cache_set now2 key data2 ttl2 w).2 !! key = Some (exp2, data2)
  /\ (forall key' : string, key' <> key ->
        cache (cache_set now2 key data2 ttl2 w).2 !! key' = cache w !! key')
  /\ calls (cache_set now2 key data2 ttl2 w).2 = calls w.
Proof.
  intros H1 H2. rewrite !cache_set_run, H1, H2.
  cbn [snd ok with_cache cache calls].
  split; [by rewrite insert_insert_eq|].
  split; [by rewrite lookup_insert_eq|].
  split; [|done]. intros key' Hne. by rewrite lookup_insert_ne.
Qed.

Lemma cache_set_last_write_wins_witness :
  (cache_set (float_lit "1700000050") "k" [("days", VInt 5)] 300
     (cache_set (float_lit "1700000000") "k" [("days", VInt 3)] 300
        fresh_world).2).2
  = (cache_set (float_lit "1700000050") "k" [("days", VInt 5)] 300
       fresh_world).2
  /\ cache (cache_set (float_lit "1700000050") "k" [("days", VInt 5)] 300
              fresh_world).2 !! "k"
     = Some (float_lit "1700000350", [("days", VInt 5)])
  /\ (forall key' : string, key' <> "k" ->
        cache (cache_set (float_lit "1700000050") "k" [("days", VInt 5)] 300
                 fresh_world).2 !! key'
        = cache fresh_world !! key')
  /\ calls (cache_set (float_lit "1700000050") "k" [("days", VInt 5)] 300
              fresh_world).2
     = calls fresh_world.
Proof.
  apply (cache_set_last_write_wins (float_lit "1700000000")
           (float_lit "1700000050") "k" [("days", VInt 3)] [("days", VInt 5)]
           300 300 fresh_world (float_lit "1700000300")
           (float_lit "1700000350"));
    reflexivity.
Defined.

(** X3. [cache_get] only ever removes: every entry of the cache after a
    read was there before it, with the same expiry time and data; and
    reading again at the same time returns the same result and changes
    nothing any more. *)
Theorem cache_get_only_evicts (now : float) (key : string) (w : world) :
  (forall (k : string) (entry : float * dict),
     cache (cache_get now key w).2 !! k = Some entry ->
     cache w !! k = Some entry)
  /\ cache_get now key (cache_get now key w).2 = cache_get now key w.
Proof.
  rewrite cache_get_run. unfold cache_lookup.
  destruct (cache w !! key) as [[exp data]|] eqn:Hk.
  2:{ cbn [snd]. split; [done|].
      rewrite cache_get_run. unfold cache_lookup. by rewrite Hk. }
  destruct (SFltb exp now) eqn:Hexp; cbn [snd].
  - split.
    + intros k entry. cbn. by intros [_ ?]%lookup_delete_Some.
    + rewrite cache_get_run. unfold cache_lookup. cbn [cache with_cache].
      by rewrite lookup_delete_eq.
  - split; [done|].
    rewrite cache_get_run. unfold cache_lookup. by rewrite Hk, Hexp.
Qed.

(** ** The adapters as one exchange followed by a pure computation *)

Lemma requests_get_run (e : env) (c : call) (w : world) :
  requests_get e c w
  = (match upstream e c with
     | TimedOut => raise (Timeout "Read timed out.")
     | ConnectionFailed msg => raise (RequestException msg)
     | Response st j => ok (st, j)
     end, log_call c w).
Proof. unfold requests_get. by destruct (upstream e c). Qed.

Lemma open_meteo_forecast_run (e : env) (lat lon : float) (d : Z)
    (w : world) :
  open_meteo_forecast e lat lon d w
  = (fetch_json e (OpenMeteoForecast lat lon d)
       ≫= (fun j => open_meteo_days j d),
     log_call (OpenMeteoForecast lat lon d) w).
Proof.
  unfold open_meteo_forecast, fetch_json.
  rewrite M_bind_run, requests_get_run.
  destruct (upstream e _) as [| |st j]; try done. cbn [fst snd ok].
  rewrite M_bind_lift. destruct (raise_for_status st); [done|].
  rewrite M_bind_lift. by destruct (res_json _ _ j).
Qed.

Lemma willyweather_find_location_id_run (cfg : config) (e : env)
    (lat lon : float) (w : world) :
  WILLYWEATHER_API_KEY cfg <> EmptyString ->
  willyweather_find_location_id cfg e lat lon w
  = (fetch_json e (WillyWeatherSearch (WILLYWEATHER_API_KEY cfg) lat lon)
       ≫= location_id_of,
     log_call (WillyWeatherSearch (WILLYWEATHER_API_KEY cfg) lat lon) w).
Proof.
  intros Hkey. unfold willyweather_find_location_id, fetch_json.
  destruct (String.eqb_spec (WILLYWEATHER_API_KEY cfg) EmptyString); [done|].
  rewrite M_bind_run, requests_get_run.
  destruct (upstream e _) as [| |st j]; try done. cbn [fst snd ok].
  rewrite M_bind_lift. destruct (raise_for_status st); [done|].
  rewrite M_bind_lift. destruct (res_json _ _ j) as [|data]; [done|].
  rewrite !res_bind_inr. cbv zeta. unfold location_id_of.
  destruct (location_of data) as [| | | | | |loc]; try done.
  destruct (truthy (VDict loc)); [|done].
  rewrite M_bind_lift. by destruct (int _).
Qed.

Lemma willyweather_forecast_by_id_run (cfg : config) (e : env) (id d : Z)
    (w : world) :
  WILLYWEATHER_API_KEY cfg <> EmptyString ->
  willyweather_forecast_by_id cfg e id d w
  = (fetch_json e (WillyWeatherForecast (WILLYWEATHER_API_KEY cfg) id d)
       ≫= (fun j => willyweather_days j d),
     log_call (WillyWeatherForecast (WILLYWEATHER_API_KEY cfg) id d) w).
Proof.
  intros Hkey. unfold willyweather_forecast_by_id, fetch_json.
  destruct (String.eqb_spec (WILLYWEATHER_API_KEY cfg) EmptyString); [done|].
  rewrite M_bind_run, requests_get_run.
  destruct (upstream e _) as [| |st j]; try done. cbn [fst snd ok].
  rewrite M_bind_lift. destruct (raise_for_status st); [done|].
  rewrite M_bind_lift. by destruct (res_json _ _ j).
Qed.

(** A request that reaches the provider block is answered by the [try]
    statement run in the state the cache lookup left. *)
Lemma weather_reaches_provider (cfg : config) (e : env) (rq : request)
    (w : world) (p lat lon : string) (latf lonf : float) (d : Z) :
  reaches_provider cfg e rq w p lat lon latf lonf d ->
  weather cfg e rq w
  = try_except
      (provider_block cfg e p (cache_key_of p lat lon d) latf lonf d)
      upstream_handler
      (cache_get (time_at_get e) (cache_key_of p lat lon d) w).2.
Proof.
  intros (Hlat & Hlon & Hlatf & Hlonf & Hd & Hp & Hmode & Hmiss).
  rewrite (weather_present cfg e rq w lat lon d)
    by eauto using float_of_str_nonempty.
  rewrite weather_lookup_run, Hp. cbv zeta. rewrite Hmiss, Hmode.
  unfold upstream_branch. by rewrite Hlatf, Hlonf, !res_bind_ok.
Qed.

(** After a missed lookup nothing is left under the key. *)
Lemma cache_get_missed (now : float) (key : string) (w : world) :
  cache_lookup now key (cache w) = None ->
  cache (cache_get now key w).2 !! key = None.
Proof.
  rewrite cache_get_run. unfold cache_lookup. cbn [snd].
  destruct (cache w !! key) as [[exp data]|] eqn:Hk; [|done].
  destruct (SFltb exp now); [|done]. intros _. apply lookup_delete_eq.
Qed.

(** When the first exchange of a request raises, the [except] clauses
    answer, in the state that has the call logged and nothing stored. *)
Lemma first_exchange_raises (cfg : config) (e : env) (rq : request)
    (w : world) (p lat lon : string) (latf lonf : float) (d : Z) (ex : exn) :
  reaches_provider cfg e rq w p lat lon latf lonf d ->
  has_adapter cfg p ->
  fetch_json e (first_call cfg p latf lonf d) = inl ex ->
  weather cfg e rq w
  = upstream_handler ex
      (log_call (first_call cfg p latf lonf d)
         (cache_get (time_at_get e) (cache_key_of p lat lon d) w).2).
Proof.
  intros Hreach Hp Hfetch.
  rewrite (weather_reaches_provider cfg e rq w p lat lon latf lonf d Hreach).
  unfold try_except, provider_block.
  destruct Hp as [-> | [-> Hkey]]; cbn [String.eqb Ascii.eqb Bool.eqb].
  - rewrite M_bind_run, open_meteo_forecast_run.
    change (first_call cfg "open-meteo" latf lonf d)
      with (OpenMeteoForecast latf lonf d) in Hfetch.
    by rewrite Hfetch.
  - rewrite M_bind_run, willyweather_find_location_id_run by done.
    change (first_call cfg "willyweather" latf lonf d)
      with (WillyWeatherSearch (WILLYWEATHER_API_KEY cfg) latf lonf)
      in Hfetch.
    by rewrite Hfetch.
Qed.

(** ** Failures of the upstream call *)

(** X4. When the upstream call of an Open-Meteo request, or the location
    search of a WillyWeather request, times out, the answer is 504 with
    the body [{"error": "Upstream timeout"}]; the call was issued once,
    there is no retry, and nothing is stored under the request's key, a
    stale entry included. *)
Theorem upstream_timeout_answers_504
    (cfg : config) (e : env) (rq : request) (w : world)
    (p lat lon : string) (latf lonf : float) (d : Z) :
  reaches_provider cfg e rq w p lat lon latf lonf d ->
  has_adapter cfg p ->
  upstream e (first_call cfg p latf lonf d) = TimedOut ->
  weather cfg e rq w
  = (ok (HttpResponse 504 (error_body "Upstream timeout")),
     log_call (first_call cfg p latf lonf d)
       (cache_get (time_at_get e) (cache_key_of p lat lon d) w).2)
  /\ calls (weather cfg e rq w).2
     = calls w ++ [first_call cfg p latf lonf d]
  /\ cache (weather cfg e rq w).2 !! cache_key_of p lat lon d = None.
Proof.
  intros Hreach Hp Hup.
  rewrite (first_exchange_raises cfg e rq w p lat lon latf lonf d
             (Timeout "Read timed out.") Hreach Hp)
    by (unfold fetch_json; by rewrite Hup).
  split; [done|]. cbn [upstream_handler snd]. rewrite M_ret_run. cbn [snd].
  destruct Hreach as (_ & _ & _ & _ & _ & _ & _ & Hmiss).
  split; [|by apply cache_get_missed].
  cbn [log_call calls]. f_equal.
  rewrite cache_get_run. cbn [snd].
  destruct (cache w !! _) as [[exp data]|]; [|done].
  by destruct (SFltb exp _).
Qed.

(** X5. When that call is answered with a status from 400 to 599, the
    answer is 502 with the body
    [{"error": "Upstream error", "status": <the upstream status>}],
    whatever the upstream body holds; nothing is stored. *)
Theorem upstream_http_error_answers_502
    (cfg : config) (e : env) (rq : request) (w : world)
    (p lat lon : string) (latf lonf : float) (d st : Z)
    (j : option value) :
  reaches_provider cfg e rq w p lat lon latf lonf d ->
  has_adapter cfg p ->
  upstream e (first_call cfg p latf lonf d) = Response st j ->
  400 <= st < 600 ->
  weather cfg e rq w
  = (ok (HttpResponse 502 [("error", VStr "Upstream error");
                           ("status", VInt st)]),
     log_call (first_call cfg p latf lonf d)
       (cache_get (time_at_get e) (cache_key_of p lat lon d) w).2)
  /\ cache (weather cfg e rq w).2 !! cache_key_of p lat lon d = None.
Proof.
  intros Hreach Hp Hup Hst.
  rewrite (first_exchange_raises cfg e rq w p lat lon latf lonf d
             (HTTPError st (str_of_int st +:+ " Error")) Hreach Hp).
  - split; [done|]. cbn [upstream_handler snd]. rewrite M_ret_run.
    cbn [snd]. destruct Hreach as (_ & _ & _ & _ & _ & _ & _ & Hmiss).
    by apply cache_get_missed.
  - unfold fetch_json, raise_for_status. rewrite Hup.
    destruct (Z.leb_spec 400 st); [|lia].
    by destruct (Z.ltb_spec st 600); [|lia].
Qed.

(** X6. When that call fails otherwise, by a connection error or by an
    answer with a status outside 400 to 599 whose body is not JSON, the
    answer is 502 with the body [{"error": "Upstream failure", "detail":
    <str(e)>}], where the detail is the message of the connection error
    or of the exception of [res.json()]; nothing is stored. *)
Theorem upstream_failure_answers_502
    (cfg : config) (e : env) (rq : request) (w : world)
    (p lat lon : string) (latf lonf : float) (d : Z) (detail : string) :
  reaches_provider cfg e rq w p lat lon latf lonf d ->
  has_adapter cfg p ->
  failure_detail e (first_call cfg p latf lonf d) = Some detail ->
  weather cfg e rq w
  = (ok (HttpResponse 502 [("error", VStr "Upstream failure");
                           ("detail", VStr detail)]),
     log_call (first_call cfg p latf lonf d)
       (cache_get (time_at_get e) (cache_key_of p lat lon d) w).2)
  /\ cache (weather cfg e rq w).2 !! cache_key_of p lat lon d = None.
Proof.
  intros Hreach Hp Hup.
  assert (fetch_json e (first_call cfg p latf lonf d)
          = inl (RequestException detail)) as Hfetch.
  { unfold fetch_json. unfold failure_detail in Hup.
    destruct (upstream e _) as [|msg|st [j|]]; try done.
    - by injection Hup as <-.
    - unfold raise_for_status.
      destruct ((400 <=? st) && (st <? 600)); [done|].
      by injection Hup as <-. }
  rewrite (first_exchange_raises cfg e rq w p lat lon latf lonf d
             _ Hreach Hp Hfetch).
  split; [done|]. cbn [upstream_handler snd]. rewrite M_ret_run. cbn [snd].
  destruct Hreach as (_ & _ & _ & _ & _ & _ & _ & Hmiss).
  by apply cache_get_missed.
Qed.

Lemma upstream_timeout_answers_504_witness :
  weather live_config (upstream_at noon TimedOut)
          (melbourne None (Some "willyweather")) fresh_world
  = (ok (HttpResponse 504 (error_body "Upstream timeout")),
     log_call (first_call live_config "willyweather"
                 melbourne_lat melbourne_lon 7)
       (cache_get (time_at_get (upstream_at noon TimedOut))
          (cache_key_of "willyweather" "-37.8136" "144.9631" 7)
          fresh_world).2)
  /\ calls (weather live_config (upstream_at noon TimedOut)
              (melbourne None (Some "willyweather")) fresh_world).2
     = calls fresh_world
       ++ [first_call live_config "willyweather" melbourne_lat melbourne_lon 7]
  /\ cache (weather live_config (upstream_at noon TimedOut)
              (melbourne None (Some "willyweather")) fresh_world).2
       !! cache_key_of "willyweather" "-37.8136" "144.9631" 7 = None.
Proof.
  apply (upstream_timeout_answers_504 live_config (upstream_at noon TimedOut)
           (melbourne None (Some "willyweather")) fresh_world
           "willyweather" "-37.8136" "144.9631" melbourne_lat melbourne_lon 7).
  - repeat split; reflexivity.
  - right. split; [reflexivity|discriminate].
  - reflexivity.
Defined.

Lemma upstream_http_error_answers_502_witness :
  weather live_config (upstream_at noon (Response 503 None))
          (melbourne None None) fresh_world
  = (ok (HttpResponse 502 [("error", VStr "Upstream error");
                           ("status", VInt 503)]),
     log_call (first_call live_config "open-meteo"
                 melbourne_lat melbourne_lon 7)
       (cache_get (time_at_get (upstream_at noon (Response 503 None)))
          (cache_key_of "open-meteo" "-37.8136" "144.9631" 7)
          fresh_world).2)
  /\ cache (weather live_config (upstream_at noon (Response 503 None))
              (melbourne None None) fresh_world).2
       !! cache_key_of "open-meteo" "-37.8136" "144.9631" 7 = None.
Proof.
  apply (upstream_http_error_answers_502 live_config
           (upstream_at noon (Response 503 None))
           (melbourne None None) fresh_world
           "open-meteo" "-37.8136" "144.9631" melbourne_lat melbourne_lon 7
           503 None).
  - repeat split; reflexivity.
  - left. reflexivity.
  - reflexivity.
  - lia.
Defined.

Lemma upstream_failure_answers_502_witness :
  weather live_config (upstream_at noon (Response 200 None))
          (melbourne None None) fresh_world
  = (ok (HttpResponse 502 [("error", VStr "Upstream failure");
                           ("detail", VStr expecting_value)]),
     log_call (first_call live_config "open-meteo"
                 melbourne_lat melbourne_lon 7)
       (cache_get (time_at_get (upstream_at noon (Response 200 None)))
          (cache_key_of "open-meteo" "-37.8136" "144.9631" 7)
          fresh_world).2)
  /\ cache (weather live_config (upstream_at noon (Response 200 None))
              (melbourne None None) fresh_world).2
       !! cache_key_of "open-meteo" "-37.8136" "144.9631" 7 = None.
Proof.
  apply (upstream_failure_answers_502 live_config
           (upstream_at noon (Response 200 None))
           (melbourne None None) fresh_world
           "open-meteo" "-37.8136" "144.9631" melbourne_lat melbourne_lon 7
           expecting_value).
  - repeat split; reflexivity.
  - left. reflexivity.
  - reflexivity.
Defined.

(** ** Requests the handler turns away *)

(** X7. Outside mock mode, a request whose provider is neither
    [open-meteo] nor [willyweather] is answered 400 with the body
    [{"error": "Unknown provider '<provider>'"}], the provider being the
    stripped, lower-cased name; no upstream call is issued and nothing is
    stored. *)
Theorem unknown_provider_answers_400
    (cfg : config) (e : env) (rq : request) (w : world)
    (p lat lon : string) (latf lonf : float) (d : Z) :
  reaches_provider cfg e rq w p lat lon latf lonf d ->
  p <> "open-meteo" -> p <> "willyweather" ->
  weather cfg e rq w
  = (ok (HttpResponse 400
           (error_body ("Unknown provider '" +:+ p +:+ "'"))),
     (cache_get (time_at_get e) (cache_key_of p lat lon d) w).2)
  /\ calls (weather cfg e rq w).2 = calls w
  /\ cache (weather cfg e rq w).2 !! cache_key_of p lat lon d = None.
Proof.
  intros Hreach Hom Hww.
  rewrite (weather_reaches_provider cfg e rq w p lat lon latf lonf d Hreach).
  unfold try_except, provider_block.
  destruct (String.eqb_spec p "open-meteo"); [done|].
  destruct (String.eqb_spec p "willyweather"); [done|].
  rewrite M_ret_run. cbn [snd]. split; [done|].
  destruct Hreach as (_ & _ & _ & _ & _ & _ & _ & Hmiss).
  split; [|by apply cache_get_missed].
  rewrite cache_get_run. cbn [snd].
  destruct (cache w !! _) as [[exp data]|]; [|done].
  by destruct (SFltb exp _).
Qed.

Lemma unknown_provider_answers_400_witness :
  weather live_config (upstream_at noon TimedOut)
          (melbourne None (Some " BOM ")) fresh_world
  = (ok (HttpResponse 400
           (error_body ("Unknown provider '" +:+ "bom" +:+ "'"))),
     (cache_get (time_at_get (upstream_at noon TimedOut))
        (cache_key_of "bom" "-37.8136" "144.9631" 7) fresh_world).2)
  /\ calls (weather live_config (upstream_at noon TimedOut)
              (melbourne None (Some " BOM ")) fresh_world).2
     = calls fresh_world
  /\ cache (weather live_config (upstream_at noon TimedOut)
              (melbourne None (Some " BOM ")) fresh_world).2
       !! cache_key_of "bom" "-37.8136" "144.9631" 7 = None.
Proof.
  apply (unknown_provider_answers_400 live_config (upstream_at noon TimedOut)
           (melbourne None (Some " BOM ")) fresh_world
           "bom" "-37.8136" "144.9631" melbourne_lat melbourne_lon 7).
  - repeat split; reflexivity.
  - discriminate.
  - discriminate.
Defined.

(** X8. Outside mock mode, a request that misses the cache and whose
    [lat] or [lon] is not a float literal is answered 400 with the body
    [{"error": "Invalid lat/lon"}] whatever its provider is, a provider
    the handler does not know included; no upstream call is issued. *)
Theorem invalid_coordinates_answer_400
    (cfg : config) (e : env) (rq : request) (w : world)
    (lat lon : string) (d : Z) :
  arg_lat rq = Some lat -> lat <> EmptyString ->
  arg_lon rq = Some lon -> lon <> EmptyString ->
  int_of_str (default "7" (arg_days rq)) = ok d ->
  mock_mode cfg (resolve_provider cfg rq) = false ->
  cache_lookup (time_at_get e)
    (cache_key_of (resolve_provider cfg rq) lat lon d) (cache w) = None ->
  (exists ex, float_of_str lat = inl ex)
  \/ (exists ex, float_of_str lon = inl ex) ->
  weather cfg e rq w
  = (ok (HttpResponse 400 (error_body "Invalid lat/lon")),
     (cache_get (time_at_get e)
        (cache_key_of (resolve_provider cfg rq) lat lon d) w).2)
  /\ calls (weather cfg e rq w).2 = calls w.
Proof.
  intros Hlat Hlat' Hlon Hlon' Hd Hmode Hmiss Hbad.
  rewrite (weather_present cfg e rq w lat lon d) by done.
  rewrite weather_lookup_run. cbv zeta. rewrite Hmiss, Hmode.
  assert (upstream_branch cfg e (resolve_provider cfg rq)
            (cache_key_of (resolve_provider cfg rq) lat lon d) lat lon d
            (cache_get (time_at_get e)
               (cache_key_of (resolve_provider cfg rq) lat lon d) w).2
          = (ok (HttpResponse 400 (error_body "Invalid lat/lon")),
             (cache_get (time_at_get e)
                (cache_key_of (resolve_provider cfg rq) lat lon d) w).2))
    as ->.
  { unfold upstream_branch.
    destruct (float_of_str lat) as [ex1|latf] eqn:Hlatf.
    { by destruct (float_of_str_raises _ _ Hlatf) as [msg ->]. }
    destruct (float_of_str lon) as [ex2|lonf] eqn:Hlonf.
    { by destruct (float_of_str_raises _ _ Hlonf) as [msg ->]. }
    exfalso. destruct Hbad as [[ex [=]]|[ex [=]]]. }
  split; [done|]. cbn [snd]. rewrite cache_get_run. cbn [snd].
  destruct (cache w !! _) as [[exp data]|]; [|done].
  by destruct (SFltb exp _).
Qed.

Lemma invalid_coordinates_answer_400_witness :
  weather live_config (upstream_at noon TimedOut)
    {| arg_lat := Some "-37.8136"; arg_lon := Some "east";
       arg_days := None; arg_provider := Some "bom" |} fresh_world
  = (ok (HttpResponse 400 (error_body "Invalid lat/lon")),
     (cache_get (time_at_get (upstream_at noon TimedOut))
        (cache_key_of
           (resolve_provider live_config
              {| arg_lat := Some "-37.8136"; arg_lon := Some "east";
                 arg_days := None; arg_provider := Some "bom" |})
           "-37.8136" "east" 7) fresh_world).2)
  /\ calls (weather live_config (upstream_at noon TimedOut)
              {| arg_lat := Some "-37.8136"; arg_lon := Some "east";
                 arg_days := None; arg_provider := Some "bom" |}
              fresh_world).2
     = calls fresh_world.
Proof.
  apply (invalid_coordinates_answer_400 live_config (upstream_at noon TimedOut)
           {| arg_lat := Some "-37.8136"; arg_lon := Some "east";
              arg_days := None; arg_provider := Some "bom" |} fresh_world
           "-37.8136" "east" 7);
    try reflexivity; try discriminate.
  right. eexists. reflexivity.
Defined.

(** X9. Without an API key, a WillyWeather request outside mock mode is
    answered 502 with the body [{"error": "Upstream failure", "detail":
    "WILLYWEATHER_API_KEY missing"}] and no upstream call is issued: the
    adapter raises before [requests.get]. *)
Theorem willyweather_without_key_answers_502
    (cfg : config) (e : env) (rq : request) (w : world)
    (lat lon : string) (latf lonf : float) (d : Z) :
  reaches_provider cfg e rq w "willyweather" lat lon latf lonf d ->
  WILLYWEATHER_API_KEY cfg = EmptyString ->
  weather cfg e rq w
  = (ok (HttpResponse 502 [("error", VStr "Upstream failure");
                           ("detail", VStr "WILLYWEATHER_API_KEY missing")]),
     (cache_get (time_at_get e)
        (cache_key_of "willyweather" lat lon d) w).2)
  /\ calls (weather cfg e rq w).2 = calls w.
Proof.
  intros Hreach Hkey.
  rewrite (weather_reaches_provider cfg e rq w _ lat lon latf lonf d Hreach).
  unfold try_except, provider_block. cbn [String.eqb Ascii.eqb Bool.eqb].
  rewrite M_bind_run. unfold willyweather_find_location_id.
  rewrite Hkey. cbn [String.eqb lift raise upstream_handler exn_str].
  rewrite M_ret_run. split; [done|]. cbn [snd].
  rewrite cache_get_run. cbn [snd].
  destruct (cache w !! _) as [[exp data]|]; [|done].
  by destruct (SFltb exp _).
Qed.

Lemma willyweather_without_key_answers_502_witness :
  weather
    {| WILLYWEATHER_API_KEY := EmptyString; USE_MOCK := false;
       CACHE_TTL_SECONDS := 300; REQUEST_TIMEOUT := float_lit "5";
       WEATHER_PROVIDER := "willyweather" |}
    (upstream_at noon TimedOut) (melbourne None None) fresh_world
  = (ok (HttpResponse 502 [("error", VStr "Upstream failure");
                           ("detail", VStr "WILLYWEATHER_API_KEY missing")]),
     (cache_get (time_at_get (upstream_at noon TimedOut))
        (cache_key_of "willyweather" "-37.8136" "144.9631" 7) fresh_world).2)
  /\ calls (weather
              {| WILLYWEATHER_API_KEY := EmptyString; USE_MOCK := false;
                 CACHE_TTL_SECONDS := 300; REQUEST_TIMEOUT := float_lit "5";
                 WEATHER_PROVIDER := "willyweather" |}
              (upstream_at noon TimedOut) (melbourne None None)
              fresh_world).2
     = calls fresh_world.
Proof.
  apply (willyweather_without_key_answers_502
           {| WILLYWEATHER_API_KEY := EmptyString; USE_MOCK := false;
              CACHE_TTL_SECONDS := 300; REQUEST_TIMEOUT := float_lit "5";
              WEATHER_PROVIDER := "willyweather" |}
           (upstream_at noon TimedOut) (melbourne None None) fresh_world
           "-37.8136" "144.9631" melbourne_lat melbourne_lon 7).
  - repeat split; reflexivity.
  - reflexivity.
Defined.

(** ** Every request is answered or raises where the code says *)

(** X10. Whatever the request, the state and the upstream servers, the
    handler either answers with one of the statuses 200, 400, 404, 502
    and 504, or raises the exception of [int] on the [days] parameter,
    or, in mock mode only, the exception of [float] on [lat] or [lon] or
    of the addition of the TTL; outside mock mode a request with an
    integer [days] is always answered. *)
Theorem weather_answers_or_raises
    (cfg : config) (e : env) (rq : request) (w : world) :
  (exists r : response,
     (weather cfg e rq w).1 = ok r
     /\ (status r = 200 \/ status r = 400 \/ status r = 404
         \/ status r = 502 \/ status r = 504))
  \/ (exists ex : exn,
        (weather cfg e rq w).1 = inl ex
        /\ (int_of_str (default "7" (arg_days rq)) = inl ex
            \/ (mock_mode cfg (resolve_provider cfg rq) = true
                /\ exists lat lon,
                     arg_lat rq = Some lat /\ arg_lon rq = Some lon
                     /\ (float_of_str lat = inl ex
                         \/ float_of_str lon = inl ex
                         \/ float_add_int (time_at_set e)
                              (CACHE_TTL_SECONDS cfg) = inl ex)))).
Proof.
  destruct (weather cfg e rq w) as [[ex|r] w'] eqn:Hrun.
  - right. exists ex. split; [done|].
    exact (weather_raises_only cfg e rq w w' ex Hrun).
  - left. exists r. split; [done|].
    exact (weather_status cfg e rq w w' r Hrun).
Qed.

(** ** Requests do not disturb each other's entries *)

(** X11. Serving any sequence of requests leaves the cache entry under a
    key as it was, present or absent, unless one of the requests has that
    very key: no request evicts, overwrites or creates the entry of
    another. *)
Theorem serve_all_keeps_other_keys
    (cfg : config) (steps : list (env * request)) (w : world) (k : string) :
  Forall (fun step => request_key cfg step.2 <> Some k) steps ->
  cache (serve_all cfg steps w) !! k = cache w !! k.
Proof.
  intros Hsteps. revert w.
  induction Hsteps as [|[e rq] steps Hk _ IH]; intros w; [done|].
  unfold serve_all in *. cbn [fold_left fst snd]. rewrite IH.
  exact (touches_only_weather cfg e rq w k Hk).
Qed.

Lemma serve_all_keeps_other_keys_witness :
  cache (serve_all default_config
           [(offline_at noon, melbourne None None);
            (offline_at (float_lit "1700000900"), melbourne (Some "5") None)]
           world_after_mock_answer)
    !! cache_key_of "mock" "-37.8136" "144.9631" 3
  = cache world_after_mock_answer
      !! cache_key_of "mock" "-37.8136" "144.9631" 3.
Proof.
  apply (serve_all_keeps_other_keys default_config
           [(offline_at noon, melbourne None None);
            (offline_at (float_lit "1700000900"), melbourne (Some "5") None)]
           world_after_mock_answer
           (cache_key_of "mock" "-37.8136" "144.9631" 3)).
  repeat constructor; vm_compute; discriminate.
Defined.

(** ** Upstream calls *)

Lemma issues_ret {A} (a : A) : issues_at_most 0 (mret a : M A).
Proof. intros w. exists []. by rewrite app_nil_r. Qed.

Lemma issues_lift {A} (r : res A) : issues_at_most 0 (lift r).
Proof. intros w. exists []. by rewrite app_nil_r. Qed.

Lemma issues_mono {A} (n n' : nat) (m : M A) :
  (n <= n')%nat -> issues_at_most n m -> issues_at_most n' m.
Proof.
  intros Hn Hm w. destruct (Hm w) as (cs & Hcs & Hlen).
  exists cs. split; [done|lia].
Qed.

Lemma issues_bind {A B} (n1 n2 : nat) (m : M A) (k : A -> M B) :
  issues_at_most n1 m -> (forall a, issues_at_most n2 (k a)) ->
  issues_at_most (n1 + n2) (m ≫= k).
Proof.
  intros Hm Hk w. rewrite M_bind_run.
  destruct (Hm w) as (cs1 & Hcs1 & Hlen1).
  destruct (m w) as [[ex|a] w1]; cbn [snd] in *.
  - exists cs1. split; [done|lia].
  - destruct (Hk a w1) as (cs2 & Hcs2 & Hlen2).
    exists (cs1 ++ cs2). rewrite Hcs2, Hcs1, length_app, <- app_assoc.
    split; [done|lia].
Qed.

Lemma issues_try {A} (n : nat) (m : M A) (h : exn -> M A) :
  issues_at_most n m -> (forall ex, issues_at_most 0 (h ex)) ->
  issues_at_most n (try_except m h).
Proof.
  intros Hm Hh w. unfold try_except.
  destruct (Hm w) as (cs1 & Hcs1 & Hlen1).
  destruct (m w) as [[ex|a] w1]; cbn [snd] in *.
  - destruct (Hh ex w1) as (cs2 & Hcs2 & Hlen2).
    destruct cs2; [|cbn in Hlen2; lia]. rewrite app_nil_r in Hcs2.
    exists cs1. by rewrite Hcs2.
  - by exists cs1.
Qed.

Lemma issues_cache_get (now : float) (key : string) :
  issues_at_most 0 (cache_get now key).
Proof.
  intros w. exists []. rewrite app_nil_r, cache_get_run. cbn [snd].
  destruct (cache w !! key) as [[exp data]|]; [|done].
  by destruct (SFltb exp now).
Qed.

Lemma issues_cache_set (now : float) (key : string) (data : dict) (ttl : Z) :
  issues_at_most 0 (cache_set now key data ttl).
Proof. intros w. exists []. by rewrite app_nil_r, cache_set_calls. Qed.

Lemma issues_open_meteo_forecast (e : env) (lat lon : float) (d : Z) :
  issues_at_most 1 (open_meteo_forecast e lat lon d).
Proof. intros w. eexists [_]. by rewrite open_meteo_forecast_world. Qed.

Lemma issues_find_location_id (cfg : config) (e : env) (lat lon : float) :
  issues_at_most 1 (willyweather_find_location_id cfg e lat lon).
Proof.
  intros w.
  destruct (decide (WILLYWEATHER_API_KEY cfg = EmptyString)) as [Hkey|Hkey].
  - exists []. unfold willyweather_find_location_id. rewrite Hkey.
    cbn. split; [by rewrite app_nil_r|lia].
  - eexists [_]. by rewrite willyweather_find_location_id_calls.
Qed.

Lemma issues_forecast_by_id (cfg : config) (e : env) (id d : Z) :
  issues_at_most 1 (willyweather_forecast_by_id cfg e id d).
Proof.
  intros w.
  destruct (decide (WILLYWEATHER_API_KEY cfg = EmptyString)) as [Hkey|Hkey].
  - exists []. unfold willyweather_forecast_by_id. rewrite Hkey.
    cbn. split; [by rewrite app_nil_r|lia].
  - eexists [_]. by rewrite willyweather_forecast_by_id_run.
Qed.

Lemma issues_upstream_handler (ex : exn) :
  issues_at_most 0 (upstream_handler ex).
Proof. intros w. exists []. by rewrite app_nil_r, upstream_handler_snd. Qed.

Lemma issues_provider_block (cfg : config) (e : env) (p key : string)
    (latf lonf : float) (d : Z) :
  issues_at_most 2 (provider_block cfg e p key latf lonf d).
Proof.
  unfold provider_block.
  destruct (String.eqb p "open-meteo").
  { apply (issues_mono (1 + 0)); [lia|].
    apply issues_bind; [apply issues_open_meteo_forecast|]. intros n.
    cbv zeta. apply (issues_bind 0 0); [apply issues_cache_set|].
    intros _. apply issues_ret. }
  destruct (String.eqb p "willyweather").
  2:{ apply (issues_mono 0); [lia|]. apply issues_ret. }
  apply (issues_bind 1 1); [apply issues_find_location_id|].
  intros [id|]; [|apply (issues_mono 0); [lia|]; apply issues_ret].
  destruct (id =? 0); [apply (issues_mono 0); [lia|]; apply issues_ret|].
  apply (issues_bind 1 0); [apply issues_forecast_by_id|]. intros n.
  cbv zeta. apply (issues_bind 0 0); [apply issues_cache_set|].
  intros _. apply issues_ret.
Qed.

Lemma issues_mock_branch (cfg : config) (e : env) (key lat lon : string)
    (d : Z) :
  issues_at_most 0 (mock_branch cfg e key lat lon d).
Proof.
  unfold mock_branch.
  apply (issues_bind 0 0); [apply issues_lift|]. intros latf.
  apply (issues_bind 0 0); [apply issues_lift|]. intros lonf. cbv zeta.
  apply (issues_bind 0 0); [apply issues_cache_set|].
  intros _. apply issues_ret.
Qed.

Lemma issues_upstream_branch (cfg : config) (e : env) (p key lat lon : string)
    (d : Z) :
  issues_at_most 2 (upstream_branch cfg e p key lat lon d).
Proof.
  unfold upstream_branch.
  destruct (_ ≫= _) as [ex|[latf lonf]].
  { apply (issues_mono 0); [lia|].
    destruct ex; first [apply issues_ret|apply issues_lift]. }
  apply issues_try; [apply issues_provider_block|].
  apply issues_upstream_handler.
Qed.

(** One request costs its budget at most. *)
Lemma issues_weather (cfg : config) (e : env) (rq : request) :
  issues_at_most (call_budget cfg rq) (weather cfg e rq).
Proof.
  unfold weather.
  apply (issues_bind 0 (call_budget cfg rq)); [apply issues_lift|].
  intros d. cbv zeta.
  assert (issues_at_most (call_budget cfg rq)
            (mret (HttpResponse 400 (error_body "lat and lon are required"))
             : M response)) as Hmissing.
  { apply (issues_mono 0); [lia|]. apply issues_ret. }
  destruct (arg_lat rq) as [[|c lat]|]; try exact Hmissing.
  destruct (arg_lon rq) as [[|c' lon]|]; try exact Hmissing.
  unfold weather_lookup. cbv zeta.
  apply (issues_bind 0 (call_budget cfg rq)); [apply issues_cache_get|].
  assert (issues_at_most (call_budget cfg rq)
            (if mock_mode cfg (resolve_provider cfg rq)
             then mock_branch cfg e
                    (cache_key_of (resolve_provider cfg rq)
                       (String c lat) (String c' lon) d)
                    (String c lat) (String c' lon) d
             else upstream_branch cfg e (resolve_provider cfg rq)
                    (cache_key_of (resolve_provider cfg rq)
                       (String c lat) (String c' lon) d)
                    (String c lat) (String c' lon) d)) as Hfresh.
  { unfold call_budget. destruct (mock_mode cfg _).
    - apply issues_mock_branch.
    - apply issues_upstream_branch. }
  intros [[|kv data]|]; try exact Hfresh.
  apply (issues_mono 0); [lia|]. apply issues_ret.
Qed.

(** X12. The upstream log only grows, and a request costs at most two
    upstream calls: after any sequence of requests the calls issued
    before are still the beginning of the log, and at most two calls per
    request served have been added. *)
Theorem serve_all_calls_bound
    (cfg : config) (steps : list (env * request)) (w : world) :
  exists cs : list call,
    calls (serve_all cfg steps w) = calls w ++ cs
    /\ (length cs <= 2 * length steps)%nat.
Proof.
  revert w. induction steps as [|[e rq] steps IH]; intros w.
  { exists []. by rewrite app_nil_r. }
  cbn [serve_all fold_left fst snd].
  destruct (issues_weather cfg e rq w) as (cs1 & Hcs1 & Hlen1).
  destruct (IH (weather cfg e rq w).2) as (cs2 & Hcs2 & Hlen2).
  exists (cs1 ++ cs2). unfold serve_all in Hcs2.
  rewrite Hcs2, Hcs1, <- app_assoc, length_app. split; [done|].
  assert (call_budget cfg rq <= 2)%nat
    by (unfold call_budget; destruct (mock_mode _ _); lia).
  cbn [length]. lia.
Qed.

(** X13. In mock mode no request reaches an upstream server, whatever
    its parameters and whether it is answered or raises. *)
Theorem mock_mode_issues_no_call
    (cfg : config) (e : env) (rq : request) (w : world) :
  mock_mode cfg (resolve_provider cfg rq) = true ->
  calls (weather cfg e rq w).2 = calls w.
Proof.
  intros Hmode.
  destruct (issues_weather cfg e rq w) as (cs & Hcs & Hlen).
  unfold call_budget in Hlen. rewrite Hmode in Hlen.
  destruct cs; [|cbn in Hlen; lia]. by rewrite Hcs, app_nil_r.
Qed.

Lemma mock_mode_issues_no_call_witness :
  calls (weather default_config (answering_at noon open_meteo_body)
           (melbourne (Some "3") None) fresh_world).2
  = calls fresh_world.
Proof.
  apply (mock_mode_issues_no_call default_config
           (answering_at noon open_meteo_body)
           (melbourne (Some "3") None) fresh_world).
  reflexivity.
Defined.

(** ** Only answers with status 200 are stored *)

(** The provider block stores an entry only when it answers 200. *)
Lemma provider_block_failure_cache (cfg : config) (e : env) (p key : string)
    (latf lonf : float) (d : Z) (w : world) :
  (forall r, (provider_block cfg e p key latf lonf d w).1 = ok r ->
             status r <> 200) ->
  cache (provider_block cfg e p key latf lonf d w).2 = cache w.
Proof.
  unfold provider_block.
  destruct (String.eqb p "open-meteo").
  { rewrite M_bind_run.
    pose proof (open_meteo_forecast_world e latf lonf d w) as Hw.
    destruct (open_meteo_forecast _ _ _ _ _) as [[ex|n] w1];
      cbn [snd] in Hw; subst w1; [done|].
    cbv zeta. rewrite M_bind_run, cache_set_run.
    destruct (float_add_int _ _) as [ex|exp]; [done|].
    intros Hst. by destruct (Hst _ eq_refl). }
  destruct (String.eqb p "willyweather"); [|done].
  rewrite M_bind_run.
  pose proof (willyweather_find_location_id_cache cfg e latf lonf w) as Hc1.
  destruct (willyweather_find_location_id _ _ _ _ _) as [[ex|loc] w1];
    cbn [snd] in Hc1; [done|].
  destruct loc as [id|]; [|done].
  destruct (id =? 0); [done|].
  rewrite M_bind_run.
  pose proof (willyweather_forecast_by_id_cache cfg e id d w1) as Hc2.
  destruct (willyweather_forecast_by_id _ _ _ _ _) as [[ex|n] w2];
    cbn [snd] in Hc2; [intros _; cbn [snd]; congruence|].
  cbv zeta. rewrite M_bind_run, cache_set_run.
  destruct (float_add_int _ _) as [ex|exp];
    [intros _; cbn [snd]; congruence|].
  intros Hst. by destruct (Hst _ eq_refl).
Qed.

(** X14. A request that is not answered with status 200, because it is
    answered with an error or because the handler raises, stores
    nothing: every entry of the cache afterwards was there before, with
    the same expiry time and data. *)
Theorem failures_store_nothing
    (cfg : config) (e : env) (rq : request) (w : world) :
  (forall r, (weather cfg e rq w).1 = ok r -> status r <> 200) ->
  cache (weather cfg e rq w).2 ⊆ cache w.
Proof.
  intros Hst.
  destruct (int_of_str (default "7" (arg_days rq))) as [ex0|d] eqn:Hd.
  { by rewrite (weather_bad_days cfg e rq w ex0 Hd). }
  destruct (request_key cfg rq) as [key|] eqn:Hkey.
  2:{ unfold request_key in Hkey. unfold weather.
      rewrite M_bind_lift, Hd. rewrite Hd in Hkey.
      destruct (arg_lat rq) as [[|c lat]|], (arg_lon rq) as [[|c' lon]|];
        done. }
  destruct (request_key_Some _ _ _ Hkey)
    as (lat & lon & d' & Hlat & Hlat' & Hlon & Hlon' & Hd' & ->).
  revert Hst. rewrite (weather_present cfg e rq w lat lon d') by done.
  rewrite weather_lookup_run. cbv zeta.
  set (key := cache_key_of (resolve_provider cfg rq) lat lon d').
  assert (cache (cache_get (time_at_get e) key w).2 ⊆ cache w) as Hget.
  { rewrite cache_get_run. cbn [snd].
    destruct (cache w !! key) as [[exp data]|]; [|done].
    destruct (SFltb exp _); [|done]. apply delete_subseteq. }
  set (w1 := (cache_get (time_at_get e) key w).2) in *.
  destruct (cache_lookup _ _ _) as [[|kv data]|];
    try (intros Hst; by destruct (Hst _ eq_refl)).
  - destruct (mock_mode cfg _).
    + unfold mock_branch. rewrite M_bind_lift.
      destruct (float_of_str lat) as [|latf]; [done|]. rewrite M_bind_lift.
      destruct (float_of_str lon) as [|lonf]; [done|]. cbv zeta.
      rewrite M_bind_run, cache_set_run.
      destruct (float_add_int _ _); [done|].
      intros Hst. by destruct (Hst _ eq_refl).
    + unfold upstream_branch.
      destruct (_ ≫= _) as [[]|[latf lonf]]; try done.
      intros Hst. rewrite try_except_snd by apply upstream_handler_snd.
      rewrite provider_block_failure_cache; [done|].
      intros r Hr. apply Hst. unfold try_except.
      destruct (provider_block _ _ _ _ _ _ _ _) as [[ex|r0] w2];
        [done|]. exact Hr.
  - destruct (mock_mode cfg _).
    + unfold mock_branch. rewrite M_bind_lift.
      destruct (float_of_str lat) as [|latf]; [done|]. rewrite M_bind_lift.
      destruct (float_of_str lon) as [|lonf]; [done|]. cbv zeta.
      rewrite M_bind_run, cache_set_run.
      destruct (float_add_int _ _); [done|].
      intros Hst. by destruct (Hst _ eq_refl).
    + unfold upstream_branch.
      destruct (_ ≫= _) as [[]|[latf lonf]]; try done.
      intros Hst. rewrite try_except_snd by apply upstream_handler_snd.
      rewrite provider_block_failure_cache; [done|].
      intros r Hr. apply Hst. unfold try_except.
      destruct (provider_block _ _ _ _ _ _ _ _) as [[ex|r0] w2];
        [done|]. exact Hr.
Qed.

Lemma failures_store_nothing_witness :
  cache (weather live_config (upstream_at noon (Response 503 None))
           (melbourne None None) fresh_world).2
  ⊆ cache fresh_world.
Proof.
  apply (failures_store_nothing live_config
           (upstream_at noon (Response 503 None))
           (melbourne None None) fresh_world).
  intros r Hr. vm_compute in Hr. injection Hr as <-. discriminate.
Defined.

(** ** Normalising twice *)

Lemma omap_imap_VDict {A} (g : nat -> A -> dict) (l : list A) :
  omap (fun v => match v with VDict d => Some d | _ => None end)
       (imap (fun i a => VDict (g i a)) l)
  = imap g l.
Proof.
  revert g. induction l as [|a l IH]; intros g; [done|].
  cbn. f_equal. exact (IH (g ∘ S)).
Qed.

Lemma forecast_of_normalize_forecast (days : list dict) :
  forecast_of (normalize_forecast days)
  = imap (fun i d => [("day", VInt (Z.of_nat i + 1));
                      ("summary", dict_get_or d "summary" (VStr em_dash));
                      ("tempMin", dict_get_or d "tempMin" VNone);
                      ("tempMax", dict_get_or d "tempMax" VNone)]) days.
Proof.
  unfold forecast_of, normalize_forecast.
  change (dict_get [("forecast", ?v)] "forecast") with (Some v).
  cbv beta iota. unfold normalize_day. apply omap_imap_VDict.
Qed.

(** X15. [normalize_forecast] is idempotent: normalising the day objects
    of a normalised forecast gives the same forecast, so a provider
    answer that is already in the frontend's shape passes unchanged. *)
Theorem normalize_forecast_idempotent (days : list dict) :
  normalize_forecast (forecast_of (normalize_forecast days))
  = normalize_forecast days.
Proof.
  rewrite forecast_of_normalize_forecast. unfold normalize_forecast.
  do 3 f_equal. apply list_eq. intros i.
  rewrite !list_lookup_imap. by destruct (days !! i).
Qed.

(** ** The weather code table *)

Lemma groups_label (g : list Z * string) (code : Z) :
  g ∈ groups -> code_in code g.1 = true -> map_open_meteo_code code = g.2.
Proof.
  intros Hg Hin%code_in_elem_of.
  pose proof map_open_meteo_code_table as Htable.
  rewrite Forall_forall in Htable. specialize (Htable g Hg).
  rewrite Forall_forall in Htable. by apply Htable.
Qed.

(** X16. No weather code belongs to two groups of the table, so the
    label does not depend on the order in which the loop of
    [map_open_meteo_code] visits the groups. *)
Theorem map_open_meteo_code_order_independent
    (gs : list (list Z * string)) (code : Z) :
  gs ≡ₚ groups ->
  map_code_in_order gs code = map_open_meteo_code code.
Proof.
  intros Hperm. unfold map_code_in_order.
  destruct (find _ gs) as [[keys label]|] eqn:Hfind.
  - apply find_some in Hfind as [Hg%list_elem_of_In Hin].
    rewrite Hperm in Hg. symmetry. exact (groups_label _ _ Hg Hin).
  - unfold map_open_meteo_code. rewrite find_none_Forall; [done|].
    apply Forall_forall. intros g Hg. rewrite <- Hperm in Hg.
    apply list_elem_of_In in Hg. exact (find_none _ _ Hfind g Hg).
Qed.

Lemma map_open_meteo_code_order_independent_witness :
  map_code_in_order (reverse groups) 63 = map_open_meteo_code 63.
Proof.
  apply (map_open_meteo_code_order_independent (reverse groups) 63).
  apply reverse_Permutation.
Defined.

(** ** WillyWeather bodies without forecast data *)

(** X17. [willyweather_forecast_by_id] does not fail on a body that
    lacks forecast data: when the body is falsy, or one of the levels
    [forecasts], [weather] and [days] is absent or falsy below dicts, the
    result is the empty forecast, whatever the day count. *)
Theorem willyweather_days_without_data (body : value) (days : Z) :
  truthy body = false
  \/ (exists j, body = VDict j
        /\ (falsy_at j "forecasts"
            \/ exists fc, dict_get j "forecasts" = Some (VDict fc)
                 /\ (falsy_at fc "weather"
                     \/ exists wt, dict_get fc "weather" = Some (VDict wt)
                          /\ falsy_at wt "days"))) ->
  willyweather_days body days = ok (normalize_forecast []).
Proof.
  assert (willyweather_out_days (VList []) days = ok (normalize_forecast []))
    as Hout.
  { unfold willyweather_out_days. cbn [iter]. rewrite res_bind_ok.
    cbn [res_mapM]. rewrite res_bind_ok. cbv zeta.
    change (omap id (@nil (option dict))) with (@nil dict).
    unfold slice_to. destruct (0 <=? days); by rewrite take_nil. }
  assert (forall d k, falsy_at d k ->
            or_ (default VNone (dict_get d k)) (VDict []) = VDict []
            /\ or_ (default VNone (dict_get d k)) (VList []) = VList [])
    as Hfalsy.
  { intros d k Hd. unfold falsy_at, dict_get_or in Hd. unfold or_.
    by rewrite Hd. }
  assert (forall v, get (or_ (VDict v) (VDict [])) "weather" VNone
                    = ok (dict_get_or v "weather" VNone)) as Hweather.
  { intros [|kv v]; reflexivity. }
  assert (willyweather_days (VDict []) days = ok (normalize_forecast []))
    as Hempty.
  { unfold willyweather_days, willyweather_days_arr. cbv zeta.
    cbn [or_ truthy get dict_get_or dict_get default].
    rewrite !res_bind_ok.
    cbn [or_ truthy get dict_get_or dict_get default].
    rewrite !res_bind_ok.
    cbn [or_ truthy get dict_get_or dict_get default].
    rewrite !res_bind_ok. exact Hout. }
  intros [Hbody|(j & -> & Hj)].
  { assert (or_ body (VDict []) = VDict []) as Hb
      by (unfold or_; by rewrite Hbody).
    unfold willyweather_days, willyweather_days_arr. cbv zeta.
    rewrite Hb. exact Hempty. }
  destruct j as [|kv j]; [exact Hempty|].
  unfold willyweather_days, willyweather_days_arr. cbv zeta.
  change (or_ (VDict (kv :: j)) (VDict [])) with (VDict (kv :: j)).
  cbn [get]. rewrite res_bind_ok. unfold dict_get_or at 1.
  destruct Hj as [Hfc|(fc & Hfc & Hw)].
  { destruct (Hfalsy _ _ Hfc) as [-> _]. cbn [get dict_get_or dict_get default].
    rewrite !res_bind_ok. cbn [or_ truthy get dict_get_or dict_get default].
    rewrite !res_bind_ok. exact Hout. }
  rewrite Hfc. cbn [default id]. rewrite Hweather, res_bind_ok.
  unfold dict_get_or at 1.
  destruct Hw as [Hwt|(wt & Hwt & Hda)].
  { destruct (Hfalsy _ _ Hwt) as [-> _]. cbn [get dict_get_or dict_get default].
    rewrite !res_bind_ok. exact Hout. }
  rewrite Hwt. cbn [default id].
  destruct (Hfalsy _ _ Hda) as [_ Hda'].
  destruct wt as [|kv' wt].
  { cbn [or_ truthy get dict_get_or dict_get default].
    rewrite !res_bind_ok. exact Hout. }
  change (or_ (VDict (kv' :: wt)) (VDict [])) with (VDict (kv' :: wt)).
  cbn [get]. rewrite res_bind_ok. unfold dict_get_or. rewrite Hda'.
  exact Hout.
Qed.

Lemma willyweather_days_without_data_witness :
  willyweather_days
    (VDict [("location", VDict [("id", VInt 4950)]);
            ("forecasts", VDict [("weather", VDict [("days", VNone)])])])
    7
  = ok (normalize_forecast []).
Proof.
  apply (willyweather_days_without_data
           (VDict [("location", VDict [("id", VInt 4950)]);
                   ("forecasts",
                    VDict [("weather", VDict [("days", VNone)])])]) 7).
  right. eexists. split; [reflexivity|]. right.
  eexists. split; [reflexivity|]. right.
  eexists. split; [reflexivity|]. reflexivity.
Defined.

(** ** Answers computed by a provider *)

(** Storing under the key that was just looked up, after upstream calls,
    leaves the state in which the entry is stored and the calls are
    logged: the eviction of a dead entry is overwritten. *)
Lemma store_after_lookup (now : float) (key : string) (w : world)
    (v : float * dict) (cs : list call) :
  let w1 := (cache_get now key w).2 in
  {| cache := <[key := v]> (cache w1); calls := calls w1 ++ cs |}
  = {| cache := <[key := v]> (cache w); calls := calls w ++ cs |}.
Proof.
  cbv zeta. rewrite cache_get_run. cbn [snd].
  destruct (cache w !! key) as [[exp data]|]; [|done].
  destruct (SFltb exp now); [|done].
  cbn [with_cache cache calls]. by rewrite insert_delete_eq.
Qed.

(** X18. Outside mock mode, an Open-Meteo request that misses the cache
    and whose upstream call is answered, with a status below 400 or
    above 599, by a body the adapter can process is answered 200 with
    the body [{"location": {"lat", "lon"}, "days", "forecast"}], the
    coordinates as floats; that body is stored under the request's key
    with the expiry time now plus the TTL, and the one upstream call
    carries the parsed coordinates and the day count.  When the TTL is
    too large to be added to the clock, [cache_set] raises inside the
    [try]: the answer is 502 with the message of the [OverflowError],
    and nothing is stored. *)
Theorem open_meteo_answer_stored
    (cfg : config) (e : env) (rq : request) (w : world)
    (lat lon : string) (latf lonf : float) (d st : Z) (j : value)
    (n : dict) :
  reaches_provider cfg e rq w "open-meteo" lat lon latf lonf d ->
  upstream e (OpenMeteoForecast latf lonf d) = Response st (Some j) ->
  (400 <=? st) && (st <? 600) = false ->
  open_meteo_days j d = ok n ->
  exists fc : list value,
    n = [("forecast", VList fc)]
    /\ let data := [("location", VDict [("lat", VFloat latf);
                                        ("lon", VFloat lonf)]);
                    ("days", VInt d);
                    ("forecast", VList fc)] in
       weather cfg e rq w
       = match float_add_int (time_at_set e) (CACHE_TTL_SECONDS cfg) with
         | inr exp =>
             (ok (HttpResponse 200 data),
              {| cache := <[cache_key_of "open-meteo" lat lon d
                            := (exp, data)]> (cache w);
                 calls := calls w ++ [OpenMeteoForecast latf lonf d] |})
         | inl _ =>
             (ok (HttpResponse 502
                    [("error", VStr "Upstream failure");
                     ("detail", VStr "int too large to convert to float")]),
              log_call (OpenMeteoForecast latf lonf d)
                (cache_get (time_at_get e)
                   (cache_key_of "open-meteo" lat lon d) w).2)
         end.
Proof.
  intros Hreach Hup Hst Hdays.
  destruct (open_meteo_days_shape j d n Hdays) as [fc ->].
  exists fc. split; [done|]. cbv zeta.
  rewrite (weather_reaches_provider cfg e rq w _ lat lon latf lonf d Hreach).
  unfold try_except, provider_block. cbn [String.eqb Ascii.eqb Bool.eqb].
  rewrite M_bind_run, open_meteo_forecast_run. unfold fetch_json.
  rewrite Hup. unfold raise_for_status. rewrite Hst, res_bind_ok.
  cbn [res_json]. rewrite res_bind_ok, Hdays. cbn [ok]. cbv zeta.
  rewrite M_bind_run, cache_set_run.
  destruct (float_add_int _ _) as [ex|exp] eqn:Hexp.
  - revert Hexp. unfold float_add_int, float_of_int.
    by destruct (binary_normalize _ _ _ _ _); intros [= <-].
  - cbn [ok]. rewrite M_ret_run.
    f_equal. apply (store_after_lookup (time_at_get e) _ w _ [_]).
Qed.

Lemma open_meteo_answer_stored_witness :
  exists fc : list value,
    [("forecast",
      VList [normalize_day 0
               [("date", VStr "2024-01-01"); ("summary", VStr "Rain");
                ("tempMin", VFloat (float_lit "11.5"));
                ("tempMax", VFloat (float_lit "21.5"))];
             normalize_day 1
               [("date", VStr "2024-01-02"); ("summary", VStr "Code 999");
                ("tempMin", VFloat (float_lit "12"));
                ("tempMax", VNone)]])]
    = [("forecast", VList fc)]
    /\ let data := [("location", VDict [("lat", VFloat melbourne_lat);
                                        ("lon", VFloat melbourne_lon)]);
                    ("days", VInt 2);
                    ("forecast", VList fc)] in
       weather live_config (answering_at noon open_meteo_body)
               (melbourne (Some "2") None) fresh_world
       = match float_add_int
                 (time_at_set (answering_at noon open_meteo_body))
                 (CACHE_TTL_SECONDS live_config) with
         | inr exp =>
             (ok (HttpResponse 200 data),
              {| cache := <[cache_key_of "open-meteo" "-37.8136" "144.9631" 2
                            := (exp, data)]> (cache fresh_world);
                 calls := calls fresh_world
                          ++ [OpenMeteoForecast melbourne_lat melbourne_lon
                                2] |})
         | inl _ =>
             (ok (HttpResponse 502
                    [("error", VStr "Upstream failure");
                     ("detail", VStr "int too large to convert to float")]),
              log_call (OpenMeteoForecast melbourne_lat melbourne_lon 2)
                (cache_get
                   (time_at_get (answering_at noon open_meteo_body))
                   (cache_key_of "open-meteo" "-37.8136" "144.9631" 2)
                   fresh_world).2)
         end.
Proof.
  apply (open_meteo_answer_stored live_config
           (answering_at noon open_meteo_body)
           (melbourne (Some "2") None) fresh_world
           "-37.8136" "144.9631" melbourne_lat melbourne_lon 2 200
           open_meteo_body).
  - repeat split; reflexivity.
  - reflexivity.
  - reflexivity.
  - reflexivity.
Defined.

(** A WillyWeather request whose location search finds an id goes on to
    the forecast call. *)
Lemma weather_after_search (cfg : config) (e : env) (rq : request)
    (w : world) (lat lon : string) (latf lonf : float) (d id : Z) :
  reaches_provider cfg e rq w "willyweather" lat lon latf lonf d ->
  WILLYWEATHER_API_KEY cfg <> EmptyString ->
  search_finds cfg e latf lonf id ->
  let key := cache_key_of "willyweather" lat lon d in
  let search := WillyWeatherSearch (WILLYWEATHER_API_KEY cfg) latf lonf in
  let forecast := WillyWeatherForecast (WILLYWEATHER_API_KEY cfg) id d in
  let w2 := log_call forecast
              (log_call search (cache_get (time_at_get e) key w).2) in
  weather cfg e rq w
  = match fetch_json e forecast ≫= (fun j => willyweather_days j d) with
    | inl ex => upstream_handler ex w2
    | inr n =>
        let data := dict_merge
                      [("location",
                        VDict [("lat", VFloat latf); ("lon", VFloat lonf);
                               ("willyWeatherLocationId", VInt id)]);
                       ("days", VInt d)] n in
        match float_add_int (time_at_set e) (CACHE_TTL_SECONDS cfg) with
        | inl ex => upstream_handler ex w2
        | inr exp =>
            (ok (HttpResponse 200 data),
             with_cache (<[key := (exp, data)]> (cache w2)) w2)
        end
    end.
Proof.
  intros Hreach Hkey (st & data & loc & Hup & Hst & Hloc & Hne & Hid & Hid0).
  cbv zeta.
  rewrite (weather_reaches_provider cfg e rq w _ lat lon latf lonf d Hreach).
  unfold try_except, provider_block. cbn [String.eqb Ascii.eqb Bool.eqb].
  rewrite M_bind_run, willyweather_find_location_id_run by done.
  unfold fetch_json at 1. rewrite Hup. unfold raise_for_status.
  rewrite Hst, res_bind_ok. cbn [res_json]. rewrite res_bind_ok.
  unfold location_id_of. rewrite Hloc.
  assert (truthy (VDict loc) = true) as -> by (by destruct loc).
  rewrite Hid, res_bind_ok. cbn [ok].
  destruct (Z.eqb_spec id 0) as [|_]; [done|].
  rewrite M_bind_run, willyweather_forecast_by_id_run by done.
  destruct (_ ≫= _) as [ex|n]; [done|]. cbv zeta.
  rewrite M_bind_run, cache_set_run.
  destruct (float_add_int _ _) as [ex|exp]; [done|]. by rewrite M_ret_run.
Qed.



(** X20. When the location search of a WillyWeather request found an id
    but the forecast exchange fails, by a timeout, an HTTP error, a
    connection error, a body that is not JSON or a body the adapter
    cannot process, the [except] clauses answer for that failure; both
    calls were issued, and nothing is stored under the request's key:
    the location found is not kept for a later request. *)
Theorem willyweather_forecast_failure
    (cfg : config) (e : env) (rq : request) (w : world)
    (lat lon : string) (latf lonf : float) (d id : Z) (ex : exn) :
  reaches_provider cfg e rq w "willyweather" lat lon latf lonf d ->
  WILLYWEATHER_API_KEY cfg <> EmptyString ->
  search_finds cfg e latf lonf id ->
  fetch_json e (WillyWeatherForecast (WILLYWEATHER_API_KEY cfg) id d)
    ≫= (fun j => willyweather_days j d) = inl ex ->
  exists w' : world,
    weather cfg e rq w = upstream_handler ex w'
    /\ calls w'
       = calls w ++ [WillyWeatherSearch (WILLYWEATHER_API_KEY cfg) latf lonf;
                     WillyWeatherForecast (WILLYWEATHER_API_KEY cfg) id d]
    /\ cache w' !! cache_key_of "willyweather" lat lon d = None.
Proof.
  intros Hreach Hkey Hsearch Hfail.
  rewrite (weather_after_search cfg e rq w lat lon latf lonf d id)
    by done.
  cbv zeta. rewrite Hfail. eexists. split; [reflexivity|].
  destruct Hreach as (_ & _ & _ & _ & _ & _ & _ & Hmiss).
  pose proof (cache_get_missed _ _ _ Hmiss) as Hnone.
  pose proof (issues_cache_get (time_at_get e)
                (cache_key_of "willyweather" lat lon d) w)
    as (cs & Hcs & Hlen).
  destruct cs; [|cbn in Hlen; lia]. rewrite app_nil_r in Hcs.
  cbn [log_call calls cache].
  split; [by rewrite Hcs, <- app_assoc|done].
Qed.

Lemma willyweather_forecast_failure_witness :
  exists w' : world,
    weather live_config
      (searching_at noon (willyweather_body []) TimedOut)
      (melbourne None (Some "willyweather")) fresh_world
    = upstream_handler (Timeout "Read timed out.") w'
    /\ calls w'
       = calls fresh_world
         ++ [WillyWeatherSearch (WILLYWEATHER_API_KEY live_config)
               melbourne_lat melbourne_lon;
             WillyWeatherForecast (WILLYWEATHER_API_KEY live_config) 4950 7]
    /\ cache w' !! cache_key_of "willyweather" "-37.8136" "144.9631" 7
       = None.
Proof.
  apply (willyweather_forecast_failure live_config
           (searching_at noon (willyweather_body []) TimedOut)
           (melbourne None (Some "willyweather")) fresh_world
           "-37.8136" "144.9631" melbourne_lat melbourne_lon 7 4950
           (Timeout "Read timed out.")).
  - repeat split; reflexivity.
  - discriminate.
  - exists 200, (willyweather_body []),
      [("id", VInt 4950); ("name", VStr "Melbourne")].
    repeat split; try reflexivity; discriminate.
  - reflexivity.
Defined.

(** ** Bodies the adapters cannot process *)

Lemma raises_plain_ok {A} (a : A) : raises_plain (ok a).
Proof. by intros ex. Qed.

Lemma raises_plain_bind {A B} (m : res A) (k : A -> res B) :
  raises_plain m -> (forall a, raises_plain (k a)) -> raises_plain (m ≫= k).
Proof.
  intros Hm Hk ex. destruct m as [ex'|a].
  - rewrite res_bind_raise. intros [= <-]. by apply Hm.
  - rewrite res_bind_inr. apply Hk.
Qed.

Lemma raises_plain_mapM {A B} (f : A -> res B) (l : list A) :
  (forall a, raises_plain (f a)) -> raises_plain (res_mapM f l).
Proof.
  intros Hf. induction l as [|a l IH]; cbn [res_mapM].
  - apply raises_plain_ok.
  - apply raises_plain_bind; [apply Hf|]. intros b.
    apply raises_plain_bind; [apply IH|]. intros bs. apply raises_plain_ok.
Qed.

Lemma raises_plain_get (v : value) (k : string) (dflt : value) :
  raises_plain (get v k dflt).
Proof. intros ex. destruct v; cbn; intros [= <-] || done; done. Qed.

Lemma raises_plain_len (v : value) : raises_plain (len v).
Proof. intros ex. destruct v; cbn; intros [= <-] || done; done. Qed.

Lemma raises_plain_iter (v : value) : raises_plain (iter v).
Proof. intros ex. destruct v; cbn; intros [= <-] || done; done. Qed.

Lemma raises_plain_index (v : value) (i : Z) : raises_plain (index v i).
Proof.
  intros ex. destruct v; cbn; try (by intros [= <-]);
    by destruct (_ !! _); intros [= <-].
Qed.

Lemma raises_plain_int_of_str (s : string) : raises_plain (int_of_str s).
Proof.
  intros ex. unfold int_of_str. destruct (read_sign _) as [neg t].
  destruct (digitpart 0 t) as [[[v n] [|c rest]]|];
    [destruct (_ <? _)|destruct (_ || _)|]; by intros [= <-].
Qed.

Lemma raises_plain_float_of_str (s : string) : raises_plain (float_of_str s).
Proof. intros ex Hex. by destruct (float_of_str_raises s ex Hex) as [msg ->]. Qed.

Lemma raises_plain_int (v : value) : raises_plain (int v).
Proof.
  intros ex. destruct v as [| |n|f|s| |]; cbn; try (by intros [= <-]).
  - by destruct f; intros [= <-].
  - apply raises_plain_int_of_str.
Qed.

Lemma raises_plain_float (v : value) : raises_plain (float_ v).
Proof.
  intros ex. destruct v as [| |n|f|s| |]; cbn; try (by intros [= <-]).
  - unfold float_of_int. by destruct (binary_normalize _ _ _ _ _); intros [= <-].
  - apply raises_plain_float_of_str.
Qed.

(** The loop of [open_meteo_forecast] raises plain failures only. *)
Lemma raises_plain_open_meteo_days (j : value) (d : Z) :
  raises_plain (open_meteo_days j d).
Proof.
  unfold open_meteo_days.
  repeat (apply raises_plain_bind; [apply raises_plain_get|]; intros ?).
  apply raises_plain_bind; [apply raises_plain_len|]. intros n.
  apply raises_plain_bind; [|intros; apply raises_plain_ok].
  apply raises_plain_mapM. intros i. unfold open_meteo_day.
  apply raises_plain_bind; [apply raises_plain_len|]. intros ncodes.
  apply raises_plain_bind.
  { destruct (i <? ncodes); [|apply raises_plain_ok].
    apply raises_plain_bind; [apply raises_plain_index|]. intros c.
    apply raises_plain_bind; [apply raises_plain_int|]. intros k.
    apply raises_plain_ok. }
  intros summary.
  apply raises_plain_bind; [apply raises_plain_len|]. intros ntmins.
  apply raises_plain_bind.
  { destruct (i <? ntmins); [|apply raises_plain_ok].
    apply raises_plain_bind; [apply raises_plain_index|]. intros x.
    apply raises_plain_bind; [apply raises_plain_float|]. intros f.
    apply raises_plain_ok. }
  intros temp_min.
  apply raises_plain_bind; [apply raises_plain_len|]. intros ntmaxs.
  apply raises_plain_bind.
  { destruct (i <? ntmaxs); [|apply raises_plain_ok].
    apply raises_plain_bind; [apply raises_plain_index|]. intros x.
    apply raises_plain_bind; [apply raises_plain_float|]. intros f.
    apply raises_plain_ok. }
  intros temp_max.
  apply raises_plain_bind; [apply raises_plain_index|]. intros date.
  apply raises_plain_ok.
Qed.

(** X21. When Open-Meteo answers with a JSON body of ASCII text that
    the adapter cannot process, a [null] among the temperatures or a
    [daily] that is not an object for instance, the handler does not
    raise: the processing raises none of the [requests] exceptions, and
    the answer is 502 with the body [{"error": "Upstream failure",
    "detail": <the message of the exception>}]; nothing is stored. *)
Theorem open_meteo_unusable_body_answers_502
    (cfg : config) (e : env) (rq : request) (w : world)
    (lat lon : string) (latf lonf : float) (d st : Z) (j : value)
    (ex : exn) :
  reaches_provider cfg e rq w "open-meteo" lat lon latf lonf d ->
  upstream e (OpenMeteoForecast latf lonf d) = Response st (Some j) ->
  (400 <=? st) && (st <? 600) = false ->
  ascii_value j = true ->
  open_meteo_days j d = inl ex ->
  weather cfg e rq w
  = (ok (HttpResponse 502 [("error", VStr "Upstream failure");
                           ("detail", VStr (exn_str ex))]),
     log_call (OpenMeteoForecast latf lonf d)
       (cache_get (time_at_get e) (cache_key_of "open-meteo" lat lon d) w).2)
  /\ cache (weather cfg e rq w).2 !! cache_key_of "open-meteo" lat lon d
     = None.
Proof.
  intros Hreach Hup Hst _ Hdays.
  pose proof (raises_plain_open_meteo_days j d ex Hdays) as Hplain.
  rewrite (weather_reaches_provider cfg e rq w _ lat lon latf lonf d Hreach).
  unfold try_except, provider_block. cbn [String.eqb Ascii.eqb Bool.eqb].
  rewrite M_bind_run, open_meteo_forecast_run. unfold fetch_json.
  rewrite Hup. unfold raise_for_status. rewrite Hst, res_bind_ok.
  cbn [res_json]. rewrite res_bind_ok, Hdays.
  destruct Hreach as (_ & _ & _ & _ & _ & _ & _ & Hmiss).
  destruct ex; try done; cbn [upstream_handler exn_str];
    rewrite M_ret_run; (split; [done|]); by apply cache_get_missed.
Qed.

Lemma open_meteo_unusable_body_answers_502_witness :
  weather live_config (answering_at noon null_temperature_body)
    (melbourne None None) fresh_world
  = (ok (HttpResponse 502
           [("error", VStr "Upstream failure");
            ("detail",
             VStr (exn_str
                     (TypeError
                        "float() argument must be a string or a real number, not 'NoneType'")))]),
     log_call (OpenMeteoForecast melbourne_lat melbourne_lon 7)
       (cache_get (time_at_get (answering_at noon null_temperature_body))
          (cache_key_of "open-meteo" "-37.8136" "144.9631" 7) fresh_world).2)
  /\ cache (weather live_config (answering_at noon null_temperature_body)
              (melbourne None None) fresh_world).2
       !! cache_key_of "open-meteo" "-37.8136" "144.9631" 7
     = None.
Proof.
  apply (open_meteo_unusable_body_answers_502 live_config
           (answering_at noon null_temperature_body)
           (melbourne None None) fresh_world
           "-37.8136" "144.9631" melbourne_lat melbourne_lon 7 200
           null_temperature_body).
  - repeat split; reflexivity.
  - reflexivity.
  - reflexivity.
  - reflexivity.
  - reflexivity.
Defined.

(** ** Cache keys and requests *)

(** X22. Two requests whose coordinates parse share a cache key only if
    they have the same provider after normalisation, the same [lat] and
    [lon] texts and the same day count: no request is answered from, or
    overwrites, the entry of a request for another place, provider or day
    count, whatever the provider names hold. *)
Theorem shared_key_same_request
    (cfg : config) (rq rq' : request) (key : string) :
  request_key cfg rq = Some key -> request_key cfg rq' = Some key ->
  coordinates_parse rq -> coordinates_parse rq' ->
  resolve_provider cfg rq = resolve_provider cfg rq'
  /\ arg_lat rq = arg_lat rq' /\ arg_lon rq = arg_lon rq'
  /\ int_of_str (default "7" (arg_days rq))
     = int_of_str (default "7" (arg_days rq')).
Proof.
  intros (lat & lon & d & Hlat & _ & Hlon & _ & Hd & ->)%request_key_Some
         (lat' & lon' & d' & Hlat' & _ & Hlon' & _ & Hd' & Hkey)%request_key_Some
         (lat0 & lon0 & latf & lonf & Hlat0 & Hlon0 & Hlatf & Hlonf)
         (lat1 & lon1 & latf' & lonf' & Hlat1 & Hlon1 & Hlatf' & Hlonf').
  rewrite Hlat in Hlat0. rewrite Hlon in Hlon0.
  rewrite Hlat' in Hlat1. rewrite Hlon' in Hlon1.
  injection Hlat0 as <-. injection Hlon0 as <-.
  injection Hlat1 as <-. injection Hlon1 as <-.
  apply cache_key_of_inj in Hkey as (Hp & -> & -> & ->);
    eauto using float_of_str_no_colon.
  by rewrite Hlat, Hlat', Hlon, Hlon', Hd, Hd'.
Qed.

Lemma shared_key_same_request_witness :
  resolve_provider live_config (melbourne (Some " 7") (Some "Open-Meteo"))
  = resolve_provider live_config (melbourne None None)
  /\ arg_lat (melbourne (Some " 7") (Some "Open-Meteo"))
     = arg_lat (melbourne None None)
  /\ arg_lon (melbourne (Some " 7") (Some "Open-Meteo"))
     = arg_lon (melbourne None None)
  /\ int_of_str (default "7"
                   (arg_days (melbourne (Some " 7") (Some "Open-Meteo"))))
     = int_of_str (default "7" (arg_days (melbourne None None))).
Proof.
  apply (shared_key_same_request live_config
           (melbourne (Some " 7") (Some "Open-Meteo")) (melbourne None None)
           (cache_key_of "open-meteo" "-37.8136" "144.9631" 7)).
  - reflexivity.
  - reflexivity.
  - exists "-37.8136", "144.9631", melbourne_lat, melbourne_lon.
    repeat split; reflexivity.
  - exists "-37.8136", "144.9631", melbourne_lat, melbourne_lon.
    repeat split; reflexivity.
Defined.

(** ** Normalised names *)

Lemma is_space_lower_ascii (c : ascii) :
  is_space (lower_ascii c) = is_space c.
Proof. by destruct c as [[] [] [] [] [] [] [] []]. Qed.

Lemma lower_ascii_idemp (c : ascii) :
  lower_ascii (lower_ascii c) = lower_ascii c.
Proof. by destruct c as [[] [] [] [] [] [] [] []]. Qed.

Lemma lower_idemp (s : string) : lower (lower s) = lower s.
Proof.
  induction s as [|c s IH]; [done|]. cbn [lower].
  by rewrite lower_ascii_idemp, IH.
Qed.

Lemma lower_lstrip (s : string) : lower (lstrip s) = lstrip (lower s).
Proof.
  induction s as [|c s IH]; [done|]. cbn [lower lstrip].
  rewrite is_space_lower_ascii. by destruct (is_space c).
Qed.

Lemma lower_rstrip (s : string) : lower (rstrip s) = rstrip (lower s).
Proof.
  induction s as [|c s IH]; [done|]. cbn [lower rstrip].
  rewrite <- IH, is_space_lower_ascii.
  destruct (rstrip s) as [|c' t]; [|done]. by destruct (is_space c).
Qed.

Lemma lower_strip (s : string) : lower (strip s) = strip (lower s).
Proof. unfold strip. by rewrite lower_rstrip, lower_lstrip. Qed.

Lemma rstrip_idemp (s : string) : rstrip (rstrip s) = rstrip s.
Proof.
  induction s as [|c s IH]; [done|]. cbn [rstrip].
  destruct (rstrip s) as [|c' t] eqn:Ht.
  - destruct (is_space c) eqn:Hc; [done|]. cbn [rstrip]. by rewrite Hc.
  - change (rstrip (String c (String c' t)))
      with (match rstrip (String c' t) with
            | EmptyString =>
                if is_space c then EmptyString else String c EmptyString
            | String c2 u => String c (String c2 u)
            end).
    by rewrite IH.
Qed.

Lemma lstrip_head (s : string) :
  lstrip s = EmptyString
  \/ exists c t, lstrip s = String c t /\ is_space c = false.
Proof.
  induction s as [|c s IH]; [by left|]. cbn [lstrip].
  destruct (is_space c) eqn:Hc; [done|]. right. by exists c, s.
Qed.

Lemma strip_idemp (s : string) : strip (strip s) = strip s.
Proof.
  unfold strip.
  assert (lstrip (rstrip (lstrip s)) = rstrip (lstrip s)) as ->.
  { destruct (lstrip_head s) as [->|(c & t & -> & Hc)]; [done|].
    cbn [rstrip]. rewrite Hc.
    destruct (rstrip t); cbn [lstrip]; by rewrite Hc. }
  apply rstrip_idemp.
Qed.

(** X23. The default provider that the module reads from the
    environment is stored in the form in which the handler compares
    provider names, stripped and lower-cased: for a configuration loaded
    from any environment, a request that names no provider resolves to
    [WEATHER_PROVIDER] itself, and is in mock mode exactly when that
    provider is ["mock"] or [USE_MOCK] is on. *)
Theorem loaded_default_provider_resolves
    (getenv : string -> option string) (cfg : config) (rq : request) :
  load_config getenv = Some cfg ->
  arg_provider rq = None \/ arg_provider rq = Some EmptyString ->
  resolve_provider cfg rq = WEATHER_PROVIDER cfg
  /\ mock_mode cfg (resolve_provider cfg rq)
     = String.eqb (WEATHER_PROVIDER cfg) "mock" || USE_MOCK cfg.
Proof.
  intros Hload Hrq.
  assert (lower (strip (WEATHER_PROVIDER cfg)) = WEATHER_PROVIDER cfg)
    as Hnorm.
  { unfold load_config in Hload. cbv zeta in Hload.
    destruct (int_of_str _) as [|ttl]; [done|].
    destruct (float_of_str _) as [|timeout]; [done|].
    injection Hload as <-. cbn [WEATHER_PROVIDER].
    by rewrite <- lower_strip, strip_idemp, lower_idemp. }
  assert (resolve_provider cfg rq = WEATHER_PROVIDER cfg) as Hp.
  { unfold resolve_provider. by destruct Hrq as [-> | ->]. }
  split; [done|]. unfold mock_mode.
  by rewrite Hp, String.eqb_refl.
Qed.

Lemma loaded_default_provider_resolves_witness :
  resolve_provider open_meteo_default_config (melbourne None None)
  = WEATHER_PROVIDER open_meteo_default_config
  /\ mock_mode open_meteo_default_config
       (resolve_provider open_meteo_default_config (melbourne None None))
     = String.eqb (WEATHER_PROVIDER open_meteo_default_config) "mock"
       || USE_MOCK open_meteo_default_config.
Proof.
  apply (loaded_default_provider_resolves
           (getenv_of [("WEATHER_PROVIDER", " Open-Meteo ")])
           open_meteo_default_config (melbourne None None)).
  - reflexivity.
  - by left.
Defined.

(** ** The allowed origins *)

Lemma lacks_lstrip (c : ascii) (s : string) :
  lacks c s = true -> lacks c (lstrip s) = true.
Proof.
  induction s as [|c' s IH]; [done|]. cbn [lstrip].
  destruct (is_space c'); [|done]. cbn [lacks].
  intros [_ Hs]%andb_true_iff. by apply IH.
Qed.

Lemma lacks_rstrip (c : ascii) (s : string) :
  lacks c s = true -> lacks c (rstrip s) = true.
Proof.
  induction s as [|c' s IH]; [done|]. cbn [rstrip lacks].
  intros [Hc Hs]%andb_true_iff. specialize (IH Hs).
  destruct (rstrip s) as [|c2 t].
  - destruct (is_space c'); [done|]. cbn [lacks]. by rewrite Hc.
  - cbn [lacks] in *. by rewrite Hc, IH.
Qed.

Lemma lacks_split_on (sep : ascii) (s : string) :
  Forall (fun piece => lacks sep piece = true) (split_on sep s).
Proof.
  induction s as [|c s IH]; [by repeat constructor|]. cbn [split_on].
  destruct (Ascii.eqb c sep) eqn:Hc; [by constructor|].
  destruct (split_on sep s) as [|piece rest].
  - repeat constructor. cbn [lacks]. by rewrite Hc.
  - inversion_clear IH as [|? ? Hpiece Hrest]. constructor; [|done].
    cbn [lacks]. by rewrite Hc, Hpiece.
Qed.

(** X24. Whatever the [ALLOWED_ORIGINS] variable holds, the origins
    given to CORS are clean: none is empty, none has whitespace around
    it, none holds a comma.  Empty pieces, as left by a trailing comma
    or by a blank variable, are dropped. *)
Theorem allowed_origins_clean (getenv : string -> option string) :
  Forall (fun o => o <> EmptyString /\ strip o = o /\ lacks "," o = true)
         (ALLOWED_ORIGINS getenv).
Proof.
  unfold ALLOWED_ORIGINS.
  pose proof (lacks_split_on ","
                (default "http://localhost:8000" (getenv "ALLOWED_ORIGINS")))
    as Hpieces.
  induction Hpieces as [|piece pieces Hpiece _ IH]; [constructor|].
  cbn [List.filter].
  destruct (String.eqb_spec (strip piece) EmptyString) as [|Hne];
    cbn [negb]; [exact IH|].
  cbn [map]. constructor; [|exact IH].
  split; [done|]. split; [apply strip_idemp|].
  unfold strip. by apply lacks_rstrip, lacks_lstrip.
Qed.

(** ** What the cache holds *)

(** One request leaves the cache with nothing new, or with one new entry
    under its own key: the forecast body it answered 200 with, expiring
    a TTL after the time read by [cache_set]. *)
Lemma weather_cache_change (cfg : config) (e : env) (rq : request)
    (w : world) :
  cache (weather cfg e rq w).2 ⊆ cache w
  \/ exists (key : string) (exp : float) (r : response),
       request_key cfg rq = Some key
       /\ (weather cfg e rq w).1 = ok r
       /\ status r = 200 /\ forecast_body (body r)
       /\ float_add_int (time_at_set e) (CACHE_TTL_SECONDS cfg) = ok exp
       /\ cache (weather cfg e rq w).2 = <[key := (exp, body r)]> (cache w).
Proof.
  destruct (int_of_str (default "7" (arg_days rq))) as [ex0|d] eqn:Hd.
  { left. by rewrite (weather_bad_days cfg e rq w ex0 Hd). }
  destruct (request_key cfg rq) as [key|] eqn:Hkey.
  2:{ left. unfold request_key in Hkey. unfold weather.
      rewrite M_bind_lift, Hd. rewrite Hd in Hkey.
      destruct (arg_lat rq) as [[|c lat]|], (arg_lon rq) as [[|c' lon]|];
        done. }
  destruct (request_key_Some _ _ _ Hkey)
    as (lat & lon & d' & Hlat & Hlat' & Hlon & Hlon' & Hd' & ->).
  rewrite (weather_present cfg e rq w lat lon d') by done.
  rewrite weather_lookup_run. cbv zeta.
  set (p := resolve_provider cfg rq).
  set (key := cache_key_of p lat lon d').
  assert (cache (cache_get (time_at_get e) key w).2 ⊆ cache w) as Hget.
  { rewrite cache_get_run. cbn [snd].
    destruct (cache w !! key) as [[exp data]|]; [|done].
    destruct (SFltb exp _); [|done]. apply delete_subseteq. }
  assert (forall v, <[key := v]> (cache (cache_get (time_at_get e) key w).2)
                    = <[key := v]> (cache w)) as Hins.
  { intros v. rewrite cache_get_run. cbn [snd].
    destruct (cache w !! key) as [[exp data]|]; [|done].
    destruct (SFltb exp _); [|done]. cbn. apply insert_delete_eq. }
  set (w1 := (cache_get (time_at_get e) key w).2) in *.
  assert (let run := if mock_mode cfg p
                     then mock_branch cfg e key lat lon d' w1
                     else upstream_branch cfg e p key lat lon d' w1 in
          cache run.2 ⊆ cache w
          \/ exists (key0 : string) (exp : float) (r : response),
               Some key = Some key0
               /\ run.1 = ok r
               /\ status r = 200 /\ forecast_body (body r)
               /\ float_add_int (time_at_set e) (CACHE_TTL_SECONDS cfg)
                  = ok exp
               /\ cache run.2 = <[key0 := (exp, body r)]> (cache w))
    as Hfresh.
  { cbv zeta. destruct (mock_mode cfg p).
    - unfold mock_branch. rewrite M_bind_lift.
      destruct (float_of_str lat) as [|latf]; [by left|].
      rewrite M_bind_lift.
      destruct (float_of_str lon) as [|lonf]; [by left|]. cbv zeta.
      rewrite M_bind_run, cache_set_run.
      destruct (float_add_int _ _) as [|exp] eqn:Hexp; [by left|].
      right. exists key, exp, (HttpResponse 200 (mock_data latf lonf d')).
      rewrite M_ret_run. cbn [fst snd status body cache with_cache].
      repeat split; [|apply Hins]. do 3 eexists. by right.
    - unfold upstream_branch.
      destruct (_ ≫= _) as [[]|[latf lonf]]; try by left.
      rewrite try_except_snd by apply upstream_handler_snd.
      unfold try_except.
      destruct (provider_block cfg e p key latf lonf d' w1)
        as [[ex|r] w2] eqn:Hblock.
      { left. cbn [snd].
        pose proof (provider_block_failure_cache cfg e p key latf lonf d' w1)
          as Hc.
        rewrite Hblock in Hc. cbn [fst snd] in Hc. by rewrite Hc. }
      apply provider_block_inv in Hblock
        as [(Hst & (loc & fc & Hbody) & exp & Hexp & Hcache)
           |(_ & _ & Hcache)].
      + right. exists key, exp, r. cbn [fst snd].
        repeat split; try done.
        * rewrite Hbody. do 3 eexists. by left.
        * by rewrite Hcache, Hins.
      + left. cbn [snd]. by rewrite Hcache. }
  cbv zeta in Hfresh.
  destruct (cache_lookup _ _ _) as [[|kv data]|]; try exact Hfresh.
  by left.
Qed.

(** X25. In every state a process can reach, each entry of the cache is
    the body of a forecast answered 200, with [location], [days] and
    [forecast] (and the mock marker): no error answer is ever stored, so
    none is ever served from the cache, and no entry is empty. *)
Theorem cache_holds_forecasts_only
    (cfg : config) (w : world) (k : string) (exp : float) (data : dict) :
  reachable cfg w ->
  cache w !! k = Some (exp, data) ->
  forecast_body data /\ data <> [].
Proof.
  intros Hreach. revert k exp data.
  induction Hreach as [|w e rq _ IH]; intros k exp data Hentry; [done|].
  destruct (weather_cache_change cfg e rq w)
    as [Hsub|(key & exp' & r & _ & _ & _ & Hbody & _ & Hcache)].
  - apply (IH k exp data). by eapply lookup_weaken.
  - rewrite Hcache in Hentry.
    destruct (decide (key = k)) as [->|Hne].
    + rewrite lookup_insert_eq in Hentry. injection Hentry as _ <-.
      split; [done|]. by destruct Hbody as (loc & d & fc & [-> | ->]).
    + rewrite lookup_insert_ne in Hentry by done. by apply (IH k exp data).
Qed.

Lemma cache_holds_forecasts_only_witness :
  forecast_body
    [("location", VDict [("lat", VFloat melbourne_lat);
                         ("lon", VFloat melbourne_lon)]);
     ("days", VInt 1);
     ("mock", VBool true);
     ("forecast", VList [mock_day 0])]
  /\ [("location", VDict [("lat", VFloat melbourne_lat);
                          ("lon", VFloat melbourne_lon)]);
      ("days", VInt 1);
      ("mock", VBool true);
      ("forecast", VList [mock_day 0])] <> [].
Proof.
  apply (cache_holds_forecasts_only default_config
           (weather default_config (offline_at noon)
              (melbourne (Some "1") None) fresh_world).2
           (cache_key_of "mock" "-37.8136" "144.9631" 1)
           (float_lit "1700000300")).
  - apply reachable_step, reachable_fresh.
  - reflexivity.
Defined.
